(** * trenchworldlaunch (fun-launch scaffold): pool cache, fee totals and batched fee claims

    A shallow embedding of the parts of the fun-launch scaffold that hold
    logic of their own:

    - [pages/admin.tsx]: the fee totals and [claimAllFees];
    - [pages/api/pools/get-all.ts]: the server-side read-through cache;
    - [contexts/PoolsCacheProvider.tsx]: the client-side persisted cache;
    - [pages/api/user/get-balance.ts]: the balance lookup endpoint;
    - [pages/api/admin/claim-fees.ts]: the admin claim-transaction endpoint.

    Handlers and React callbacks are [async] functions that mutate state and
    talk to the outside (RPC node, SDK, wallet, browser storage).  They are
    embedded in a state-and-exception monad [M S A]; everything outside the
    repository is a function from a world state to an answer and a new world
    state, taken as a section variable.  Every effect a property speaks about
    (HTTP calls, wallet prompts, toasts, console output) is appended to a
    trace held in the state. *)

From Stdlib Require Import ZArith String Ascii List Lia DecimalString DecimalPos.
From Stdlib Require QArith.
From stdpp Require Import base option list gmap strings.

Open Scope Z_scope.
Open Scope string_scope.
Open Scope list_scope.

(** ** A state-and-exception monad for [async] code with [try]/[catch] *)

(** What an [await]ed computation ends with: a value, or a thrown error
    (a rejected promise) carrying its message.  Where the error comes from
    library code a fixed text stands for its message. *)
Inductive result (A : Type) : Type :=
| Ok (a : A)
| Thrown (msg : string).
Arguments Ok {A} a.
Arguments Thrown {A} msg.

Definition M (S A : Type) : Type := S -> result A * S.

Definition ret {S A} (a : A) : M S A := fun s => (Ok a, s).

Definition bind {S A B} (m : M S A) (k : A -> M S B) : M S B :=
  fun s =>
    match m s with
    | (Ok a, s') => k a s'
    | (Thrown e, s') => (Thrown e, s')
    end.

Definition throw {S A} (msg : string) : M S A := fun s => (Thrown msg, s).

(** [try { m } catch (e) { h e }]: effects performed by [m] before it threw
    are kept. *)
Definition try_catch {S A} (m : M S A) (h : string -> M S A) : M S A :=
  fun s =>
    match m s with
    | (Ok a, s') => (Ok a, s')
    | (Thrown e, s') => h e s'
    end.

(** [try { m } finally { f }]. *)
Definition try_finally {S A} (m : M S A) (f : M S unit) : M S A :=
  fun s =>
    match m s with
    | (r, s') =>
        match f s' with
        | (Ok _, s'') => (r, s'')
        | (Thrown e, s'') => (Thrown e, s'')
        end
    end.

Definition modify {S} (f : S -> S) : M S unit := fun s => (Ok tt, f s).

(** A pure computation that may throw ([None]). *)
Definition lift_option {S A} (msg : string) (o : option A) : M S A :=
  match o with
  | Some a => ret a
  | None => throw msg
  end.

(** [await p] for a promise [p] already settled to [r]. *)
Definition unwrap {S A} (r : result A) : M S A :=
  match r with
  | Ok a => ret a
  | Thrown e => throw e
  end.

Notation "'let!' x ':=' m 'in' k" := (bind m (fun x => k))
  (at level 10, x pattern, m at level 100, k at level 200).
Notation "m '>>' k" := (bind m (fun _ => k))
  (at level 90, right associativity).

(** *** State, outside world and trace

    [St] is the state the code owns (component state, module variables),
    [World] whatever the collaborators depend on, [Ev] the effects worth
    recording. *)
Record Sys (St World Ev : Type) : Type := mkSys {
  st : St;
  world : World;
  trace : list Ev
}.
Arguments mkSys {St World Ev} st world trace.
Arguments st {St World Ev} s.
Arguments world {St World Ev} s.
Arguments trace {St World Ev} s.

Section Effects.

Context {St World Ev : Type}.

Definition emit (e : Ev) : M (Sys St World Ev) unit :=
  modify (fun s => mkSys (st s) (world s) (trace s ++ [e])).

Definition update (f : St -> St) : M (Sys St World Ev) unit :=
  modify (fun s => mkSys (f (st s)) (world s) (trace s)).

Definition read : M (Sys St World Ev) St :=
  fun s => (Ok (st s), s).

(** Ask a collaborator: record the call, then thread the world through it. *)
Definition call {A} (e : Ev) (f : World -> A * World) : M (Sys St World Ev) A :=
  fun s =>
    let (a, w) := f (world s) in
    (Ok a, mkSys (st s) w (trace s ++ [e])).

(** The same without a record in the trace (the clock). *)
Definition ask {A} (f : World -> A * World) : M (Sys St World Ev) A :=
  fun s =>
    let (a, w) := f (world s) in
    (Ok a, mkSys (st s) w (trace s)).

End Effects.

(** What [await fetch(...)] gives: the promise rejects (network failure), or
    it resolves to a response with its [ok] flag and its body.  [json] is
    [None] when reading the body as the expected JSON throws. *)
Inductive fetched (B : Type) : Type :=
| FetchRejected (msg : string)
| Response (ok : bool) (json : option B).
Arguments FetchRejected {B} msg.
Arguments Response {B} ok json.

(** A JSON answer of an API route: [res.status(..).json(..)], with the
    headers set before.  Every route answers a failure with
    [{error, details?}]. *)
Inductive payload (B : Type) : Type :=
| Failure (error : string) (details : option string)
| Success (b : B).
Arguments Failure {B} error details.
Arguments Success {B} b.

Record reply (B : Type) : Type := mkReply {
  status : Z;
  headers : list (string * string);
  body : payload B
}.
Arguments mkReply {B} status headers body.
Arguments status {B} r.
Arguments headers {B} r.
Arguments body {B} r.

(** Values a parsed JSON request body holds under a key.  A key the body
    does not hold reads as [undefined]: [None] in a lookup. *)
Inductive jsval : Type :=
| JNull
| JBool (b : bool)
| JNum (n : Z)   (* a number that is an integer *)
| JStr (s : string)
| JObject.   (* an object that is no array and has no [length] *)

(** JavaScript truthiness, as [!x] and [x || y] test it. *)
Definition truthy (v : option jsval) : bool :=
  match v with
  | None | Some JNull => false
  | Some (JBool b) => b
  | Some (JNum n) => negb (Z.eqb n 0)
  | Some (JStr s) => negb (String.eqb s "")
  | Some JObject => true
  end.

(** [v === undefined]. *)
Definition is_undefined (v : option jsval) : bool :=
  match v with
  | None => true
  | Some _ => false
  end.

(** [s === v] for a string [s]: strict equality holds for the same string
    only. *)
Definition strict_eq_string (s : string) (v : option jsval) : bool :=
  match v with
  | Some (JStr s') => String.eqb s s'
  | _ => false
  end.

(** [req.body] of a handler that destructures it outside its [try]: [None]
    is the JSON body [null], of which no property can be read; every other
    body is held as the fields it has (a string, a number or a boolean has
    none of those the handlers read). *)
Definition destructure {S} (req_body : option (gmap string jsval)) (field : string)
  : M S (gmap string jsval) :=
  match req_body with
  | Some fields => ret fields
  | None =>
      throw ("Cannot destructure property '" ++ field
             ++ "' of 'req.body' as it is null.")%string
  end.

(** An environment variable ([process.env.X as string]).  The code only
    tests these for falsiness before using them as strings, so an unset
    variable is held as the empty string. *)
Definition env_set (v : string) : bool := negb (String.eqb v "").

(** ** bn.js: arbitrary-precision integers

    A [BN] that holds a number is an unbounded integer, embedded as [Z].
    The string constructor can also leave an object that holds no number;
    [obj] has both.  Only what the scaffold uses is modelled: the base-10
    constructor from a string, the constructor from a JavaScript number,
    [add], [gte], [isZero] and [toString]. *)
Module BN.

(** A [BN] with words: the integer it holds. *)
Definition t : Type := Z.

(** A [BN] object.  [Num z] has words and holds [z].  [Blank negative] is
    what the string constructor leaves behind when it finds nothing to
    parse: [words] is still [null] and [length] is 0; [negative] tells
    whether a '-' was read. *)
Inductive obj : Type :=
| Num (z : t)
| Blank (negative : bool).

(** The value of one base-10 digit, as [parseBase] computes it from the
    character code ([c = charCodeAt(i) - 48]); the library asserts
    [0 <= c < 10] and throws 'Invalid character' otherwise. *)
Definition digit (c : ascii) : option Z :=
  let n := Z.of_nat (nat_of_ascii c) - 48 in
  if bool_decide (0 <= n < 10) then Some n else None.

(** [parseBase]: [r *= 10; r += digit] over the characters. *)
Fixpoint parseBase (str : string) (r : Z) : option Z :=
  match str with
  | EmptyString => Some r
  | String c rest =>
      match digit c with
      | Some b => parseBase rest (r * 10 + b)
      | None => None
      end
  end.

(** White space as the constructor strips it ([replace(/\s+/g, '')]):
    tab, line feed, vertical tab, form feed, carriage return and space. *)
Definition is_space (c : ascii) : bool :=
  let n := nat_of_ascii c in
  ((9 <=? n) && (n <=? 13))%nat || (n =? 32)%nat.

Fixpoint strip_spaces (str : string) : string :=
  match str with
  | EmptyString => EmptyString
  | String c rest =>
      if is_space c then strip_spaces rest else String c (strip_spaces rest)
  end.

(** The integer [new BN(number)] holds for a string [number]: the empty
    string is falsy and becomes [0] ([number || 0]); otherwise white space is
    stripped, a leading '-' negates and the remaining characters are read as
    base-10 digits.  [None] stands for every other string, for which the
    constructor builds no number: see [construct] for what it does then.
    The server writes these strings with [toString], so it only sends
    decimal numerals. *)
Definition of_string (number : string) : option t :=
  match number with
  | EmptyString => Some 0
  | _ =>
      match strip_spaces number with
      | EmptyString => None
      | String "-"%char EmptyString => None
      | String "-"%char digits => Z.opp <$> parseBase digits 0
      | digits => parseBase digits 0
      end
  end.

(** [new BN(number)] for a JavaScript number holding the integer [number]:
    the constructor asserts [|number| < 0x20000000000000] (2^53). *)
Definition of_number (number : Z) : option t :=
  if bool_decide (Z.abs number < 2 ^ 53) then Some number else None.

(** [new BN(number)] for a string [number]; [None] is a constructor that
    throws.  Where [of_string] reads an integer the object holds it.  When
    stripping the white space leaves nothing, or a '-' alone, [_init] has
    nothing to parse and returns without throwing: the object has no words.
    Every other string holds a character that is no digit, on which
    [parseBase] asserts and throws 'Invalid character'. *)
Definition construct (number : string) : option obj :=
  match of_string number with
  | Some z => Some (Num z)
  | None =>
      match strip_spaces number with
      | EmptyString => Some (Blank false)
      | String "-"%char EmptyString => Some (Blank true)
      | _ => None
      end
  end.

(** What [b] adds to a sum: [iadd] and [isub] loop over the words of the
    shorter operand, so an object with no words adds nothing, whatever its
    sign. *)
Definition addend (b : obj) : t :=
  match b with
  | Num z => z
  | Blank _ => 0
  end.

(** [a.add(b)] for a receiver [a] that has words. *)
Definition add (a : t) (b : obj) : t := a + addend b.

(** [a.gte(b)] for an argument [b] that has words.  [cmp] looks at the signs
    first and then at the lengths: an object with no words is shorter than
    any number, so it compares below every [b] that is not negative, and
    above every negative [b]. *)
Definition gte (a : obj) (b : t) : bool :=
  match a with
  | Num z => bool_decide (z >= b)
  | Blank _ => bool_decide (b < 0)
  end.

(** [a.isZero()]: [length === 1 && words[0] === 0]. *)
Definition isZero (a : obj) : bool :=
  match a with
  | Num z => Z.eqb z 0
  | Blank _ => false
  end.

(** [toString()] in base 10: "0" for zero, a '-' before negative values, no
    leading zeros. *)
Definition to_string (a : t) : string := NilZero.string_of_int (Z.to_int a).

End BN.

(** ** pages/admin.tsx: the admin dashboard *)
Module Admin.

(** [type FeeMetrics]: a pool address and six amounts in minor units, each a
    decimal string as the fee endpoint serialises them. *)
Record FeeMetrics : Type := mkFeeMetrics {
  poolAddress : string;
  partnerBaseFee : string;
  partnerQuoteFee : string;
  creatorBaseFee : string;
  creatorQuoteFee : string;
  totalTradingBaseFee : string;
  totalTradingQuoteFee : string
}.

(** *** Totals (admin.tsx:247-251) *)

(** [fees.reduce((sum, f) => sum.add(new BN(field f)), new BN(0))].  The
    accumulator is [None] once a constructor has thrown: the exception
    leaves [reduce]. *)
Definition reduce_add (field : FeeMetrics -> string) (fees : list FeeMetrics)
  : option BN.t :=
  fold_left
    (fun acc f => sum ← acc; v ← BN.construct (field f); Some (BN.add sum v))
    fees (BN.of_number 0).

(** The same sum written from the right, as one would on paper; it is
    defined when no constructor throws. *)
Fixpoint sum_right (field : FeeMetrics -> string) (fees : list FeeMetrics)
  : option Z :=
  match fees with
  | [] => Some 0
  | f :: rest =>
      match BN.construct (field f), sum_right field rest with
      | Some v, Some total => Some (BN.addend v + total)
      | _, _ => None
      end
  end.

Record Totals : Type := mkTotals {
  totalPartnerQuoteFee : BN.t;
  totalPartnerBaseFee : BN.t;
  totalCreatorQuoteFee : BN.t;
  totalCreatorBaseFee : BN.t
}.

(** The four totals the component computes while rendering, in the order of
    the source. *)
Definition totals (fees : list FeeMetrics) : option Totals :=
  pq ← reduce_add partnerQuoteFee fees;
  pb ← reduce_add partnerBaseFee fees;
  cq ← reduce_add creatorQuoteFee fees;
  cb ← reduce_add creatorBaseFee fees;
  Some (mkTotals pq pb cq cb).

(** *** Selection of claimable pools (admin.tsx:157-165) *)

(** The callback of [fees.filter]:
    [new BN(f.partnerQuoteFee).gte(MIN_SOL_THRESHOLD)]. *)
Definition is_claimable (MIN_SOL_THRESHOLD : BN.t) (f : FeeMetrics) : option bool :=
  quoteFee ← BN.construct (partnerQuoteFee f);
  Some (BN.gte quoteFee MIN_SOL_THRESHOLD).

(** [fees.filter(callback)], the callback being allowed to throw. *)
Fixpoint filter_pools (MIN_SOL_THRESHOLD : BN.t) (fees : list FeeMetrics)
  : option (list FeeMetrics) :=
  match fees with
  | [] => Some []
  | f :: rest =>
      keep ← is_claimable MIN_SOL_THRESHOLD f;
      kept ← filter_pools MIN_SOL_THRESHOLD rest;
      Some (if keep : bool then f :: kept else kept)
  end.

(** *** The page: state, collaborators, effects *)

(** The JSON body [claimAllFees] posts to [/api/admin/claim-fees]. *)
Record ClaimFeesBody : Type := mkClaimFeesBody {
  body_poolAddress : string;
  body_payerAddress : string;
  body_maxBaseAmount : string;
  body_maxQuoteAmount : string
}.

(** The request [claimAllFees] posts for one record. *)
Definition claim_request (payer : string) (feeMetric : FeeMetrics) : ClaimFeesBody :=
  mkClaimFeesBody (poolAddress feeMetric) payer
    (partnerBaseFee feeMetric) (partnerQuoteFee feeMetric).

(** Observable effects of the page, in the order they happen. *)
Inductive event (Transaction : Type) : Type :=
| ToastConnectWallet                       (* toast.error('Please connect your wallet') *)
| ToastNoFees                              (* toast.info(`No fees to claim (minimum .. SOL threshold)`) *)
| ToastClaiming (pools : nat)              (* toast.info(`Claiming fees from .. pool(s) ..`) *)
| ToastClaimed (prefix : string)           (* toast.success(`Claimed fees from pool ..`) *)
| ToastSummarySuccess (successCount : Z)   (* toast.success(`Successfully claimed fees from .. pool(s)`) *)
| ToastSummaryFailed (failCount : Z)       (* toast.error(`Failed to claim fees from .. pool(s)`) *)
| ToastLoaded (pools : nat)                (* toast.success(`Loaded fees for .. pools`) *)
| ToastFetchFailed (description : string)  (* toast.error('Failed to fetch fees', ..) *)
| ConsoleError (pool : string) (msg : string)
                                           (* console.error(`Error claiming fees from pool ..:`, error) *)
| PostClaimFees (body : ClaimFeesBody)     (* fetch('/api/admin/claim-fees', POST) *)
| SignTransaction (tx : Transaction)       (* signTransaction(transaction) *)
| PostSendTransaction (payload : string)   (* fetch('/api/send-transaction', POST) *)
| GetAdminFees.                            (* fetch('/api/admin/get-fees') *)
Arguments ToastConnectWallet {Transaction}.
Arguments ToastNoFees {Transaction}.
Arguments ToastClaiming {Transaction} pools.
Arguments ToastClaimed {Transaction} prefix.
Arguments ToastSummarySuccess {Transaction} successCount.
Arguments ToastSummaryFailed {Transaction} failCount.
Arguments ToastLoaded {Transaction} pools.
Arguments ToastFetchFailed {Transaction} description.
Arguments ConsoleError {Transaction} pool msg.
Arguments PostClaimFees {Transaction} body.
Arguments SignTransaction {Transaction} tx.
Arguments PostSendTransaction {Transaction} payload.
Arguments GetAdminFees {Transaction}.

(** The component state [claimAllFees] reads or writes.  [publicKey] is the
    connected wallet's address in base 58; [signTransaction] tells whether
    the wallet adapter offers that function.  [minLamports] is the value of
    [Math.floor(minSolThreshold * 1e9)]: the floating-point product is not
    modelled, its integer result is the state. *)
Record State : Type := mkState {
  publicKey : option string;
  signTransaction : bool;
  fees : list FeeMetrics;
  configAddress : string;
  minLamports : Z;
  loading : bool;
  claimingAll : bool
}.

(** How a run of [claimAllFees] ends when it does not throw.  The TypeScript
    function returns nothing; [BatchDone] carries the last values of its
    local counters. *)
Inductive outcome : Type :=
| WalletNotConnected
| NothingToClaim
| BatchDone (successCount failCount : Z).

Section Page.

Context {World Transaction : Type}.

(** The collaborators: the claim endpoint answers with a transaction (the
    [transaction] field decoded by [Buffer.from] and [Transaction.from]), the
    wallet signs or refuses (the answer is the base-64 of
    [signedTx.serialize()]), the send endpoint answers with a signature, the
    fee endpoint with the fee list and the configuration address. *)
Context (post_claim_fees : ClaimFeesBody -> World -> fetched Transaction * World).
Context (wallet_sign : Transaction -> World -> result string * World).
Context (post_send_transaction : string -> World -> fetched string * World).
Context (get_admin_fees : World -> fetched (list FeeMetrics * string) * World).

Definition setLoading (b : bool) : State -> State :=
  fun st => mkState (publicKey st) (signTransaction st) (fees st)
              (configAddress st) (minLamports st) b (claimingAll st).

Definition setClaimingAll (b : bool) : State -> State :=
  fun st => mkState (publicKey st) (signTransaction st) (fees st)
              (configAddress st) (minLamports st) (loading st) b.

Definition setFees (fs : list FeeMetrics) (config : string) : State -> State :=
  fun st => mkState (publicKey st) (signTransaction st) fs
              config (minLamports st) (loading st) (claimingAll st).

(** [fetchFees] (admin.tsx:36-72).  Its console output is not recorded, and
    the description of its error toast is the message of the error. *)
Definition fetchFees : M (Sys State World (event Transaction)) unit :=
  update (setLoading true) >>
  try_finally
    (try_catch
       (let! response := call GetAdminFees get_admin_fees in
        match response with
        | FetchRejected msg => throw msg
        | Response false _ => throw "Failed to fetch fees"
        | Response true None => throw "Unexpected end of JSON input"
        | Response true (Some (data_fees, data_configAddress)) =>
            update (setFees data_fees data_configAddress) >>
            emit (ToastLoaded (length data_fees))
        end)
       (fun error => emit (ToastFetchFailed error)))
    (update (setLoading false)).

(** One turn of the loop of [claimAllFees] (admin.tsx:178-226): the body of
    the [try] block, then the [catch] block. *)
Definition claim_iteration (payer : string) (feeMetric : FeeMetrics)
    (successCount failCount : Z) : M (Sys State World (event Transaction)) (Z * Z) :=
  try_catch
    (let! response :=
       call (PostClaimFees (claim_request payer feeMetric))
            (post_claim_fees (claim_request payer feeMetric)) in
     match response with
     | FetchRejected msg => throw msg
     | Response false _ => throw "Failed to create claim transaction"
     | Response true None => throw "Invalid transaction"
     | Response true (Some transaction) =>
         let! signed := call (SignTransaction transaction) (wallet_sign transaction) in
         let! signedTx := unwrap signed in
         let! sendResponse :=
           call (PostSendTransaction signedTx) (post_send_transaction signedTx) in
         match sendResponse with
         | FetchRejected msg => throw msg
         | Response false _ => throw "Failed to send transaction"
         | Response true _ =>
             emit (ToastClaimed (substring 0 8 (poolAddress feeMetric))) >>
             ret (successCount + 1, failCount)
         end
     end)
    (fun error =>
       emit (ConsoleError (poolAddress feeMetric) error) >>
       ret (successCount, failCount + 1)).

(** [for (const feeMetric of poolsWithFees) { ... }]. *)
Fixpoint claim_loop (payer : string) (poolsWithFees : list FeeMetrics)
    (successCount failCount : Z) : M (Sys State World (event Transaction)) (Z * Z) :=
  match poolsWithFees with
  | [] => ret (successCount, failCount)
  | feeMetric :: rest =>
      let! counts := claim_iteration payer feeMetric successCount failCount in
      claim_loop payer rest (fst counts) (snd counts)
  end.

(** [claimAllFees] (admin.tsx:151-239). *)
Definition claimAllFees : M (Sys State World (event Transaction)) outcome :=
  let! s := read in
  match publicKey s, signTransaction s with
  | Some payer, true =>
      let! MIN_SOL_THRESHOLD :=
        lift_option "Assertion failed" (BN.of_number (minLamports s)) in
      let! poolsWithFees :=
        lift_option "Invalid character"
          (filter_pools MIN_SOL_THRESHOLD (fees s)) in
      if bool_decide (length poolsWithFees = 0%nat) then
        emit ToastNoFees >> ret NothingToClaim
      else
        emit (ToastClaiming (length poolsWithFees)) >>
        update (setClaimingAll true) >>
        let! counts := claim_loop payer poolsWithFees 0 0 in
        update (setClaimingAll false) >>
        (if bool_decide (fst counts > 0)
         then emit (ToastSummarySuccess (fst counts)) else ret tt) >>
        (if bool_decide (snd counts > 0)
         then emit (ToastSummaryFailed (snd counts)) else ret tt) >>
        fetchFees >>
        ret (BatchDone (fst counts) (snd counts))
  | _, _ => emit ToastConnectWallet >> ret WalletNotConnected
  end.

End Page.

(** *** The claim of one record, step by step

    The three steps of the claim of one record as the specification names
    them (4.4): the draft, asked of the claim endpoint; the signature, asked
    of the wallet; the submission, asked of the send endpoint.  A step is
    asked only when the step before it has given its result, and what the
    three answer decides how the attempt ends.  This is the reference the
    loop of [claimAllFees] is compared with. *)
Inductive attempt (Transaction : Type) : Type :=
| DraftError (msg : string)
| SignError (transaction : Transaction) (msg : string)
| SubmitError (transaction : Transaction) (signedTx : string) (msg : string)
| Claimed (transaction : Transaction) (signedTx : string).
Arguments DraftError {Transaction} msg.
Arguments SignError {Transaction} transaction msg.
Arguments SubmitError {Transaction} transaction signedTx msg.
Arguments Claimed {Transaction} transaction signedTx.

Definition failed {Transaction : Type} (a : attempt Transaction) : bool :=
  match a with
  | Claimed _ _ => false
  | _ => true
  end.

Definition failures {Transaction : Type} (attempts : list (attempt Transaction)) : nat :=
  length (List.filter failed attempts).

Definition successes {Transaction : Type} (attempts : list (attempt Transaction)) : nat :=
  length (List.filter (fun a => negb (failed a)) attempts).

Section Pipeline.

Context {World Transaction : Type}.
Context (post_claim_fees : ClaimFeesBody -> World -> fetched Transaction * World).
Context (wallet_sign : Transaction -> World -> result string * World).
Context (post_send_transaction : string -> World -> fetched string * World).

(** The draft fails when the request is rejected, when the response is not
    ok, or when its body holds no transaction; the signature fails when the
    wallet throws; the submission fails when the request is rejected or the
    response is not ok. *)
Definition claimOne (request : ClaimFeesBody) (w : World)
  : attempt Transaction * World :=
  let (draft, w1) := post_claim_fees request w in
  match draft with
  | FetchRejected msg => (DraftError msg, w1)
  | Response false _ => (DraftError "Failed to create claim transaction", w1)
  | Response true None => (DraftError "Invalid transaction", w1)
  | Response true (Some transaction) =>
      let (signed, w2) := wallet_sign transaction w1 in
      match signed with
      | Thrown msg => (SignError transaction msg, w2)
      | Ok signedTx =>
          let (sent, w3) := post_send_transaction signedTx w2 in
          match sent with
          | FetchRejected msg => (SubmitError transaction signedTx msg, w3)
          | Response false _ =>
              (SubmitError transaction signedTx "Failed to send transaction", w3)
          | Response true _ => (Claimed transaction signedTx, w3)
          end
      end
  end.

(** One attempt per record, in the order of the records, each in the world
    the attempt before it has left. *)
Fixpoint claimAll (payer : string) (records : list FeeMetrics) (w : World)
  : list (attempt Transaction) * World :=
  match records with
  | [] => ([], w)
  | f :: rest =>
      let (a, w1) := claimOne (claim_request payer f) w in
      let (attempts, w2) := claimAll payer rest w1 in
      (a :: attempts, w2)
  end.

End Pipeline.

(** What an attempt shows on the page: the request; the wallet prompt when
    the draft was given; the submission when the wallet signed; and at the
    end the toast of the claimed pool or the logged error. *)
Definition turn_events {Transaction : Type} (payer : string) (f : FeeMetrics)
    (a : attempt Transaction) : list (event Transaction) :=
  PostClaimFees (claim_request payer f) ::
  match a with
  | DraftError msg => [ConsoleError (poolAddress f) msg]
  | SignError transaction msg =>
      [SignTransaction transaction; ConsoleError (poolAddress f) msg]
  | SubmitError transaction signedTx msg =>
      [SignTransaction transaction; PostSendTransaction signedTx;
       ConsoleError (poolAddress f) msg]
  | Claimed transaction signedTx =>
      [SignTransaction transaction; PostSendTransaction signedTx;
       ToastClaimed (substring 0 8 (poolAddress f))]
  end.

Fixpoint loop_events {Transaction : Type} (payer : string)
    (records : list FeeMetrics) (attempts : list (attempt Transaction))
  : list (event Transaction) :=
  match records, attempts with
  | f :: rest, a :: others => turn_events payer f a ++ loop_events payer rest others
  | _, _ => []
  end.

(** *** Reading a trace *)

Section Observations.

Context {Transaction : Type}.

(** The bodies posted to [/api/admin/claim-fees], in order. *)
Definition claim_requests (tr : list (event Transaction)) : list ClaimFeesBody :=
  omap (fun e => match e with PostClaimFees b => Some b | _ => None end) tr.

(** Wallet prompts and posts to [/api/send-transaction]. *)
Definition is_sign_or_submit (e : event Transaction) : bool :=
  match e with
  | SignTransaction _ | PostSendTransaction _ => true
  | _ => false
  end.

(** Turns of the loop that reached the end of the [try] block. *)
Definition is_success (e : event Transaction) : bool :=
  match e with
  | ToastClaimed _ => true
  | _ => false
  end.

(** Turns of the loop that ended in the [catch] block. *)
Definition is_failure (e : event Transaction) : bool :=
  match e with
  | ConsoleError _ _ => true
  | _ => false
  end.

Definition count (p : event Transaction -> bool) (tr : list (event Transaction)) : nat :=
  length (List.filter p tr).

(** The signal that nothing reached the threshold. *)
Definition is_nothing_to_claim (e : event Transaction) : bool :=
  match e with
  | ToastNoFees => true
  | _ => false
  end.

(** The toasts that sum a batch up. *)
Definition is_summary (e : event Transaction) : bool :=
  match e with
  | ToastSummarySuccess _ | ToastSummaryFailed _ => true
  | _ => false
  end.

End Observations.

End Admin.

(** ** The pool listing: [/api/pools/get-all] and its client *)

(** [interface Pool]: what the endpoint answers for one pool and what the
    client keeps. *)
Record Metadata : Type := mkMetadata {
  name : string;
  symbol : string;
  website : string;
  logo : string
}.

Record Pool : Type := mkPool {
  address : string;
  config : string;
  baseMint : string;
  creator : string;
  baseReserve : string;
  quoteReserve : string;
  metadata : option Metadata
}.

(** *** pages/api/pools/get-all.ts: the server-side read-through cache *)
Module PoolsApi.

Definition CACHE_DURATION_MS : Z := 60 * 1000.

(** The module variable [cachedData] when it is not [null]. *)
Record CachedData : Type := mkCachedData {
  pools : list Pool;
  timestamp : Z
}.

(** The module state: the two environment variables read at load time and
    the cache. *)
Record State : Type := mkState {
  RPC_URL : string;
  POOL_CONFIG_KEY : string;
  cachedData : option CachedData
}.

(** A pool account as the SDK returns it: addresses already in base 58,
    reserves as [BN]. *)
Record PoolAccount : Type := mkPoolAccount {
  publicKey : string;
  account_config : string;
  account_baseMint : string;
  account_creator : string;
  account_baseReserve : BN.t;
  account_quoteReserve : BN.t
}.

(** The fields of a DAS asset the handler reads; [None] is [undefined]. *)
Record Asset : Type := mkAsset {
  content_metadata_name : option string;
  content_metadata_symbol : option string;
  content_links_external_url : option string;
  content_files_0_uri : option string;
  content_links_image : option string
}.

(** The answer to the [getAsset] call: [fetch] or [response.json()] throws,
    or the JSON holds [result] and possibly a truthy [error]. *)
Inductive asset_reply : Type :=
| AssetThrown (msg : string)
| AssetJson (result : option Asset) (error : bool).

(** [a || b] on an optional string: [undefined] and the empty string are
    falsy. *)
Definition or_else (a : option string) (b : string) : string :=
  match a with
  | Some s => if String.eqb s "" then b else s
  | None => b
  end.

Definition metadata_of (asset : Asset) : Metadata :=
  mkMetadata
    (or_else (content_metadata_name asset) "Unknown Token")
    (or_else (content_metadata_symbol asset) "")
    (or_else (content_links_external_url asset) "")
    (or_else (content_files_0_uri asset) (or_else (content_links_image asset) "")).

Definition pool_json (pool : PoolAccount) (md : option Metadata) : Pool :=
  mkPool (publicKey pool) (account_config pool) (account_baseMint pool)
    (account_creator pool)
    (BN.to_string (account_baseReserve pool))
    (BN.to_string (account_quoteReserve pool))
    md.

(** The success body: [{pools, count, cached, cacheAge?}]. *)
Record PoolsBody : Type := mkPoolsBody {
  body_pools : list Pool;
  body_count : nat;
  body_cached : bool;
  body_cacheAge : option Z
}.

(** Calls to the Remote Data Source. *)
Inductive event : Type :=
| GetPoolsByConfig (configKey : string)
| GetAsset (mint : string).

Section Handler.

Context {World Connection PublicKey : Type}.

(** [Date.now()]; the constructors of [Connection] and [PublicKey], which
    throw on an ill-formed argument; the two remote calls. *)
Context (Date_now : World -> Z * World).
Context (new_Connection : string -> option Connection).
Context (new_PublicKey : string -> option PublicKey).
Context (getPoolsByConfig :
  Connection -> PublicKey -> World -> result (list PoolAccount) * World).
Context (getAsset : string -> string -> World -> asset_reply * World).

Definition setCachedData (c : CachedData) : State -> State :=
  fun s => mkState (RPC_URL s) (POOL_CONFIG_KEY s) (Some c).

Definition cache_headers : list (string * string) :=
  [("Cache-Control", "public, s-maxage=60, stale-while-revalidate=120")].

(** The callback of [pools.map] (get-all.ts:54-107): its [try]/[catch]
    answers the pool without metadata when the lookup throws.  The promises
    of [Promise.all] are run one after the other, in the order of the list. *)
Definition with_metadata (rpc : string) (pool : PoolAccount)
  : M (Sys State World event) Pool :=
  let! data := call (GetAsset (account_baseMint pool))
                 (getAsset rpc (account_baseMint pool)) in
  match data with
  | AssetThrown _ => ret (pool_json pool None)
  | AssetJson (Some asset) false => ret (pool_json pool (Some (metadata_of asset)))
  | AssetJson _ _ => ret (pool_json pool None)
  end.

Fixpoint map_with_metadata (rpc : string) (pools : list PoolAccount)
  : M (Sys State World event) (list Pool) :=
  match pools with
  | [] => ret []
  | pool :: rest =>
      let! p := with_metadata rpc pool in
      let! ps := map_with_metadata rpc rest in
      ret (p :: ps)
  end.

(** The [try] block (get-all.ts:45-125). *)
Definition refresh (rpc key : string)
  : M (Sys State World event) (reply PoolsBody) :=
  let! connection := lift_option "Endpoint URL must start with `http:` or `https:`."
                       (new_Connection rpc) in
  let! configKey := lift_option "Invalid public key input" (new_PublicKey key) in
  let! fetched_pools := call (GetPoolsByConfig key)
                          (getPoolsByConfig connection configKey) in
  let! pools := unwrap fetched_pools in
  let! poolsWithMetadata := map_with_metadata rpc pools in
  let! now := ask Date_now in
  update (setCachedData (mkCachedData poolsWithMetadata now)) >>
  ret (mkReply 200 cache_headers
         (Success (mkPoolsBody poolsWithMetadata (length poolsWithMetadata) false None))).

(** The part of [handler] after the cache test (get-all.ts:37-132): the
    configuration test, then the [try] block and its [catch]. *)
Definition handler_miss (s : State)
  : M (Sys State World event) (reply PoolsBody) :=
  if negb (env_set (RPC_URL s)) || negb (env_set (POOL_CONFIG_KEY s)) then
    ret (mkReply 500 []
           (Failure "Server configuration error"
              (Some "Missing required environment variables")))
  else
    try_catch (refresh (RPC_URL s) (POOL_CONFIG_KEY s))
      (fun error =>
         ret (mkReply 500 [] (Failure "Failed to fetch pools" (Some error)))).

(** [handler] (get-all.ts:15-133). *)
Definition handler (method : string)
  : M (Sys State World event) (reply PoolsBody) :=
  if negb (String.eqb method "GET") then
    ret (mkReply 405 [] (Failure "Method not allowed" None))
  else
    let! now := ask Date_now in
    let! s := read in
    match cachedData s with
    | Some c =>
        if bool_decide (now - timestamp c < CACHE_DURATION_MS) then
          ret (mkReply 200 cache_headers
                 (Success (mkPoolsBody (pools c) (length (pools c)) true
                             (Some ((now - timestamp c) / 1000)))))
        else handler_miss s
    | None => handler_miss s
    end.

End Handler.

End PoolsApi.

(** *** contexts/PoolsCacheProvider.tsx: the client-side persisted cache *)
Module PoolsCacheProvider.

Definition CACHE_KEY : string := "trenchfun_pools_cache".
Definition CACHE_DURATION_MS : Z := 60 * 1000.

(** The four [useState] cells of the provider and the browser's
    [localStorage]. *)
Record State : Type := mkState {
  pools : list Pool;
  loading : bool;
  error : option string;
  lastFetch : option Z;
  localStorage : gmap string string
}.

(** What is read from a JSON body of [/api/pools/get-all]: [data.pools] of a
    success, [errorData.error] of a failure ([None] when absent). *)
Record PoolsJson : Type := mkPoolsJson {
  data_pools : list Pool;
  data_error : option string
}.

Inductive event : Type :=
| ConsoleLog (msg : string)
| ConsoleError (context : string) (msg : string)
| FetchPools.    (* fetch('/api/pools/get-all') *)

Section Provider.

Context {World : Type}.

(** [Date.now()]; the request to the endpoint; [JSON.parse] of a stored
    entry followed by the destructuring [{pools, timestamp}], [None] when
    either throws, the time stamp being [None] when it is no number (the
    age is then [NaN] and the freshness test fails); [JSON.stringify] of an
    entry; and whether [localStorage.setItem] accepts a write or throws
    (quota). *)
Context (Date_now : World -> Z * World).
Context (fetch_pools : World -> fetched PoolsJson * World).
Context (JSON_parse : string -> option (list Pool * option Z)).
Context (JSON_stringify : list Pool -> Z -> string).
Context (setItem_accepts : gmap string string -> string -> string -> bool).

Definition setPools (ps : list Pool) : State -> State :=
  fun s => mkState ps (loading s) (error s) (lastFetch s) (localStorage s).

Definition setLoading (b : bool) : State -> State :=
  fun s => mkState (pools s) b (error s) (lastFetch s) (localStorage s).

Definition setError (e : option string) : State -> State :=
  fun s => mkState (pools s) (loading s) e (lastFetch s) (localStorage s).

Definition setLastFetch (t : Z) : State -> State :=
  fun s => mkState (pools s) (loading s) (error s) (Some t) (localStorage s).

Definition setItem (key value : string) : State -> State :=
  fun s => mkState (pools s) (loading s) (error s) (lastFetch s)
             (<[key := value]> (localStorage s)).

(** The effect run on mount (PoolsCacheProvider.tsx:37-55). *)
Definition loadFromLocalStorage : M (Sys State World event) unit :=
  try_catch
    (let! s := read in
     match localStorage s !! CACHE_KEY with
     | Some cached =>
         if String.eqb cached "" then ret tt
         else
           let! entry := lift_option "Unexpected token in JSON" (JSON_parse cached) in
           let! now := ask Date_now in
           match entry with
           | (cachedPools, Some timestamp) =>
               if bool_decide (now - timestamp < CACHE_DURATION_MS) then
                 update (setPools cachedPools) >>
                 update (setLastFetch timestamp) >>
                 emit (ConsoleLog "Loaded pools from localStorage cache")
               else ret tt
           | (_, None) => ret tt
           end
     | None => ret tt
     end)
    (fun err => emit (ConsoleError "Failed to load cache from localStorage:" err)).

(** [lastFetch && (now - lastFetch) < CACHE_DURATION_MS]: [null] and [0] are
    falsy. *)
Definition is_fresh (now : Z) (lastFetch : option Z) : bool :=
  match lastFetch with
  | Some t => negb (Z.eqb t 0) && bool_decide (now - t < CACHE_DURATION_MS)
  | None => false
  end.

(** [fetchPools] (PoolsCacheProvider.tsx:57-100). *)
Definition fetchPools (forceRefresh : bool) : M (Sys State World event) unit :=
  let! now := ask Date_now in
  let! s := read in
  if negb forceRefresh && is_fresh now (lastFetch s) then
    emit (ConsoleLog "Using cached pool data, skipping fetch")
  else
    update (setLoading true) >>
    update (setError None) >>
    try_finally
      (try_catch
         (let! response := call FetchPools fetch_pools in
          match response with
          | FetchRejected msg => throw msg
          | Response _ None => throw "Unexpected end of JSON input"
          | Response false (Some errorData) =>
              throw (match data_error errorData with
                     | Some e => if String.eqb e "" then "Failed to fetch pools" else e
                     | None => "Failed to fetch pools"
                     end)
          | Response true (Some data) =>
              let! fetchTime := ask Date_now in
              update (setPools (data_pools data)) >>
              update (setLastFetch fetchTime) >>
              (let! s' := read in
               if setItem_accepts (localStorage s') CACHE_KEY
                    (JSON_stringify (data_pools data) fetchTime)
               then update (setItem CACHE_KEY (JSON_stringify (data_pools data) fetchTime))
               else emit (ConsoleError "Failed to save cache to localStorage:"
                            "QuotaExceededError")) >>
              emit (ConsoleLog "Fetched pools")
          end)
         (fun errorMessage =>
            update (setError (Some errorMessage)) >>
            emit (ConsoleError "Error fetching pools:" errorMessage)))
      (update (setLoading false)).

End Provider.

End PoolsCacheProvider.

(** ** pages/api/user/get-balance.ts *)
Module GetBalance.

Inductive event (PublicKey : Type) : Type :=
| RpcGetBalance (publicKey : PublicKey).
Arguments RpcGetBalance {PublicKey} publicKey.

(** [{balance: balanceLamports / LAMPORTS_PER_SOL}]: the quotient is a
    floating-point number; the body keeps the dividend. *)
Record BalanceBody : Type := mkBalanceBody {
  balanceLamports : Z
}.

Section Handler.

Context {World Connection PublicKey : Type}.
Context (new_Connection : string -> option Connection).
Context (new_PublicKey : jsval -> option PublicKey).
Context (getBalance : Connection -> PublicKey -> World -> result Z * World).

(** [handler] (get-balance.ts:6-39); the state is the environment variable
    [RPC_URL].  The body is destructured at line 14, before the [try] of
    line 24: on a [null] body the handler itself throws. *)
Definition handler (method : string) (body : option (gmap string jsval))
  : M (Sys string World (event PublicKey)) (reply BalanceBody) :=
  if negb (String.eqb method "POST") then
    ret (mkReply 405 [] (Failure "Method not allowed" None))
  else
    let! req_body := destructure body "address" in
    if negb (truthy (req_body !! "address")) then
      ret (mkReply 400 [] (Failure "Address is required" None))
    else
      let! RPC_URL := read in
      if negb (env_set RPC_URL) then
        ret (mkReply 500 [] (Failure "Server configuration error" None))
      else
        try_catch
          (let! connection := lift_option "Endpoint URL must start with `http:` or `https:`."
                                (new_Connection RPC_URL) in
           let! publicKey := lift_option "Invalid public key input"
                               (req_body !! "address" ≫= new_PublicKey) in
           let! fetched_balance := call (RpcGetBalance publicKey)
                                     (getBalance connection publicKey) in
           let! balanceLamports := unwrap fetched_balance in
           ret (mkReply 200 [] (Success (mkBalanceBody balanceLamports))))
          (fun error =>
             ret (mkReply 500 [] (Failure "Failed to fetch balance" (Some error)))).

End Handler.

End GetBalance.

(** ** pages/api/admin/claim-fees.ts *)
Module ClaimFeesApi.

(** The environment variables, read on every request. *)
Record Env : Type := mkEnv {
  RPC_URL : string;
  ADMIN_ADDRESS : string
}.

(** [{transaction: base64}]. *)
Record ClaimBody : Type := mkClaimBody {
  transaction : string
}.

Inductive event (PublicKey : Type) : Type :=
| ClaimPartnerTradingFee (pool feeClaimer payer : PublicKey)
    (maxBaseAmount maxQuoteAmount : BN.obj)
| GetLatestBlockhash.
Arguments ClaimPartnerTradingFee {PublicKey} pool feeClaimer payer
  maxBaseAmount maxQuoteAmount.
Arguments GetLatestBlockhash {PublicKey}.

(** [new BN(v)] for a value taken from the request body; [None] is a
    constructor that throws.  [null] skips [_init] and leaves an object with
    no words.  [false] is falsy and becomes the number 0 ([number || 0]);
    [true] is read through its [toString()], whose first letter is no digit.
    A number goes through [_initNumber], a string through the base-10
    parser.  An object goes through [_initArray], which asserts that it has
    a numeric [length]. *)
Definition BN_of_jsval (v : jsval) : option BN.obj :=
  match v with
  | JNull => Some (BN.Blank false)
  | JBool false => Some (BN.Num 0)
  | JBool true => None
  | JNum n => BN.Num <$> BN.of_number n
  | JStr s => BN.construct s
  | JObject => None
  end.

Section Handler.

Context {World Connection PublicKey Transaction : Type}.
Context (new_Connection : string -> option Connection).
Context (new_PublicKey : jsval -> option PublicKey).
Context (claimPartnerTradingFee :
  Connection -> PublicKey -> PublicKey -> PublicKey -> BN.obj -> BN.obj ->
  World -> result Transaction * World).
Context (getLatestBlockhash : Connection -> World -> result string * World).
(** [transaction.serialize({...}).toString('base64')] once the block hash and
    the fee payer are set. *)
Context (serialize : Transaction -> string -> PublicKey -> option string).

(** [handler] (claim-fees.ts:13-96). *)
Definition handler (method : string) (req_body : gmap string jsval)
  : M (Sys Env World (event PublicKey)) (reply ClaimBody) :=
  if negb (String.eqb method "POST") then
    ret (mkReply 405 [] (Failure "Method not allowed" None))
  else
    let! env := read in
    if negb (env_set (RPC_URL env)) then
      ret (mkReply 500 []
             (Failure "Server configuration error"
                (Some "Missing required environment variable: RPC_URL")))
    else
      let feeClaimerAddress := ADMIN_ADDRESS env in
      if negb (env_set feeClaimerAddress) then
        ret (mkReply 500 []
               (Failure "Server configuration error"
                  (Some "Missing required environment variable: ADMIN_ADDRESS")))
      else
        try_catch
          (let poolAddress := req_body !! "poolAddress" in
           let payerAddress := req_body !! "payerAddress" in
           let maxBaseAmount := req_body !! "maxBaseAmount" in
           let maxQuoteAmount := req_body !! "maxQuoteAmount" in
           if negb (truthy poolAddress) || negb (truthy payerAddress)
              || is_undefined maxBaseAmount || is_undefined maxQuoteAmount
           then ret (mkReply 400 [] (Failure "Missing required fields" None))
           else
             let! connection :=
               lift_option "Endpoint URL must start with `http:` or `https:`."
                 (new_Connection (RPC_URL env)) in
             let! pool := lift_option "Invalid public key input"
                            (poolAddress ≫= new_PublicKey) in
             let! feeClaimer := lift_option "Invalid public key input"
                                  (new_PublicKey (JStr feeClaimerAddress)) in
             let! payer := lift_option "Invalid public key input"
                             (payerAddress ≫= new_PublicKey) in
             if negb (strict_eq_string feeClaimerAddress payerAddress) then
               ret (mkReply 403 []
                      (Failure "Unauthorized: Only admin can claim fees" None))
             else
               let! maxBase := lift_option "Invalid character"
                                 (maxBaseAmount ≫= BN_of_jsval) in
               let! maxQuote := lift_option "Invalid character"
                                  (maxQuoteAmount ≫= BN_of_jsval) in
               let! built :=
                 call (ClaimPartnerTradingFee pool feeClaimer payer maxBase maxQuote)
                   (claimPartnerTradingFee connection pool feeClaimer payer
                      maxBase maxQuote) in
               let! transaction := unwrap built in
               let! latest := call GetLatestBlockhash (getLatestBlockhash connection) in
               let! blockhash := unwrap latest in
               let! serializedTransaction :=
                 lift_option "Transaction serialization failed"
                   (serialize transaction blockhash payer) in
               ret (mkReply 200 [] (Success (mkClaimBody serializedTransaction))))
          (fun error =>
             ret (mkReply 500 []
                    (Failure "Failed to create claim transaction" (Some error)))).

End Handler.

End ClaimFeesApi.

(** ** Concrete collaborators

    Small worlds on which the handlers and callbacks can be run. *)
Module Scenario.

(** Keys are checked for being strings only; connections always open. *)
Definition new_Connection (url : string) : option string := Some url.

Definition new_PublicKey (v : jsval) : option string :=
  match v with
  | JStr s => Some s
  | _ => None
  end.

Definition getBalance (c k : string) (w : unit) : result Z * unit := (Ok 5000, w).

Definition claimPartnerTradingFee (c pool feeClaimer payer : string)
    (maxBase maxQuote : BN.obj) (w : unit) : result string * unit :=
  (Ok ("claim " ++ pool)%string, w).

Definition getLatestBlockhash (c : string) (w : unit) : result string * unit :=
  (Ok "blockhash", w).

Definition serialize (tx blockhash payer : string) : option string := Some tx.

Definition admin_env : ClaimFeesApi.Env :=
  ClaimFeesApi.mkEnv "https://rpc.example" "AdminWallet".

(** A claim request signed by somebody else than the administrator. *)
Definition foreign_claim : gmap string jsval :=
  <["poolAddress" := JStr "PoolA"]>
    (<["payerAddress" := JStr "SomeoneElse"]>
       (<["maxBaseAmount" := JStr "10"]>
          (<["maxQuoteAmount" := JStr "20"]> ∅))).

(** The world of the cache scenarios is the clock: [Date.now()] reads it and
    lets one millisecond pass. *)
Definition Date_now (w : Z) : Z * Z := (w, w + 1).

Definition new_key (s : string) : option string := Some s.

(** An RPC node that cannot be reached. *)
Definition getPoolsByConfig_down (c k : string) (w : Z)
  : result (list PoolsApi.PoolAccount) * Z :=
  (Thrown "fetch failed", w).

Definition getAsset_down (rpc mint : string) (w : Z) : PoolsApi.asset_reply * Z :=
  (PoolsApi.AssetThrown "fetch failed", w).

Definition pool_a : Pool :=
  mkPool "PoolA" "Config" "MintA" "Creator" "1000" "2000" None.

(** A server that cached one pool at time 1 000. *)
Definition server_with_cache : PoolsApi.State :=
  PoolsApi.mkState "https://rpc.example" "Config"
    (Some (PoolsApi.mkCachedData [pool_a] 1000)).

(** A browser that fetched one pool at time 1 000. *)
Definition client_with_cache : PoolsCacheProvider.State :=
  PoolsCacheProvider.mkState [pool_a] false None (Some 1000) ∅.

(** A browser on mount whose stored entry is not JSON. *)
Definition client_with_corrupt_entry : PoolsCacheProvider.State :=
  PoolsCacheProvider.mkState [] false None None
    (<[PoolsCacheProvider.CACHE_KEY := "{pools:"]> ∅).

Definition fetch_pools (w : Z) : fetched PoolsCacheProvider.PoolsJson * Z :=
  (Response true (Some (PoolsCacheProvider.mkPoolsJson [pool_a] None)), w).

(** A parser that knows the entry of an empty cache only. *)
Definition JSON_parse (text : string) : option (list Pool * option Z) :=
  if String.eqb text "{'pools':[],'timestamp':0}" then Some ([], Some 0) else None.

Definition JSON_stringify (ps : list Pool) (t : Z) : string := BN.to_string t.

(** An RPC node that knows one pool and its token. *)
Definition account_a : PoolsApi.PoolAccount :=
  PoolsApi.mkPoolAccount "PoolA" "Config" "MintA" "Creator" 1000 2000.

Definition getPoolsByConfig_up (c k : string) (w : Z)
  : result (list PoolsApi.PoolAccount) * Z :=
  (Ok [account_a], w).

Definition getAsset_up (rpc mint : string) (w : Z) : PoolsApi.asset_reply * Z :=
  (PoolsApi.AssetJson
     (Some (PoolsApi.mkAsset (Some "Token A") None None None (Some "https://img/a.png")))
     false, w).

Definition setItem_accepts (store : gmap string string) (k v : string) : bool := true.

(** Three pools above any small threshold and one below. *)
Definition fee (pool quote : string) : Admin.FeeMetrics :=
  Admin.mkFeeMetrics pool "0" quote "0" "0" "0" "0".

Definition three_pools : list Admin.FeeMetrics :=
  [fee "PoolA" "200000000"; fee "PoolB" "300000000"; fee "PoolC" "100000000"].

Definition admin_page (fees : list Admin.FeeMetrics) (minLamports : Z) : Admin.State :=
  Admin.mkState (Some "AdminWallet") true fees "Config" minLamports false false.

(** The claim endpoint answers every request with a transaction named after
    the pool, the wallet signs everything, and the send endpoint refuses the
    transaction of PoolB. *)
Definition post_claim_fees (body : Admin.ClaimFeesBody) (w : unit)
  : fetched string * unit :=
  (Response true (Some (Admin.body_poolAddress body)), w).

Definition wallet_sign (tx : string) (w : unit) : result string * unit :=
  (Ok ("signed " ++ tx)%string, w).

Definition post_send_transaction (payload : string) (w : unit)
  : fetched string * unit :=
  (if String.eqb payload "signed PoolB"
   then Response false None
   else Response true (Some "signature"), w).

Definition get_admin_fees (w : unit)
  : fetched (list Admin.FeeMetrics * string) * unit :=
  (Response true (Some ([], "Config")), w).

End Scenario.

(** ** pages/api/admin/get-fees.ts: the fee metrics of every pool *)
Module FeesApi.

(** The environment variables, read on every request. *)
Record Env : Type := mkEnv {
  RPC_URL : string;
  POOL_CONFIG_KEY : string
}.

(** One element of what [getPoolsFeesByConfig] answers: the pool address
    (already in base 58) and six [BN] amounts. *)
Record PoolFees : Type := mkPoolFees {
  fee_poolAddress : string;
  fee_partnerBaseFee : BN.t;
  fee_partnerQuoteFee : BN.t;
  fee_creatorBaseFee : BN.t;
  fee_creatorQuoteFee : BN.t;
  fee_totalTradingBaseFee : BN.t;
  fee_totalTradingQuoteFee : BN.t
}.

(** The callback of [feeMetrics.map]: every amount goes through
    [toString()]. *)
Definition fee_json (fee : PoolFees) : Admin.FeeMetrics :=
  Admin.mkFeeMetrics (fee_poolAddress fee)
    (BN.to_string (fee_partnerBaseFee fee))
    (BN.to_string (fee_partnerQuoteFee fee))
    (BN.to_string (fee_creatorBaseFee fee))
    (BN.to_string (fee_creatorQuoteFee fee))
    (BN.to_string (fee_totalTradingBaseFee fee))
    (BN.to_string (fee_totalTradingQuoteFee fee)).

(** [{fees, configAddress}]. *)
Record FeesBody : Type := mkFeesBody {
  body_fees : list Admin.FeeMetrics;
  body_configAddress : string
}.

(** [str.replace(pattern, replacement)] for a string pattern: the first
    occurrence is replaced, a string without the pattern is returned as it
    is.  The replacements of the handler hold no [$]. *)
Fixpoint replace_first (pattern replacement str : string) : string :=
  if String.prefix pattern str then
    (replacement ++ substring (String.length pattern)
                      (String.length str - String.length pattern) str)%string
  else
    match str with
    | EmptyString => EmptyString
    | String c rest => String c (replace_first pattern replacement rest)
    end.

(** The Helius v2 endpoint derived from [RPC_URL]. *)
Definition heliusUrl (RPC_URL : string) : string :=
  replace_first "?api-key=" "/rpc?api-key=" (replace_first "/v1/" "/v2/" RPC_URL).

Inductive event : Type :=
| GetPoolsFeesByConfig (configKey : string).

Section Handler.

Context {World Connection PublicKey : Type}.
Context (new_Connection : string -> option Connection).
Context (new_PublicKey : string -> option PublicKey).
Context (getPoolsFeesByConfig :
  Connection -> PublicKey -> World -> result (list PoolFees) * World).

(** [handler] (admin/get-fees.ts:16-63). *)
Definition handler (method : string)
  : M (Sys Env World event) (reply FeesBody) :=
  if negb (String.eqb method "GET") then
    ret (mkReply 405 [] (Failure "Method not allowed" None))
  else
    let! env := read in
    if negb (env_set (RPC_URL env)) || negb (env_set (POOL_CONFIG_KEY env)) then
      ret (mkReply 500 []
             (Failure "Server configuration error"
                (Some "Missing required environment variables: RPC_URL or POOL_CONFIG_KEY")))
    else
      try_catch
        (let! connection :=
           lift_option "Endpoint URL must start with `http:` or `https:`."
             (new_Connection (heliusUrl (RPC_URL env))) in
         let! configAddress := lift_option "Invalid public key input"
                                 (new_PublicKey (POOL_CONFIG_KEY env)) in
         let! fetched_fees := call (GetPoolsFeesByConfig (POOL_CONFIG_KEY env))
                                (getPoolsFeesByConfig connection configAddress) in
         let! feeMetrics := unwrap fetched_fees in
         ret (mkReply 200 []
                (Success (mkFeesBody (map fee_json feeMetrics) (POOL_CONFIG_KEY env)))))
        (fun error =>
           ret (mkReply 500 [] (Failure "Failed to fetch fees" (Some error)))).

End Handler.

End FeesApi.

(** ** pages/api/user/get-tokens.ts: the token holdings of a wallet *)
Module GetTokens.

(** [account.account.data.parsed.info] of a token account, as the node
    answers it.  [uiAmount] is a JSON number or [null]; a number is held as
    the rational it denotes, and only its sign is ever looked at. *)
Record TokenInfo : Type := mkTokenInfo {
  info_mint : string;
  info_amount : string;
  info_decimals : Z;
  info_uiAmount : option QArith_base.Q
}.

(** An element of [tokens] in the answer; the three optional fields are
    absent when the metadata is. *)
Record TokenAccount : Type := mkTokenAccount {
  mint : string;
  amount : string;
  decimals : Z;
  uiAmount : option QArith_base.Q;
  token_name : option string;
  token_symbol : option string;
  token_logo : option string
}.

(** [uiAmount > 0]; [null > 0] is false. *)
Definition has_balance (info : TokenInfo) : bool :=
  match info_uiAmount info with
  | Some q => Z.ltb 0 (QArith_base.Qnum q)
  | None => false
  end.

Definition token_json (info : TokenInfo) (md : option (string * string * string))
  : TokenAccount :=
  mkTokenAccount (info_mint info) (info_amount info) (info_decimals info)
    (info_uiAmount info)
    (match md with Some (n, _, _) => Some n | None => None end)
    (match md with Some (_, sy, _) => Some sy | None => None end)
    (match md with Some (_, _, l) => Some l | None => None end).

(** [{name, symbol, logo}] out of a DAS asset. *)
Definition metadata_of (asset : PoolsApi.Asset) : string * string * string :=
  (PoolsApi.or_else (PoolsApi.content_metadata_name asset) "Unknown Token",
   PoolsApi.or_else (PoolsApi.content_metadata_symbol asset) "",
   PoolsApi.or_else (PoolsApi.content_files_0_uri asset)
     (PoolsApi.or_else (PoolsApi.content_links_image asset) "")).

Inductive event (PublicKey : Type) : Type :=
| GetParsedTokenAccountsByOwner (owner : PublicKey)
| GetAsset (mint : string).
Arguments GetParsedTokenAccountsByOwner {PublicKey} owner.
Arguments GetAsset {PublicKey} mint.

Section Handler.

Context {World Connection PublicKey : Type}.
Context (new_Connection : string -> option Connection).
Context (new_PublicKey : jsval -> option PublicKey).
Context (getParsedTokenAccountsByOwner :
  Connection -> PublicKey -> World -> result (list TokenInfo) * World).
Context (getAsset : string -> string -> World -> PoolsApi.asset_reply * World).

(** The callback of [.map] (get-tokens.ts:37-88); the promises of
    [Promise.all] are run one after the other, in the order of the list. *)
Definition with_metadata (rpc : string) (tokenInfo : TokenInfo)
  : M (Sys string World (event PublicKey)) TokenAccount :=
  let! data := call (GetAsset (info_mint tokenInfo))
                 (getAsset rpc (info_mint tokenInfo)) in
  match data with
  | PoolsApi.AssetThrown _ => ret (token_json tokenInfo None)
  | PoolsApi.AssetJson (Some asset) false =>
      ret (token_json tokenInfo (Some (metadata_of asset)))
  | PoolsApi.AssetJson _ _ => ret (token_json tokenInfo None)
  end.

Fixpoint map_with_metadata (rpc : string) (infos : list TokenInfo)
  : M (Sys string World (event PublicKey)) (list TokenAccount) :=
  match infos with
  | [] => ret []
  | info :: rest =>
      let! t := with_metadata rpc info in
      let! ts := map_with_metadata rpc rest in
      ret (t :: ts)
  end.

(** [handler] (get-tokens.ts:6-99); the state is the environment variable
    [RPC_URL].  The body is destructured at line 14, before the [try] of
    line 24: on a [null] body the handler itself throws. *)
Definition handler (method : string) (body : option (gmap string jsval))
  : M (Sys string World (event PublicKey)) (reply (list TokenAccount)) :=
  if negb (String.eqb method "POST") then
    ret (mkReply 405 [] (Failure "Method not allowed" None))
  else
    let! req_body := destructure body "address" in
    if negb (truthy (req_body !! "address")) then
      ret (mkReply 400 [] (Failure "Address is required" None))
    else
      let! RPC_URL := read in
      if negb (env_set RPC_URL) then
        ret (mkReply 500 [] (Failure "Server configuration error" None))
      else
        try_catch
          (let! connection :=
             lift_option "Endpoint URL must start with `http:` or `https:`."
               (new_Connection RPC_URL) in
           let! publicKey := lift_option "Invalid public key input"
                               (req_body !! "address" ≫= new_PublicKey) in
           let! fetched_accounts :=
             call (GetParsedTokenAccountsByOwner publicKey)
               (getParsedTokenAccountsByOwner connection publicKey) in
           let! tokenAccounts := unwrap fetched_accounts in
           let! tokensWithMetadata :=
             map_with_metadata RPC_URL (List.filter has_balance tokenAccounts) in
           ret (mkReply 200 [] (Success tokensWithMetadata)))
          (fun error =>
             ret (mkReply 500 [] (Failure "Failed to fetch tokens" (Some error)))).

End Handler.

End GetTokens.

(** ** pages/api/creator/get-fees.ts: the fees of the creator of a token *)
Module CreatorFeesApi.

(** What [getPoolFeeMetrics] answers, as far as the handler reads it. *)
Record Metrics : Type := mkMetrics {
  current_creatorBaseFee : BN.t;
  current_creatorQuoteFee : BN.t;
  total_totalTradingBaseFee : BN.t;
  total_totalTradingQuoteFee : BN.t
}.

(** The answer, and [type CreatorFees] of the tab that shows it. *)
Record CreatorFees : Type := mkCreatorFees {
  creatorBaseFee : string;
  creatorQuoteFee : string;
  totalTradingBaseFee : string;
  totalTradingQuoteFee : string
}.

Definition fees_json (metrics : Metrics) : CreatorFees :=
  mkCreatorFees
    (BN.to_string (current_creatorBaseFee metrics))
    (BN.to_string (current_creatorQuoteFee metrics))
    (BN.to_string (total_totalTradingBaseFee metrics))
    (BN.to_string (total_totalTradingQuoteFee metrics)).

Inductive event (PublicKey : Type) : Type :=
| GetPoolByBaseMint (mint : PublicKey)
| GetPoolFeeMetrics (pool : PublicKey).
Arguments GetPoolByBaseMint {PublicKey} mint.
Arguments GetPoolFeeMetrics {PublicKey} pool.

Section Handler.

Context {World Connection PublicKey : Type}.
Context (new_Connection : string -> option Connection).
Context (new_PublicKey : jsval -> option PublicKey).
(** The pool state is read for its [publicKey] only; [None] is a pool that
    does not exist. *)
Context (getPoolByBaseMint :
  Connection -> PublicKey -> World -> result (option PublicKey) * World).
Context (getPoolFeeMetrics :
  Connection -> PublicKey -> World -> result Metrics * World).

(** [handler] (creator/get-fees.ts:7-65); the state is the environment
    variable [RPC_URL]. *)
Definition handler (method : string) (req_body : gmap string jsval)
  : M (Sys string World (event PublicKey)) (reply CreatorFees) :=
  if negb (String.eqb method "POST") then
    ret (mkReply 405 [] (Failure "Method not allowed" None))
  else
    let! RPC_URL := read in
    if negb (env_set RPC_URL) then
      ret (mkReply 500 []
             (Failure "Server configuration error"
                (Some "Missing required environment variable: RPC_URL")))
    else
      try_catch
        (let mintAddress := req_body !! "poolAddress" in
         if negb (truthy mintAddress) then
           ret (mkReply 400 [] (Failure "Token mint address is required" None))
         else
           let! connection :=
             lift_option "Endpoint URL must start with `http:` or `https:`."
               (new_Connection RPC_URL) in
           let! mintOrPool := lift_option "Invalid public key input"
                                (mintAddress ≫= new_PublicKey) in
           let! found := call (GetPoolByBaseMint mintOrPool)
                           (getPoolByBaseMint connection mintOrPool) in
           let! poolState := unwrap found in
           let! poolAddress := lift_option "Pool not found for this token" poolState in
           let! fetched_metrics := call (GetPoolFeeMetrics poolAddress)
                                     (getPoolFeeMetrics connection poolAddress) in
           let! metrics := unwrap fetched_metrics in
           ret (mkReply 200 [] (Success (fees_json metrics))))
        (fun error =>
           ret (mkReply 500 [] (Failure "Failed to fetch creator fees" (Some error)))).

End Handler.

End CreatorFeesApi.

(** ** pages/api/creator/claim-fees.ts: the claim transaction of a creator *)
Module CreatorClaimApi.

(** [{transaction, blockhash, lastValidBlockHeight}]. *)
Record ClaimBody : Type := mkClaimBody {
  transaction : string;
  blockhash : string;
  lastValidBlockHeight : Z
}.

Inductive event (PublicKey : Type) : Type :=
| GetPoolByBaseMint (mint : PublicKey)
| ClaimCreatorTradingFee (pool creator payer : PublicKey)
    (maxBaseAmount maxQuoteAmount : BN.obj)
| GetLatestBlockhash.
Arguments GetPoolByBaseMint {PublicKey} mint.
Arguments ClaimCreatorTradingFee {PublicKey} pool creator payer
  maxBaseAmount maxQuoteAmount.
Arguments GetLatestBlockhash {PublicKey}.

Section Handler.

Context {World Connection PublicKey Transaction : Type}.
Context (new_Connection : string -> option Connection).
Context (new_PublicKey : jsval -> option PublicKey).
Context (getPoolByBaseMint :
  Connection -> PublicKey -> World -> result (option PublicKey) * World).
Context (claimCreatorTradingFee :
  Connection -> PublicKey -> PublicKey -> PublicKey -> BN.obj -> BN.obj ->
  World -> result Transaction * World).
Context (getLatestBlockhash : Connection -> World -> result (string * Z) * World).
Context (serialize : Transaction -> string -> PublicKey -> option string).

(** [handler] (creator/claim-fees.ts:15-91); the state is the environment
    variable [RPC_URL]. *)
Definition handler (method : string) (req_body : gmap string jsval)
  : M (Sys string World (event PublicKey)) (reply ClaimBody) :=
  if negb (String.eqb method "POST") then
    ret (mkReply 405 [] (Failure "Method not allowed" None))
  else
    let! RPC_URL := read in
    if negb (env_set RPC_URL) then
      ret (mkReply 500 []
             (Failure "Server configuration error"
                (Some "Missing required environment variable: RPC_URL")))
    else
      try_catch
        (let poolAddress := req_body !! "poolAddress" in
         let creatorAddress := req_body !! "creatorAddress" in
         let maxBaseAmount := req_body !! "maxBaseAmount" in
         let maxQuoteAmount := req_body !! "maxQuoteAmount" in
         if negb (truthy poolAddress) || negb (truthy creatorAddress)
            || is_undefined maxBaseAmount || is_undefined maxQuoteAmount
         then ret (mkReply 400 [] (Failure "Missing required fields" None))
         else
           let! connection :=
             lift_option "Endpoint URL must start with `http:` or `https:`."
               (new_Connection RPC_URL) in
           let! mintOrPool := lift_option "Invalid public key input"
                                (poolAddress ≫= new_PublicKey) in
           let! creator := lift_option "Invalid public key input"
                             (creatorAddress ≫= new_PublicKey) in
           let! found := call (GetPoolByBaseMint mintOrPool)
                           (getPoolByBaseMint connection mintOrPool) in
           let! poolState := unwrap found in
           let! pool := lift_option "Pool not found for this token" poolState in
           let! maxBase := lift_option "Invalid character"
                             (maxBaseAmount ≫= ClaimFeesApi.BN_of_jsval) in
           let! maxQuote := lift_option "Invalid character"
                              (maxQuoteAmount ≫= ClaimFeesApi.BN_of_jsval) in
           let! built :=
             call (ClaimCreatorTradingFee pool creator creator maxBase maxQuote)
               (claimCreatorTradingFee connection pool creator creator maxBase maxQuote) in
           let! transaction := unwrap built in
           let! latest := call GetLatestBlockhash (getLatestBlockhash connection) in
           let! latestBlockhash := unwrap latest in
           let! serializedTransaction :=
             lift_option "Transaction serialization failed"
               (serialize transaction (fst latestBlockhash) creator) in
           ret (mkReply 200 []
                  (Success (mkClaimBody serializedTransaction
                              (fst latestBlockhash) (snd latestBlockhash)))))
        (fun error =>
           ret (mkReply 500 []
                  (Failure "Failed to create creator claim transaction" (Some error)))).

End Handler.

End CreatorClaimApi.

(** ** More of pages/admin.tsx *)
Module AdminTable.

(** What a row of the fee table computes before it renders
    (admin.tsx:436-441): whether its own claim button is enabled and whether
    it is shown as reaching the threshold.  [None] when a constructor of
    [BN] throws. *)
Record RowFlags : Type := mkRowFlags {
  hasClaimableFees : bool;
  meetsThreshold : bool
}.

Definition row_flags (minLamports : Z) (fee : Admin.FeeMetrics) : option RowFlags :=
  quoteFee ← BN.construct (Admin.partnerQuoteFee fee);
  baseFee ← BN.construct (Admin.partnerBaseFee fee);
  threshold ← BN.of_number minLamports;
  Some (mkRowFlags (negb (BN.isZero quoteFee) || negb (BN.isZero baseFee))
          (BN.gte quoteFee threshold)).

(** The rows shown as reaching the threshold; a row whose flags are not
    defined is not one of them. *)
Definition highlighted (minLamports : Z) (fee : Admin.FeeMetrics) : bool :=
  match row_flags minLamports fee with
  | Some flags => meetsThreshold flags
  | None => false
  end.

End AdminTable.

(** *** [claimFees]: the claim of one pool (admin.tsx:74-149) *)
Module AdminClaim.

(** What [await fetch(...)] gives where the code reads the body of a failure
    too: the promise rejects; the response is not ok and its body is
    unreadable ([None]) or holds an [error] field, absent or not; the
    response is ok and its body is unreadable ([None]) or read. *)
Inductive answered (B : Type) : Type :=
| Rejected (msg : string)
| NotOk (errorJson : option (option string))
| IsOk (json : option B).
Arguments Rejected {B} msg.
Arguments NotOk {B} errorJson.
Arguments IsOk {B} json.

(** The page state with the cell [claiming]: the pool being claimed. *)
Record State : Type := mkState {
  page : Admin.State;
  claiming : option string
}.

(** The effects of the page, and the two toasts of [claimFees]; its console
    output is not recorded. *)
Inductive event (Transaction : Type) : Type :=
| Page (e : Admin.event Transaction)
| ToastClaimFailed (description : string)   (* toast.error('Failed to claim fees', {description}) *)
| ToastFeesClaimed (signature8 : string).   (* toast.success('Fees claimed successfully!', ..) *)
Arguments Page {Transaction} e.
Arguments ToastClaimFailed {Transaction} description.
Arguments ToastFeesClaimed {Transaction} signature8.

Section Claim.

Context {World Transaction : Type}.
Context (post_claim_fees :
  Admin.ClaimFeesBody -> World -> answered Transaction * World).
Context (wallet_sign : Transaction -> World -> result string * World).
(** The body of the send endpoint is read for its [signature] field, which
    may be absent. *)
Context (post_send_transaction : string -> World -> answered (option string) * World).
Context (get_admin_fees : World -> fetched (list Admin.FeeMetrics * string) * World).

Definition setClaiming (c : option string) : State -> State :=
  fun s => mkState (page s) c.

(** Run a callback of the page on the page part of the state. *)
Definition on_page {A} (m : M (Sys Admin.State World (Admin.event Transaction)) A)
  : M (Sys State World (event Transaction)) A :=
  fun s =>
    let (r, p) := m (mkSys (page (st s)) (world s) []) in
    (r, mkSys (mkState (st p) (claiming (st s))) (world p)
          (trace s ++ map Page (trace p))).

(** [error.error || fallback]. *)
Definition error_of (errorJson : option string) (fallback : string) : string :=
  match errorJson with
  | Some e => if String.eqb e "" then fallback else e
  | None => fallback
  end.

(** [claimFees] (admin.tsx:74-149). *)
Definition claimFees (poolAddress : string)
  : M (Sys State World (event Transaction)) unit :=
  let! s := read in
  match Admin.publicKey (page s), Admin.signTransaction (page s) with
  | Some payer, true =>
      update (setClaiming (Some poolAddress)) >>
      try_finally
        (try_catch
           (let! feeMetric :=
              lift_option "Fee metrics not found for pool"
                (List.find (fun f => String.eqb (Admin.poolAddress f) poolAddress)
                   (Admin.fees (page s))) in
            let request :=
              Admin.mkClaimFeesBody poolAddress payer
                (Admin.partnerBaseFee feeMetric) (Admin.partnerQuoteFee feeMetric) in
            let! response :=
              call (Page (Admin.PostClaimFees request)) (post_claim_fees request) in
            match response with
            | Rejected msg => throw msg
            | NotOk None => throw "Unexpected end of JSON input"
            | NotOk (Some e) => throw (error_of e "Failed to create claim transaction")
            | IsOk None => throw "Invalid transaction"
            | IsOk (Some transaction) =>
                let! signed := call (Page (Admin.SignTransaction transaction))
                                 (wallet_sign transaction) in
                let! signedTx := unwrap signed in
                let! sendResponse :=
                  call (Page (Admin.PostSendTransaction signedTx))
                    (post_send_transaction signedTx) in
                match sendResponse with
                | Rejected msg => throw msg
                | NotOk None => throw "Unexpected end of JSON input"
                | NotOk (Some e) => throw (error_of e "Failed to send transaction")
                | IsOk None => throw "Unexpected end of JSON input"
                | IsOk (Some None) =>
                    throw "Cannot read properties of undefined (reading 'slice')"
                | IsOk (Some (Some signature)) =>
                    emit (ToastFeesClaimed (substring 0 8 signature)) >>
                    on_page (Admin.fetchFees get_admin_fees)
                end
            end)
           (fun error => emit (ToastClaimFailed error)))
        (update (setClaiming None))
  | _, _ => emit (Page Admin.ToastConnectWallet)
  end.

End Claim.

(** The claim requests among the effects. *)
Definition claim_requests {Transaction : Type} (tr : list (event Transaction))
  : list Admin.ClaimFeesBody :=
  omap (fun e => match e with Page (Admin.PostClaimFees b) => Some b | _ => None end) tr.

(** The refreshes of the fee list among the effects. *)
Definition refreshes {Transaction : Type} (tr : list (event Transaction)) : nat :=
  length (List.filter
            (fun e => match e with Page Admin.GetAdminFees => true | _ => false end) tr).

(** The toasts that report a claimed pool. *)
Definition claimed_toasts {Transaction : Type} (tr : list (event Transaction)) : nat :=
  length (List.filter
            (fun e => match e with ToastFeesClaimed _ => true | _ => false end) tr).

End AdminClaim.

(** *** The effects of one batch, turn by turn *)
Module AdminObserve.

Section Shapes.

Context {Transaction : Type}.

(** What follows the loop: the summary toasts that apply, then the effects
    of [fetchFees]. *)
Definition batch_tail (successCount failCount : Z)
    (t : list (Admin.event Transaction)) : Prop :=
  exists refreshed,
    t = (if bool_decide (successCount > 0)
         then [Admin.ToastSummarySuccess successCount] else [])
        ++ (if bool_decide (failCount > 0)
            then [Admin.ToastSummaryFailed failCount] else [])
        ++ Admin.GetAdminFees :: [refreshed]
    /\ ((exists n, refreshed = Admin.ToastLoaded n)
        \/ (exists msg, refreshed = Admin.ToastFetchFailed msg)).

End Shapes.

End AdminObserve.

(** ** components/CreatorFeesTab: the claim button of the creator *)
Module CreatorFeesTab.

(** [hasClaimableFees], for fees that are loaded:
    [!new BN(fees.creatorQuoteFee).isZero() || !new BN(fees.creatorBaseFee).isZero()];
    the second constructor runs only when the first amount is zero, and
    [None] is a constructor that throws. *)
Definition hasClaimableFees (fees : CreatorFeesApi.CreatorFees) : option bool :=
  quote ← BN.construct (CreatorFeesApi.creatorQuoteFee fees);
  if negb (BN.isZero quote) then Some true
  else
    base ← BN.construct (CreatorFeesApi.creatorBaseFee fees);
    Some (negb (BN.isZero base)).

End CreatorFeesTab.

(** ** pages/users/[address]: the profile of a wallet *)
Module UserProfile.

Section Page.

(** The balance is a JSON number the page stores and prints; [Number] is
    whatever holds it. *)
Context {Number : Type}.

(** The state cells of the page; [None] is [null] or [undefined]. *)
Record State : Type := mkState {
  tokens : option (list GetTokens.TokenAccount);
  loading : bool;
  solBalance : option Number
}.

Definition initial : State := mkState (Some []) true None.

Inductive event : Type :=
| PostGetBalance (address : string)
| PostGetTokens (address : string).

Definition setLoading (b : bool) : State -> State :=
  fun s => mkState (tokens s) b (solBalance s).
Definition setSolBalance (b : option Number) : State -> State :=
  fun s => mkState (tokens s) (loading s) b.
Definition setTokens (ts : option (list GetTokens.TokenAccount)) : State -> State :=
  fun s => mkState ts (loading s) (solBalance s).

Context {World : Type}.
(** The two bodies are read for one field each, which may be absent. *)
Context (post_get_balance : string -> World -> fetched (option Number) * World).
Context (post_get_tokens :
  string -> World -> fetched (option (list GetTokens.TokenAccount)) * World).

(** [fetchUserData] (lines 31-62). *)
Definition fetchUserData (walletAddress : string)
  : M (Sys State World event) unit :=
  update (setLoading true) >>
  try_finally
    (try_catch
       (let! balanceRes := call (PostGetBalance walletAddress)
                             (post_get_balance walletAddress) in
        (match balanceRes with
         | FetchRejected msg => throw msg
         | Response true None => throw "Unexpected end of JSON input"
         | Response true (Some balance) => update (setSolBalance balance)
         | Response false _ => ret tt
         end) >>
        let! tokensRes := call (PostGetTokens walletAddress)
                            (post_get_tokens walletAddress) in
        match tokensRes with
        | FetchRejected msg => throw msg
        | Response true None => throw "Unexpected end of JSON input"
        | Response true (Some tokens) => update (setTokens tokens)
        | Response false _ => ret tt
        end)
       (fun error => ret tt))
    (update (setLoading false)).

End Page.

Arguments State Number : clear implicits.
Arguments event : clear implicits.

End UserProfile.

(** ** Reading the answers and traces of the token listing *)
Module TokensObserve.
(** The holding an element of the answer reports is the one of the account. *)
Definition reports (info : GetTokens.TokenInfo) (t : GetTokens.TokenAccount) : Prop :=
  GetTokens.mint t = GetTokens.info_mint info
  /\ GetTokens.amount t = GetTokens.info_amount info
  /\ GetTokens.decimals t = GetTokens.info_decimals info
  /\ GetTokens.uiAmount t = GetTokens.info_uiAmount info.

Definition lookups {PublicKey : Type} (infos : list GetTokens.TokenInfo)
  : list (GetTokens.event PublicKey) :=
  map (fun info => GetTokens.GetAsset (GetTokens.info_mint info)) infos.
End TokensObserve.

(** ** Reading the traces and states of the pool listing *)
Module PoolsObserve.

(** The pool queries among the calls of a trace. *)
Definition pools_queries (tr : list PoolsApi.event) : nat :=
  length (List.filter
            (fun e => match e with PoolsApi.GetPoolsByConfig _ => true | _ => false end)
            tr).

(** A listed pool is named when its metadata, if any, has a name that is not
    empty. *)
Definition named (p : Pool) : Prop :=
  forall m, metadata p = Some m -> name m <> "".

(** The pools of the cache entry, none when there is no entry. *)
Definition cached_pools (s : PoolsApi.State) : list Pool :=
  match PoolsApi.cachedData s with
  | Some c => PoolsApi.pools c
  | None => []
  end.

(** The requests to [/api/pools/get-all] among the effects of the browser. *)
Definition fetch_requests (tr : list PoolsCacheProvider.event) : nat :=
  length (List.filter
            (fun e => match e with PoolsCacheProvider.FetchPools => true | _ => false end)
            tr).

(** An answer to the request that makes [fetchPools] fail: the promise is
    rejected, the response is not ok, or its body cannot be read. *)
Definition failed (r : fetched PoolsCacheProvider.PoolsJson) : bool :=
  match r with
  | Response true (Some _) => false
  | _ => true
  end.

End PoolsObserve.

(** ** More concrete collaborators *)
Module Scenario2.

(** A node that knows the fees of two pools, one of them above 2^53. *)
Definition onchain_fees : list FeesApi.PoolFees :=
  [FeesApi.mkPoolFees "PoolA" 5 9007199254740993 0 7 100 200;
   FeesApi.mkPoolFees "PoolB" 0 50000000 0 0 0 0].

Definition getPoolsFeesByConfig (c k : string) (w : unit)
  : result (list FeesApi.PoolFees) * unit :=
  (Ok onchain_fees, w).

Definition fees_env : FeesApi.Env :=
  FeesApi.mkEnv "https://mainnet.helius-rpc.com/?api-key=K" "Config".

(** An endpoint that answers 500 with an error body. *)
Definition fetch_pools_down (w : Z) : fetched PoolsCacheProvider.PoolsJson * Z :=
  (Response false (Some (PoolsCacheProvider.mkPoolsJson [] (Some "Failed to fetch pools"))), w).

(** A storage that is full. *)
Definition setItem_refuses (store : gmap string string) (k v : string) : bool := false.

(** A codec that writes the time stamp of an entry holding [Scenario.pool_a]
    and reads it back. *)
Definition parse_stamp (text : string) : option (list Pool * option Z) :=
  match BN.of_string text with
  | Some t => Some ([Scenario.pool_a], Some t)
  | None => None
  end.


(** A claim endpoint and a send endpoint that accept everything. *)
Definition claim_endpoint (body : Admin.ClaimFeesBody) (w : unit)
  : AdminClaim.answered string * unit :=
  (AdminClaim.IsOk (Some (Admin.body_poolAddress body)), w).

Definition send_endpoint (payload : string) (w : unit)
  : AdminClaim.answered (option string) * unit :=
  (AdminClaim.IsOk (Some (Some "5h3signature")), w).

(** A wallet with four token accounts: two of them hold a balance. *)
Definition holdings : list GetTokens.TokenInfo :=
  [GetTokens.mkTokenInfo "MintA" "1500000" 6 (Some (QArith_base.Qmake 3 2));
   GetTokens.mkTokenInfo "MintB" "0" 6 (Some (QArith_base.Qmake 0 1));
   GetTokens.mkTokenInfo "MintC" "7" 0 None;
   GetTokens.mkTokenInfo "MintD" "1" 9 (Some (QArith_base.Qmake 1 1000000000))].

Definition getParsedTokenAccountsByOwner (c k : string) (w : unit)
  : result (list GetTokens.TokenInfo) * unit := (Ok holdings, w).

(** The metadata service knows MintA only and fails for the rest. *)
Definition getAsset (rpc mint : string) (w : unit) : PoolsApi.asset_reply * unit :=
  (if String.eqb mint "MintA"
   then PoolsApi.AssetJson
          (Some (PoolsApi.mkAsset (Some "Token A") (Some "TKA") None None None)) false
   else PoolsApi.AssetThrown "fetch failed", w).

(** A node that knows the pool of TokenMint only, with a creator fee in the
    quote asset. *)
Definition getPoolByBaseMint (c mint : string) (w : unit)
  : result (option string) * unit :=
  (Ok (if String.eqb mint "TokenMint" then Some "PoolOfToken" else None), w).

Definition getPoolFeeMetrics (c pool : string) (w : unit)
  : result CreatorFeesApi.Metrics * unit :=
  (Ok (CreatorFeesApi.mkMetrics 0 2500000 10 20), w).

Definition claimCreatorTradingFee (c pool creator payer : string)
    (maxBase maxQuote : BN.obj) (w : unit) : result string * unit :=
  (Ok ("claim " ++ pool ++ " for " ++ creator)%string, w).

Definition getLatestBlockhash (c : string) (w : unit) : result (string * Z) * unit :=
  (Ok ("blockhash", 250), w).

Definition creator_claim : gmap string jsval :=
  <["poolAddress" := JStr "TokenMint"]>
    (<["creatorAddress" := JStr "Creator"]>
       (<["maxBaseAmount" := JStr "0"]>
          (<["maxQuoteAmount" := JStr "2500000"]> ∅))).

End Scenario2.

(** * Properties *)

(** Run the monad: unfold its operations and reduce what has become a
    [match] on a constructor.  What remains stuck are the answers of the
    collaborators and the tests of the code. *)
Ltac run :=
  cbv beta iota zeta delta
    [unwrap lift_option bind try_catch try_finally call ask emit update read
     modify ret throw];
  cbn [st world trace fst snd].

(** ** The balance lookup *)
Section GetBalanceProperties.

Context {World Connection PublicKey : Type}.
Context (new_Connection : string -> option Connection).
Context (new_PublicKey : jsval -> option PublicKey).
Context (getBalance : Connection -> PublicKey -> World -> result Z * World).

(** A POST request whose body is not [null] and holds no [address] field is
    answered with status 400 and the body [{error: "Address is required"}];
    the state, the world and the trace are what they were, so that no RPC
    call has been made. *)
Lemma get_balance_object_without_address
    (req_body : gmap string jsval) (s : Sys string World (GetBalance.event PublicKey)) :
  req_body !! "address" = None ->
  GetBalance.handler new_Connection new_PublicKey getBalance "POST" (Some req_body) s
  = (Ok (mkReply 400 [] (Failure "Address is required" None)), s).
Proof.
  intros Habsent.
  unfold GetBalance.handler, destructure. run.
  rewrite Habsent.
  reflexivity.
Qed.

(** C9.  A POST request whose JSON body is [null] holds no [address] field,
    and it is not answered 400: the body is destructured at line 14, outside
    the [try] that starts at line 24, so the handler throws a TypeError and
    answers nothing.  No RPC call is made; the state, the world and the
    trace are what they were.  For every other body without the field the
    answer is the 400 with [{error: "Address is required"}]. *)
Theorem get_balance_null_body_throws
    (s : Sys string World (GetBalance.event PublicKey)) :
  GetBalance.handler new_Connection new_PublicKey getBalance "POST" None s
  = (Thrown "Cannot destructure property 'address' of 'req.body' as it is null.", s)
  /\ (forall answer s',
        GetBalance.handler new_Connection new_PublicKey getBalance "POST" None s
        <> (Ok answer, s'))
  /\ (forall req_body,
        req_body !! "address" = None ->
        GetBalance.handler new_Connection new_PublicKey getBalance "POST"
          (Some req_body) s
        = (Ok (mkReply 400 [] (Failure "Address is required" None)), s)).
Proof.
  split; [reflexivity |].
  split; [discriminate |].
  intros req_body. apply get_balance_object_without_address.
Qed.

End GetBalanceProperties.

Lemma get_balance_null_body_throws_witness :
  GetBalance.handler Scenario.new_Connection Scenario.new_PublicKey
    Scenario.getBalance "POST" None (mkSys "https://rpc.example" tt [])
  = (Thrown "Cannot destructure property 'address' of 'req.body' as it is null.",
     mkSys "https://rpc.example" tt [])
  /\ GetBalance.handler Scenario.new_Connection Scenario.new_PublicKey
       Scenario.getBalance "POST" (Some (<["wallet" := JStr "abc"]> ∅))
       (mkSys "https://rpc.example" tt [])
     = (Ok (mkReply 400 [] (Failure "Address is required" None)),
        mkSys "https://rpc.example" tt []).
Proof.
  destruct (get_balance_null_body_throws Scenario.new_Connection
              Scenario.new_PublicKey Scenario.getBalance
              (mkSys "https://rpc.example" tt []))
    as (Hnull & _ & Hobject).
  split; [exact Hnull |].
  apply Hobject. reflexivity.
Defined.

(** ** The admin claim endpoint *)
Section ClaimFeesApiProperties.

Context {World Connection PublicKey Transaction : Type}.
Context (new_Connection : string -> option Connection).
Context (new_PublicKey : jsval -> option PublicKey).
Context (claimPartnerTradingFee :
  Connection -> PublicKey -> PublicKey -> PublicKey -> BN.obj -> BN.obj ->
  World -> result Transaction * World).
Context (getLatestBlockhash : Connection -> World -> result string * World).
Context (serialize : Transaction -> string -> PublicKey -> option string).

(** C8.  A well-formed claim request (POST, the four fields present, the
    addresses accepted as public keys, the server configured) whose payer is
    not the configured administrator is answered with status 403 and the
    body [{error: "Unauthorized: Only admin can claim fees"}].  Nothing has
    been asked of the SDK or of the RPC node: the trace and the world are
    what they were, and the answer holds no transaction. *)
Theorem claim_fees_rejects_foreign_payer
    (req_body : gmap string jsval)
    (s : Sys ClaimFeesApi.Env World (ClaimFeesApi.event PublicKey))
    (poolAddress payerAddress maxBaseAmount maxQuoteAmount : jsval) :
  env_set (ClaimFeesApi.RPC_URL (st s)) = true ->
  env_set (ClaimFeesApi.ADMIN_ADDRESS (st s)) = true ->
  req_body !! "poolAddress" = Some poolAddress ->
  req_body !! "payerAddress" = Some payerAddress ->
  req_body !! "maxBaseAmount" = Some maxBaseAmount ->
  req_body !! "maxQuoteAmount" = Some maxQuoteAmount ->
  truthy (Some poolAddress) = true ->
  truthy (Some payerAddress) = true ->
  is_Some (new_Connection (ClaimFeesApi.RPC_URL (st s))) ->
  is_Some (new_PublicKey poolAddress) ->
  is_Some (new_PublicKey (JStr (ClaimFeesApi.ADMIN_ADDRESS (st s)))) ->
  is_Some (new_PublicKey payerAddress) ->
  payerAddress <> JStr (ClaimFeesApi.ADMIN_ADDRESS (st s)) ->
  ClaimFeesApi.handler new_Connection new_PublicKey claimPartnerTradingFee
    getLatestBlockhash serialize "POST" req_body s
  = (Ok (mkReply 403 [] (Failure "Unauthorized: Only admin can claim fees" None)), s).
Proof.
  intros Hrpc Hadmin Hpool Hpayer Hbase Hquote Tpool Tpayer
    [connection Hconn] [pool Hpk] [feeClaimer Hfc] [payer Hpy] Hforeign.
  assert (Hneq : strict_eq_string (ClaimFeesApi.ADMIN_ADDRESS (st s)) (Some payerAddress) = false).
  { destruct payerAddress as [| b | n | p |]; simpl; try reflexivity.
    apply String.eqb_neq. intros Heq. apply Hforeign. by rewrite Heq. }
  cbv beta iota zeta delta
    [ClaimFeesApi.handler bind read try_catch String.eqb Ascii.eqb Bool.eqb negb].
  rewrite Hrpc, Hadmin.
  cbv beta iota zeta.
  rewrite Hpool, Hpayer, Hbase, Hquote, Tpool, Tpayer.
  cbn [negb orb is_undefined mbind option_bind].
  rewrite Hconn, Hpk, Hfc, Hpy.
  cbv beta iota delta [lift_option ret].
  rewrite Hneq.
  reflexivity.
Qed.

End ClaimFeesApiProperties.

Lemma claim_fees_rejects_foreign_payer_witness :
  ClaimFeesApi.handler Scenario.new_Connection Scenario.new_PublicKey
    Scenario.claimPartnerTradingFee Scenario.getLatestBlockhash Scenario.serialize
    "POST" Scenario.foreign_claim (mkSys Scenario.admin_env tt [])
  = (Ok (mkReply 403 [] (Failure "Unauthorized: Only admin can claim fees" None)),
     mkSys Scenario.admin_env tt []).
Proof.
  apply (claim_fees_rejects_foreign_payer Scenario.new_Connection
           Scenario.new_PublicKey Scenario.claimPartnerTradingFee
           Scenario.getLatestBlockhash Scenario.serialize
           Scenario.foreign_claim (mkSys Scenario.admin_env tt [])
           (JStr "PoolA") (JStr "SomeoneElse") (JStr "10") (JStr "20"));
    try reflexivity; try (eexists; reflexivity).
  discriminate.
Defined.

(** ** The pool cache on the server *)
Section ServerCacheProperties.

Context {SWorld Connection PublicKey : Type}.
Context (server_now : SWorld -> Z * SWorld).
Context (new_Connection : string -> option Connection).
Context (new_PublicKey : string -> option PublicKey).
Context (getPoolsByConfig :
  Connection -> PublicKey -> SWorld -> result (list PoolsApi.PoolAccount) * SWorld).
Context (getAsset : string -> string -> SWorld -> PoolsApi.asset_reply * SWorld).

Let server_handler :=
  PoolsApi.handler server_now new_Connection new_PublicKey getPoolsByConfig getAsset.
Let server_refresh :=
  PoolsApi.refresh server_now new_Connection new_PublicKey getPoolsByConfig getAsset.

(** Looking the metadata up never throws and leaves the module state alone. *)
Lemma map_with_metadata_keeps_state rpc (accounts : list PoolsApi.PoolAccount)
    (s : Sys PoolsApi.State SWorld PoolsApi.event) :
  exists ps s',
    PoolsApi.map_with_metadata getAsset rpc accounts s = (Ok ps, s')
    /\ st s' = st s.
Proof.
  revert s.
  induction accounts as [| account rest IH]; intros s.
  - exists [], s. split; reflexivity.
  - cbn [PoolsApi.map_with_metadata].
    unfold bind at 1.
    assert (Hone : exists p s1,
               PoolsApi.with_metadata getAsset rpc account s = (Ok p, s1)
               /\ st s1 = st s).
    { unfold PoolsApi.with_metadata, bind, call.
      destruct (getAsset rpc (PoolsApi.account_baseMint account) (world s))
        as [[msg | [asset |] [|]] w]; cbn; eauto. }
    destruct Hone as (p & s1 & -> & Hs1).
    destruct (IH s1) as (ps & s2 & Hrest & Hs2).
    unfold bind. rewrite Hrest. cbn.
    exists (p :: ps), s2. split; [reflexivity | congruence].
Qed.

(** A [try] block that throws has not reached the cache update. *)
Lemma refresh_thrown_keeps_state rpc key
    (s s' : Sys PoolsApi.State SWorld PoolsApi.event) e :
  server_refresh rpc key s = (Thrown e, s') -> st s' = st s.
Proof.
  unfold server_refresh, PoolsApi.refresh.
  unfold bind at 1.
  destruct (new_Connection rpc) as [connection |]; cbn [lift_option];
    [| unfold throw; intros [= <- <-]; reflexivity].
  unfold ret at 1. unfold bind at 1.
  destruct (new_PublicKey key) as [configKey |]; cbn [lift_option];
    [| unfold throw; intros [= <- <-]; reflexivity].
  unfold ret at 1. unfold bind at 1. unfold call at 1.
  destruct (getPoolsByConfig connection configKey (world s)) as [[accounts | msg] w1].
  - unfold bind at 1. cbn [unwrap]. unfold ret at 1. unfold bind at 1.
    match goal with
    | |- context [PoolsApi.map_with_metadata getAsset rpc accounts ?s0] =>
        destruct (map_with_metadata_keeps_state rpc accounts s0) as (ps & s1 & -> & _)
    end.
    unfold bind, ask, update, modify, ret.
    destruct (server_now (world s1)) as [now w2].
    discriminate.
  - unfold bind, unwrap, throw. intros [= <- <-]. reflexivity.
Qed.

(** Whatever the answer of the handler, unless it is a 200 the module state
    (and with it [cachedData]) is what it was. *)
Lemma handler_error_keeps_state method
    (s s' : Sys PoolsApi.State SWorld PoolsApi.event) r :
  server_handler method s = (r, s') ->
  (forall a, r = Ok a -> status a <> 200) ->
  st s' = st s.
Proof.
  unfold server_handler, PoolsApi.handler.
  destruct (negb (method =? "GET")%string).
  { unfold ret. intros [= <- <-]. reflexivity. }
  unfold bind at 1. unfold ask.
  destruct (server_now (world s)) as [now w1].
  unfold bind at 1. unfold read. cbn [st world trace].
  intros Hrun Herr.
  assert (Hmiss : PoolsApi.handler_miss server_now new_Connection new_PublicKey
                    getPoolsByConfig getAsset (st s) (mkSys (st s) w1 (trace s))
                  = (r, s') -> st s' = st s).
  { clear Hrun. unfold PoolsApi.handler_miss.
    destruct (negb (env_set (PoolsApi.RPC_URL (st s)))
              || negb (env_set (PoolsApi.POOL_CONFIG_KEY (st s)))).
    - unfold ret. intros [= <- <-]. reflexivity.
    - unfold try_catch.
      destruct (PoolsApi.refresh server_now new_Connection new_PublicKey
                  getPoolsByConfig getAsset (PoolsApi.RPC_URL (st s))
                  (PoolsApi.POOL_CONFIG_KEY (st s)) (mkSys (st s) w1 (trace s)))
        as [[a | e] s1] eqn:Hrefresh.
      + intros [= <- <-]. exfalso.
        revert Hrefresh. unfold PoolsApi.refresh. run.
        destruct (new_Connection _); [| discriminate].
        destruct (new_PublicKey _); [| discriminate].
        destruct (getPoolsByConfig _ _ _) as [[accounts | msg] w2]; [| discriminate].
        match goal with
        | |- context [PoolsApi.map_with_metadata getAsset ?rpc accounts ?s0] =>
            destruct (map_with_metadata_keeps_state rpc accounts s0) as (ps & s2 & -> & _)
        end.
        destruct (server_now _) as [now2 w3].
        intros [= <- _]. by apply (Herr _ eq_refl).
      + apply refresh_thrown_keeps_state in Hrefresh. cbn in Hrefresh.
        unfold ret. intros [= <- <-]. exact Hrefresh. }
  destruct (PoolsApi.cachedData (st s)) as [c |]; [| by apply Hmiss].
  destruct (bool_decide (now - PoolsApi.timestamp c < PoolsApi.CACHE_DURATION_MS));
    [| by apply Hmiss].
  revert Hrun. unfold ret. intros [= <- <-]. exfalso. by apply (Herr _ eq_refl).
Qed.

(** C3.  A GET request that misses the cache (no entry, or one that is
    60 000 ms old or older) and whose [getPoolsByConfig] call fails is
    answered 500 with [{error: "Failed to fetch pools", details}], and the
    module state, [cachedData] with its pools and time stamp included, is
    exactly what it was.  More generally no answer other than a 200 comes
    with a changed cache. *)
Theorem failed_refresh_leaves_cache_untouched
    (s : Sys PoolsApi.State SWorld PoolsApi.event)
    (now : Z) (w1 w2 : SWorld) (connection : Connection) (configKey : PublicKey)
    (msg : string) :
  server_now (world s) = (now, w1) ->
  (forall c, PoolsApi.cachedData (st s) = Some c -> 60000 <= now - PoolsApi.timestamp c) ->
  env_set (PoolsApi.RPC_URL (st s)) = true ->
  env_set (PoolsApi.POOL_CONFIG_KEY (st s)) = true ->
  new_Connection (PoolsApi.RPC_URL (st s)) = Some connection ->
  new_PublicKey (PoolsApi.POOL_CONFIG_KEY (st s)) = Some configKey ->
  getPoolsByConfig connection configKey w1 = (Thrown msg, w2) ->
  server_handler "GET" s
  = (Ok (mkReply 500 [] (Failure "Failed to fetch pools" (Some msg))),
     mkSys (st s) w2 (trace s ++ [PoolsApi.GetPoolsByConfig (PoolsApi.POOL_CONFIG_KEY (st s))]))
  /\ (forall method s0 r s1,
        server_handler method s0 = (r, s1) ->
        (forall a, r = Ok a -> status a <> 200) ->
        PoolsApi.cachedData (st s1) = PoolsApi.cachedData (st s0)).
Proof.
  intros Hnow Hmiss Hrpc Hkey Hconn Hpk Hfail.
  split.
  - assert (Hrun : PoolsApi.handler_miss server_now new_Connection new_PublicKey
                     getPoolsByConfig getAsset (st s) (mkSys (st s) w1 (trace s))
                   = (Ok (mkReply 500 [] (Failure "Failed to fetch pools" (Some msg))),
                      mkSys (st s) w2
                        (trace s ++ [PoolsApi.GetPoolsByConfig (PoolsApi.POOL_CONFIG_KEY (st s))]))).
    { unfold PoolsApi.handler_miss. rewrite Hrpc, Hkey. cbn [negb orb].
      unfold try_catch, PoolsApi.refresh, bind, lift_option, call, unwrap, ret, throw.
      rewrite Hconn, Hpk. cbn [st world trace]. rewrite Hfail. reflexivity. }
    unfold server_handler, PoolsApi.handler, bind, ask, read.
    cbn [String.eqb Ascii.eqb Bool.eqb negb].
    rewrite Hnow. cbn [st world trace].
    destruct (PoolsApi.cachedData (st s)) as [c |] eqn:Hentry; [| exact Hrun].
    specialize (Hmiss c eq_refl).
    rewrite bool_decide_eq_false_2 by (unfold PoolsApi.CACHE_DURATION_MS; lia).
    exact Hrun.
  - intros method s0 r s1 Hrun Herr.
    f_equal. by apply (handler_error_keeps_state method s0 s1 r).
Qed.

End ServerCacheProperties.

(** ** The pool cache in the browser *)
Section ClientCacheProperties.

Context {CWorld : Type}.
Context (client_now : CWorld -> Z * CWorld).
Context (fetch_pools : CWorld -> fetched PoolsCacheProvider.PoolsJson * CWorld).
Context (JSON_parse : string -> option (list Pool * option Z)).
Context (JSON_stringify : list Pool -> Z -> string).
Context (setItem_accepts : gmap string string -> string -> string -> bool).

Let fetchPools :=
  PoolsCacheProvider.fetchPools client_now fetch_pools JSON_stringify setItem_accepts.
Let loadFromLocalStorage :=
  PoolsCacheProvider.loadFromLocalStorage client_now JSON_parse.

(** With no time stamp in the state, [fetchPools(false)] asks the endpoint. *)
Lemma miss_sends_request
    (s : Sys PoolsCacheProvider.State CWorld PoolsCacheProvider.event) :
  PoolsCacheProvider.lastFetch (st s) = None ->
  PoolsCacheProvider.FetchPools ∈ trace (fetchPools false s).2.
Proof.
  intros Hlast.
  unfold fetchPools, PoolsCacheProvider.fetchPools.
  unfold bind at 1. unfold ask.
  destruct (client_now (world s)) as [now w1].
  unfold bind at 1. unfold read. cbn [st world trace].
  rewrite Hlast. cbn [PoolsCacheProvider.is_fresh negb andb].
  unfold bind, update, modify, try_finally, try_catch, call, emit, modify, throw, ret, read.
  cbn [st world trace].
  destruct (fetch_pools w1) as [[msg | [|] [data |]] w2]; cbn [st world trace snd].
  - set_solver.
  - destruct (client_now w2) as [fetchTime w3]. cbn [st world trace snd].
    destruct (setItem_accepts _ _ _); cbn [st world trace snd]; set_solver.
  - set_solver.
  - set_solver.
  - set_solver.
Qed.

(** C7.  When the value stored under the cache key does not deserialise, the
    effect run on mount ends without throwing and leaves every cell of the
    provider state alone: the pools stay as they were (empty on mount), no
    error is set, [lastFetch] stays unset.  The entry then counts as a miss:
    with [lastFetch] unset, the next [fetchPools(false)] sends the request
    to the endpoint. *)
Theorem corrupt_stored_cache_is_a_miss
    (s : Sys PoolsCacheProvider.State CWorld PoolsCacheProvider.event)
    (cached : string) :
  PoolsCacheProvider.localStorage (st s) !! PoolsCacheProvider.CACHE_KEY = Some cached ->
  JSON_parse cached = None ->
  PoolsCacheProvider.lastFetch (st s) = None ->
  exists s',
    loadFromLocalStorage s = (Ok tt, s')
    /\ st s' = st s
    /\ world s' = world s
    /\ (PoolsCacheProvider.pools (st s) = [] -> PoolsCacheProvider.pools (st s') = [])
    /\ PoolsCacheProvider.error (st s') = PoolsCacheProvider.error (st s)
    /\ PoolsCacheProvider.FetchPools ∈ trace (fetchPools false s').2.
Proof.
  intros Hstored Hparse Hlast.
  unfold loadFromLocalStorage, PoolsCacheProvider.loadFromLocalStorage.
  unfold try_catch, bind at 1. unfold read at 1. cbn [st].
  rewrite Hstored.
  destruct (cached =? "")%string eqn:Hempty.
  - exists s. unfold ret. repeat split; try done.
    apply (miss_sends_request s Hlast).
  - unfold bind at 1. rewrite Hparse. cbn [lift_option]. unfold throw, emit, modify.
    eexists. split; [reflexivity |]. cbn [st world trace].
    repeat split; try done.
    apply miss_sends_request. exact Hlast.
Qed.

End ClientCacheProperties.

(** ** Both caches *)
Section CacheProperties.

Context {SWorld Connection PublicKey : Type}.
Context (server_now : SWorld -> Z * SWorld).
Context (new_Connection : string -> option Connection).
Context (new_PublicKey : string -> option PublicKey).
Context (getPoolsByConfig :
  Connection -> PublicKey -> SWorld -> result (list PoolsApi.PoolAccount) * SWorld).
Context (getAsset : string -> string -> SWorld -> PoolsApi.asset_reply * SWorld).

Context {CWorld : Type}.
Context (client_now : CWorld -> Z * CWorld).
Context (fetch_pools : CWorld -> fetched PoolsCacheProvider.PoolsJson * CWorld).
Context (JSON_parse : string -> option (list Pool * option Z)).
Context (JSON_stringify : list Pool -> Z -> string).
Context (setItem_accepts : gmap string string -> string -> string -> bool).

Let server_handler :=
  PoolsApi.handler server_now new_Connection new_PublicKey getPoolsByConfig getAsset.
Let fetchPools :=
  PoolsCacheProvider.fetchPools client_now fetch_pools JSON_stringify setItem_accepts.

(** C2.  While an entry younger than 60 000 ms exists, a read that does not
    force a refresh is served from the cache.  On the server the GET request
    is answered 200 with the cached pools, their number, [cached: true] and
    the age in seconds; the cache and the trace are what they were, so the
    Remote Data Source has not been called.  In the browser [fetchPools(false)]
    leaves the pools and every other cell of the state alone and only logs
    that the fetch is skipped: no request is sent. *)
Theorem fresh_entry_served_without_remote_call
    (s : Sys PoolsApi.State SWorld PoolsApi.event) (c : PoolsApi.CachedData)
    (now : Z) (w' : SWorld)
    (cs : Sys PoolsCacheProvider.State CWorld PoolsCacheProvider.event)
    (t cnow : Z) (cw' : CWorld) :
  PoolsApi.cachedData (st s) = Some c ->
  server_now (world s) = (now, w') ->
  now - PoolsApi.timestamp c < 60000 ->
  PoolsCacheProvider.lastFetch (st cs) = Some t ->
  t <> 0 ->
  client_now (world cs) = (cnow, cw') ->
  cnow - t < 60000 ->
  server_handler "GET" s
  = (Ok (mkReply 200 PoolsApi.cache_headers
           (Success (PoolsApi.mkPoolsBody (PoolsApi.pools c)
                       (length (PoolsApi.pools c)) true
                       (Some ((now - PoolsApi.timestamp c) / 1000))))),
     mkSys (st s) w' (trace s))
  /\ fetchPools false cs
     = (Ok tt,
        mkSys (st cs) cw'
          (trace cs ++ [PoolsCacheProvider.ConsoleLog "Using cached pool data, skipping fetch"])).
Proof.
  intros Hentry Hnow Hage Hlast Hts Hcnow Hcage.
  split.
  - unfold server_handler, PoolsApi.handler, bind, ask, read.
    cbn [String.eqb Ascii.eqb Bool.eqb negb].
    rewrite Hnow. cbn [st world trace]. rewrite Hentry.
    rewrite bool_decide_eq_true_2 by (unfold PoolsApi.CACHE_DURATION_MS; lia).
    reflexivity.
  - unfold fetchPools, PoolsCacheProvider.fetchPools, bind, ask, read.
    rewrite Hcnow. cbn [st world trace negb andb].
    rewrite Hlast. unfold PoolsCacheProvider.is_fresh.
    rewrite (proj2 (Z.eqb_neq t 0) Hts).
    rewrite bool_decide_eq_true_2 by (unfold PoolsCacheProvider.CACHE_DURATION_MS; lia).
    reflexivity.
Qed.

End CacheProperties.

Lemma fresh_entry_served_without_remote_call_witness :
  PoolsApi.handler Scenario.Date_now Scenario.new_key Scenario.new_key
    Scenario.getPoolsByConfig_down Scenario.getAsset_down "GET"
    (mkSys Scenario.server_with_cache 31000 [])
  = (Ok (mkReply 200 PoolsApi.cache_headers
           (Success (PoolsApi.mkPoolsBody [Scenario.pool_a] 1 true (Some 30)))),
     mkSys Scenario.server_with_cache 31001 [])
  /\ PoolsCacheProvider.fetchPools Scenario.Date_now Scenario.fetch_pools
       Scenario.JSON_stringify Scenario.setItem_accepts false
       (mkSys Scenario.client_with_cache 60999 [])
     = (Ok tt,
        mkSys Scenario.client_with_cache 61000
          [PoolsCacheProvider.ConsoleLog "Using cached pool data, skipping fetch"]).
Proof.
  apply (fresh_entry_served_without_remote_call Scenario.Date_now Scenario.new_key
           Scenario.new_key Scenario.getPoolsByConfig_down Scenario.getAsset_down
           Scenario.Date_now Scenario.fetch_pools Scenario.JSON_stringify
           Scenario.setItem_accepts
           (mkSys Scenario.server_with_cache 31000 [])
           (PoolsApi.mkCachedData [Scenario.pool_a] 1000) 31000 31001
           (mkSys Scenario.client_with_cache 60999 []) 1000 60999 61000);
    try reflexivity; lia.
Defined.

Lemma failed_refresh_leaves_cache_untouched_witness :
  PoolsApi.handler Scenario.Date_now Scenario.new_key Scenario.new_key
    Scenario.getPoolsByConfig_down Scenario.getAsset_down "GET"
    (mkSys Scenario.server_with_cache 61000 [])
  = (Ok (mkReply 500 [] (Failure "Failed to fetch pools" (Some "fetch failed"))),
     mkSys Scenario.server_with_cache 61001 [PoolsApi.GetPoolsByConfig "Config"]).
Proof.
  apply (failed_refresh_leaves_cache_untouched Scenario.Date_now Scenario.new_key
           Scenario.new_key Scenario.getPoolsByConfig_down Scenario.getAsset_down
           (mkSys Scenario.server_with_cache 61000 [])
           61000 61001 61001 "https://rpc.example" "Config" "fetch failed");
    try reflexivity.
  intros c [= <-]. simpl. lia.
Defined.

Lemma corrupt_stored_cache_is_a_miss_witness :
  exists s',
    PoolsCacheProvider.loadFromLocalStorage Scenario.Date_now Scenario.JSON_parse
      (mkSys Scenario.client_with_corrupt_entry 5000 []) = (Ok tt, s')
    /\ PoolsCacheProvider.pools (st s') = []
    /\ PoolsCacheProvider.error (st s') = None.
Proof.
  destruct (corrupt_stored_cache_is_a_miss Scenario.Date_now Scenario.fetch_pools
              Scenario.JSON_parse Scenario.JSON_stringify Scenario.setItem_accepts
              (mkSys Scenario.client_with_corrupt_entry 5000 []) "{pools:"
              eq_refl eq_refl eq_refl)
    as (s' & Hrun & Hst & _ & Hpools & Herror & _).
  exists s'. split; [exact Hrun |]. split; [apply Hpools; reflexivity | exact Herror].
Defined.

(** ** The totals of the admin dashboard *)
Section TotalsProperties.

Import Admin.

(** Where a string reads as an integer the constructor builds the object
    that holds it. *)
Lemma construct_of_string (number : string) (z : Z) :
  BN.of_string number = Some z -> BN.construct number = Some (BN.Num z).
Proof. unfold BN.construct. by intros ->. Qed.

(** An object that holds a number holds the integer the string reads as. *)
Lemma construct_Num (number : string) (z : Z) :
  BN.construct number = Some (BN.Num z) -> BN.of_string number = Some z.
Proof.
  unfold BN.construct.
  destruct (BN.of_string number) as [v |]; [by intros [= ->] |].
  repeat case_match; discriminate.
Qed.

Lemma fold_add_from field fees (a : Z) :
  fold_left
    (fun acc f => sum ← acc; v ← BN.construct (field f); Some (BN.add sum v))
    fees (Some a)
  = Z.add a <$> sum_right field fees.
Proof.
  revert a.
  induction fees as [| f rest IH]; intros a; cbn [fold_left sum_right].
  - cbn. f_equal. lia.
  - cbn [mbind option_bind].
    destruct (BN.construct (field f)) as [v |]; cbn [mbind option_bind].
    + rewrite IH. unfold BN.add.
      destruct (sum_right field rest) as [total |]; cbn; [f_equal; lia | reflexivity].
    + clear IH. induction rest as [| g rest IH]; [reflexivity | exact IH].
Qed.

Lemma reduce_add_sum_right field fees :
  reduce_add field fees = sum_right field fees.
Proof.
  unfold reduce_add.
  change (BN.of_number 0) with (Some 0).
  rewrite fold_add_from.
  destruct (sum_right field fees); reflexivity.
Qed.

Lemma sum_right_permutation field fees fees' :
  Permutation fees fees' -> sum_right field fees = sum_right field fees'.
Proof.
  induction 1 as [| f l l' _ IH | f g l | l l' l'' _ IH1 _ IH2].
  - reflexivity.
  - cbn. by rewrite IH.
  - cbn.
    destruct (BN.construct (field f)), (BN.construct (field g)),
      (sum_right field l); try reflexivity.
    f_equal. lia.
  - congruence.
Qed.

Lemma sum_right_exact field fees (amounts : list Z) :
  Forall2 (fun f v => BN.of_string (field f) = Some v) fees amounts ->
  sum_right field fees = Some (foldr Z.add 0 amounts).
Proof.
  induction 1 as [| f v rest vs Hv _ IH]; cbn; [reflexivity |].
  by rewrite (construct_of_string _ _ Hv), IH.
Qed.

(** C4.  The totals are a fold with unbounded integer addition.  Over no
    record every total is zero; over two lists that are permutations of one
    another the four totals are the same; over records whose amounts read as
    integers, each of the four totals is the sum in [Z] of the amounts of its
    own field, with no bound at 2^53: the partner quote fees
    "9007199254740993" and "1" add up to 9007199254740994, which prints as
    "9007199254740994". *)
Theorem totals_exact_and_order_independent (fees fees' : list FeeMetrics) :
  Permutation fees fees' ->
  totals [] = Some (mkTotals 0 0 0 0)
  /\ totals fees = totals fees'
  /\ (forall partnerQuote partnerBase creatorQuote creatorBase : list Z,
        Forall2 (fun f v => BN.of_string (partnerQuoteFee f) = Some v) fees partnerQuote ->
        Forall2 (fun f v => BN.of_string (partnerBaseFee f) = Some v) fees partnerBase ->
        Forall2 (fun f v => BN.of_string (creatorQuoteFee f) = Some v) fees creatorQuote ->
        Forall2 (fun f v => BN.of_string (creatorBaseFee f) = Some v) fees creatorBase ->
        totals fees
        = Some (mkTotals (foldr Z.add 0 partnerQuote) (foldr Z.add 0 partnerBase)
                  (foldr Z.add 0 creatorQuote) (foldr Z.add 0 creatorBase)))
  /\ (forall field amounts,
        Forall2 (fun f v => BN.of_string (field f) = Some v) fees amounts ->
        reduce_add field fees = Some (foldr Z.add 0 amounts))
  /\ 2 ^ 53 < 9007199254740993
  /\ totals [mkFeeMetrics "PoolA" "3" "9007199254740993" "5" "7" "0" "0";
             mkFeeMetrics "PoolB" "4" "1" "6" "8" "0" "0"]
     = Some (mkTotals 9007199254740994 7 15 11)
  /\ BN.to_string <$>
       reduce_add partnerQuoteFee
         [mkFeeMetrics "PoolA" "0" "9007199254740993" "0" "0" "0" "0";
          mkFeeMetrics "PoolB" "0" "1" "0" "0" "0" "0"]
     = Some "9007199254740994".
Proof.
  intros Hperm.
  split; [reflexivity |].
  split.
  { unfold totals.
    rewrite !reduce_add_sum_right.
    by rewrite !(sum_right_permutation _ fees fees' Hperm). }
  split.
  { intros pq pb cq cb Hpq Hpb Hcq Hcb.
    unfold totals.
    rewrite !reduce_add_sum_right.
    rewrite (sum_right_exact _ _ _ Hpq), (sum_right_exact _ _ _ Hpb),
      (sum_right_exact _ _ _ Hcq), (sum_right_exact _ _ _ Hcb).
    reflexivity. }
  split.
  { intros field amounts Hamounts.
    rewrite reduce_add_sum_right.
    by apply sum_right_exact. }
  split; [lia |].
  split; reflexivity.
Qed.

End TotalsProperties.

Lemma totals_exact_and_order_independent_witness :
  Admin.totals [Scenario.fee "PoolA" "5"; Scenario.fee "PoolB" "7"]
  = Admin.totals [Scenario.fee "PoolB" "7"; Scenario.fee "PoolA" "5"]
  /\ Admin.totals [Scenario.fee "PoolA" "5"; Scenario.fee "PoolB" "7"]
     = Some (Admin.mkTotals 12 0 0 0).
Proof.
  destruct (totals_exact_and_order_independent
              [Scenario.fee "PoolA" "5"; Scenario.fee "PoolB" "7"]
              [Scenario.fee "PoolB" "7"; Scenario.fee "PoolA" "5"])
    as (_ & Hsame & Hexact & _).
  { apply perm_swap. }
  split; [exact Hsame |].
  apply (Hexact [5; 7] [0; 0] [0; 0] [0; 0]); by repeat constructor.
Defined.

(** ** Selection of the pools to claim *)
Section SelectionProperties.

Import Admin.

(** The callback keeps a record whose quote fee reads as an integer exactly
    when that integer reaches the threshold. *)
Lemma is_claimable_number (MIN : BN.t) (f : FeeMetrics) (q : Z) :
  BN.of_string (partnerQuoteFee f) = Some q ->
  is_claimable MIN f = Some (bool_decide (q >= MIN)).
Proof.
  intros Hq. unfold is_claimable.
  by rewrite (construct_of_string _ _ Hq).
Qed.

(** Whether a record reaches the threshold, read off its quote fee. *)
Let reaches (MIN : BN.t) (f : FeeMetrics) : bool :=
  match BN.of_string (partnerQuoteFee f) with
  | Some q => bool_decide (q >= MIN)
  | None => false
  end.

Lemma filter_pools_numbers (MIN : BN.t) (fees : list FeeMetrics) :
  Forall (fun f => is_Some (BN.of_string (partnerQuoteFee f))) fees ->
  filter_pools MIN fees = Some (List.filter (reaches MIN) fees).
Proof.
  induction 1 as [| f rest [q Hq] _ IH]; cbn [filter_pools List.filter].
  - reflexivity.
  - rewrite (is_claimable_number MIN f q Hq), IH. cbn [mbind option_bind].
    assert (reaches MIN f = bool_decide (q >= MIN)) as ->
      by (unfold reaches; by rewrite Hq).
    reflexivity.
Qed.

Lemma filter_pools_defined (MIN : BN.t) (fees : list FeeMetrics) :
  Forall (fun f => is_Some (BN.of_string (partnerQuoteFee f))) fees ->
  is_Some (filter_pools MIN fees).
Proof. intros Hnumbers. rewrite filter_pools_numbers by done. by eexists. Qed.

(** C5.  Over fee records whose partner quote fee reads as an integer, the
    selection of [claimAllFees] goes through, and a record is selected if and
    only if it is one of the fees and that integer is greater than or equal
    to the threshold in minor units.  With the threshold 0 and amounts that
    are not negative every record is selected, records whose fees are all
    zero included. *)
Theorem selected_iff_quote_fee_reaches_threshold
    (MIN_SOL_THRESHOLD : BN.t) (fees : list FeeMetrics) :
  Forall (fun f => is_Some (BN.of_string (partnerQuoteFee f))) fees ->
  exists kept,
    filter_pools MIN_SOL_THRESHOLD fees = Some kept
    /\ (forall f,
          f ∈ kept <->
          f ∈ fees /\ exists q, BN.of_string (partnerQuoteFee f) = Some q
                                /\ q >= MIN_SOL_THRESHOLD)
    /\ (MIN_SOL_THRESHOLD = 0 ->
        (forall f q, f ∈ fees -> BN.of_string (partnerQuoteFee f) = Some q -> q >= 0) ->
        kept = fees).
Proof.
  intros Hnumbers.
  exists (List.filter (reaches MIN_SOL_THRESHOLD) fees).
  split; [by apply filter_pools_numbers |]. split.
  - intros f. split.
    + intros Hin.
      apply list_elem_of_In, List.filter_In in Hin as [Hin Hreach].
      split; [by apply list_elem_of_In |].
      unfold reaches in Hreach.
      destruct (BN.of_string (partnerQuoteFee f)) as [q |]; [| discriminate].
      exists q. split; [done |]. by apply bool_decide_eq_true in Hreach.
    + intros [Hin (q & Hq & Hle)].
      apply list_elem_of_In, List.filter_In.
      split; [by apply list_elem_of_In |].
      unfold reaches. rewrite Hq. by apply bool_decide_eq_true.
  - intros Hzero Hamounts. subst MIN_SOL_THRESHOLD.
    induction Hnumbers as [| f rest [q Hq] _ IH]; [reflexivity |].
    cbn [List.filter].
    assert (reaches 0 f = true) as ->.
    { unfold reaches. rewrite Hq. apply bool_decide_eq_true.
      apply (Hamounts f q); [by left | done]. }
    f_equal. apply IH. intros g q' Hin. apply Hamounts. by right.
Qed.

End SelectionProperties.

Lemma selected_iff_quote_fee_reaches_threshold_witness :
  Admin.filter_pools 0 [Scenario.fee "PoolA" "0"; Scenario.fee "PoolB" "0"]
  = Some [Scenario.fee "PoolA" "0"; Scenario.fee "PoolB" "0"].
Proof.
  destruct (selected_iff_quote_fee_reaches_threshold 0
              [Scenario.fee "PoolA" "0"; Scenario.fee "PoolB" "0"])
    as (kept & Hkept & _ & Hall).
  - repeat constructor; by eexists.
  - rewrite Hkept. f_equal. apply Hall; [reflexivity |].
    intros f q Hin.
    apply elem_of_cons in Hin as [-> | Hin];
      [| apply elem_of_cons in Hin as [-> | Hin]; [| by apply elem_of_nil in Hin]];
      intros Hq; vm_compute in Hq; injection Hq as <-; lia.
Defined.

(** ** The batched claim *)
Section ClaimAllProperties.

Import Admin.

Context {World Transaction : Type}.
Context (post_claim_fees : ClaimFeesBody -> World -> fetched Transaction * World).
Context (wallet_sign : Transaction -> World -> result string * World).
Context (post_send_transaction : string -> World -> fetched string * World).
Context (get_admin_fees : World -> fetched (list FeeMetrics * string) * World).

Let claim_iteration := claim_iteration post_claim_fees wallet_sign post_send_transaction.
Let claim_loop := claim_loop post_claim_fees wallet_sign post_send_transaction.
Let fetchFees := @fetchFees World Transaction get_admin_fees.
Let claimAllFees :=
  claimAllFees post_claim_fees wallet_sign post_send_transaction get_admin_fees.
Let claimOne := claimOne post_claim_fees wallet_sign post_send_transaction.
Let claimAll := claimAll post_claim_fees wallet_sign post_send_transaction.

Lemma count_app (p : event Transaction -> bool) (tr tr' : list (event Transaction)) :
  count p (tr ++ tr') = (count p tr + count p tr')%nat.
Proof. unfold count. by rewrite List.filter_app, length_app. Qed.

Lemma claim_requests_app (tr tr' : list (event Transaction)) :
  claim_requests (tr ++ tr') = claim_requests tr ++ claim_requests tr'.
Proof. apply omap_app. Qed.

(** What one turn of the loop leaves behind: it never throws, it posts the
    claim request of its record once, and it counts either one success or one
    failure. *)
Record turn (payer : string) (f : FeeMetrics) (ok : bool)
    (new : list (event Transaction)) : Prop := mkTurn {
  turn_request : claim_requests new = [claim_request payer f];
  turn_success : count is_success new = if ok then 1%nat else 0%nat;
  turn_failure : count is_failure new = if ok then 0%nat else 1%nat;
  turn_quiet : count is_nothing_to_claim new = 0%nat
}.

Lemma claim_iteration_turn payer f successCount failCount
    (s : Sys State World (event Transaction)) :
  exists (ok : bool) new w',
    claim_iteration payer f successCount failCount s
    = (Ok (if ok then (successCount + 1, failCount)
           else (successCount, failCount + 1)),
       mkSys (st s) w' (trace s ++ new))
    /\ turn payer f ok new.
Proof.
  unfold claim_iteration, Admin.claim_iteration. run.
  destruct (post_claim_fees (claim_request payer f) (world s))
    as [[msg | [|] [transaction |]] w1]; run.
  2: destruct (wallet_sign transaction w1) as [[signedTx | msg] w2]; run.
  2: destruct (post_send_transaction signedTx w2) as [[msg | [|] json] w3]; run.
  3: exists true.
  all: try exists false.
  all: eexists _, _; rewrite <- !app_assoc; (split; [reflexivity |]); by constructor.
Qed.

(** The loop: every record of the list is requested once, in order, and the
    counters grow by the successes and the failures of the turns. *)
Lemma claim_loop_counts payer (poolsWithFees : list FeeMetrics)
    successCount failCount (s : Sys State World (event Transaction)) :
  exists new w',
    claim_loop payer poolsWithFees successCount failCount s
    = (Ok (successCount + Z.of_nat (count is_success new),
           failCount + Z.of_nat (count is_failure new)),
       mkSys (st s) w' (trace s ++ new))
    /\ claim_requests new = map (claim_request payer) poolsWithFees
    /\ (count is_success new + count is_failure new = length poolsWithFees)%nat
    /\ count is_nothing_to_claim new = 0%nat.
Proof.
  revert successCount failCount s.
  induction poolsWithFees as [| f rest IH]; intros successCount failCount s.
  - exists [], (world s). cbn. rewrite app_nil_r, !Z.add_0_r.
    destruct s; auto.
  - unfold claim_loop in *. cbn [Admin.claim_loop]. unfold bind.
    destruct (claim_iteration_turn payer f successCount failCount s)
      as (ok & new1 & w1 & Hturn & [Hreq Hsucc Hfail Hquiet]).
    unfold claim_iteration in Hturn. rewrite Hturn.
    match goal with
    | |- context [Admin.claim_loop _ _ _ payer rest ?sc ?fc ?s1] =>
        destruct (IH sc fc s1) as (new2 & w2 & Hrest & Hreq2 & Hlen & Hquiet2)
    end.
    rewrite Hrest. cbn [st trace].
    exists (new1 ++ new2), w2.
    rewrite !count_app, claim_requests_app, Hreq, Hreq2, Hsucc, Hfail, Hquiet, Hquiet2.
    rewrite <- app_assoc.
    split; [| split; [reflexivity | split; [| reflexivity]]].
    + destruct ok; cbn [fst snd]; do 3 f_equal; lia.
    + destruct ok; cbn [length]; lia.
Qed.

(** [fetchFees] never throws and adds nothing a batch is counted by. *)
Lemma fetchFees_quiet (s : Sys State World (event Transaction)) :
  exists new s',
    fetchFees s = (Ok tt, s')
    /\ trace s' = trace s ++ new
    /\ claim_requests new = []
    /\ count is_success new = 0%nat
    /\ count is_failure new = 0%nat
    /\ count is_nothing_to_claim new = 0%nat.
Proof.
  unfold fetchFees, Admin.fetchFees. run.
  destruct (get_admin_fees (world s)) as [[msg | [|] [[data_fees data_configAddress] |]] w1];
    run; eexists _, _; (split; [reflexivity |]);
    cbn [trace]; rewrite <- ?app_assoc; by repeat split.
Qed.

(** A whole batch over a selection that is not empty. *)
Lemma claimAllFees_batch (s : Sys State World (event Transaction))
    payer MIN_SOL_THRESHOLD (poolsWithFees : list FeeMetrics) :
  publicKey (st s) = Some payer ->
  signTransaction (st s) = true ->
  BN.of_number (minLamports (st s)) = Some MIN_SOL_THRESHOLD ->
  filter_pools MIN_SOL_THRESHOLD (fees (st s)) = Some poolsWithFees ->
  poolsWithFees <> [] ->
  exists new s',
    claimAllFees s
    = (Ok (BatchDone (Z.of_nat (count is_success new))
             (Z.of_nat (count is_failure new))), s')
    /\ trace s' = trace s ++ new
    /\ claim_requests new = map (claim_request payer) poolsWithFees
    /\ (count is_success new + count is_failure new = length poolsWithFees)%nat
    /\ count is_nothing_to_claim new = 0%nat.
Proof.
  intros Hkey Hsign Hmin Hkept Hsome.
  destruct (claim_loop_counts payer poolsWithFees 0 0
              (mkSys (setClaimingAll true (st s)) (world s)
                 (trace s ++ [ToastClaiming (length poolsWithFees)])))
    as (new & w1 & Hloop & Hreq & Hlen & Hquiet).
  cbn [st world trace] in Hloop. rewrite !Z.add_0_l in Hloop.
  set (sc := Z.of_nat (count is_success new)) in *.
  set (fc := Z.of_nat (count is_failure new)) in *.
  pose (summary :=
          (if bool_decide (sc > 0) then [ToastSummarySuccess sc] else [])
          ++ (if bool_decide (fc > 0) then [ToastSummaryFailed fc] else [])
          : list (event Transaction)).
  assert (Hsummary : claim_requests summary = []
                     /\ count is_success summary = 0%nat
                     /\ count is_failure summary = 0%nat
                     /\ count is_nothing_to_claim summary = 0%nat).
  { unfold summary. by destruct (bool_decide (sc > 0)), (bool_decide (fc > 0)). }
  destruct Hsummary as (Hs1 & Hs2 & Hs3 & Hs4).
  destruct (fetchFees_quiet
              (mkSys (setClaimingAll false (setClaimingAll true (st s))) w1
                 (trace s ++ [ToastClaiming (length poolsWithFees)] ++ new ++ summary)))
    as (new3 & s3 & Hfetch & Htrace & Hf1 & Hf2 & Hf3 & Hf4).
  cbn [trace] in Htrace.
  exists ([ToastClaiming (length poolsWithFees)] ++ new ++ summary ++ new3), s3.
  rewrite !claim_requests_app, !count_app, Hreq, Hs1, Hs2, Hs3, Hs4,
    Hf1, Hf2, Hf3, Hf4, Hquiet.
  cbn [claim_requests omap count List.filter is_success is_failure
         is_nothing_to_claim length app Nat.add].
  rewrite !Nat.add_0_r, app_nil_r. fold sc fc.
  split; [| split; [| by auto]].
  - unfold claimAllFees, Admin.claimAllFees. run.
    rewrite Hkey, Hsign, Hmin. run.
    rewrite Hkept. run.
    rewrite bool_decide_eq_false_2 by (destruct poolsWithFees; [done | discriminate]).
    unfold claim_loop in Hloop. rewrite Hloop. run.
    unfold fetchFees, summary in Hfetch.
    destruct (bool_decide (sc > 0)), (bool_decide (fc > 0));
      run; cbn [app] in Hfetch; rewrite ?app_nil_r in Hfetch;
      rewrite <- ?app_assoc; cbn [app]; by rewrite Hfetch.
  - rewrite Htrace. by rewrite <- !app_assoc.
Qed.

(** One turn of the loop against the attempt of its record: the counters
    and the effects of the turn are those of the attempt the three
    collaborators decide. *)
Lemma claim_iteration_attempt payer f successCount failCount
    (s : Sys State World (event Transaction)) :
  claim_iteration payer f successCount failCount s
  = (Ok (if failed (claimOne (claim_request payer f) (world s)).1
         then (successCount, failCount + 1)
         else (successCount + 1, failCount)),
     mkSys (st s) (claimOne (claim_request payer f) (world s)).2
       (trace s ++ turn_events payer f (claimOne (claim_request payer f) (world s)).1)).
Proof.
  unfold claim_iteration, Admin.claim_iteration, claimOne, Admin.claimOne,
    turn_events. run.
  destruct (post_claim_fees (claim_request payer f) (world s))
    as [[msg | [|] [transaction |]] w1]; run.
  2: destruct (wallet_sign transaction w1) as [[signedTx | msg] w2]; run.
  2: destruct (post_send_transaction signedTx w2) as [[msg | [|] json] w3]; run.
  all: cbn [fst snd failed]; by rewrite <- ?app_assoc.
Qed.

(** An attempt ends well exactly when the claim endpoint answered ok with a
    transaction, the wallet signed it and the send endpoint answered ok. *)
Lemma claimOne_claimed request (w : World) :
  failed (claimOne request w).1 = false <->
  exists transaction signedTx json w1 w2 w3,
    post_claim_fees request w = (Response true (Some transaction), w1)
    /\ wallet_sign transaction w1 = (Ok signedTx, w2)
    /\ post_send_transaction signedTx w2 = (Response true json, w3).
Proof.
  unfold claimOne, Admin.claimOne.
  destruct (post_claim_fees request w) as [[msg | [|] [transaction |]] w1];
    cbn [fst failed];
    try (split; [discriminate | by intros (? & ? & ? & ? & ? & ? & [=] & _)]).
  destruct (wallet_sign transaction w1) as [[signedTx | msg] w2] eqn:Hsign;
    cbn [fst failed].
  2: { split; [discriminate |].
       intros (? & ? & ? & ? & ? & ? & [= <- <-] & Hsigned & _). congruence. }
  destruct (post_send_transaction signedTx w2) as [[msg | [|] json] w3] eqn:Hsend;
    cbn [fst failed].
  2: { split; [| done]. intros _. by exists transaction, signedTx, json, w1, w2, w3. }
  all: split; [discriminate |];
    intros (? & ? & ? & ? & ? & ? & [= <- <-] & Hsigned & Hsent);
    rewrite Hsign in Hsigned; injection Hsigned as <- <-; congruence.
Qed.

Lemma claimAll_length payer (records : list FeeMetrics) (w : World) :
  length (claimAll payer records w).1 = length records.
Proof.
  revert w. induction records as [| f rest IH]; intros w; [reflexivity |].
  unfold claimAll in *. cbn [Admin.claimAll].
  destruct (Admin.claimOne _ _ _ _ w) as [a w1].
  specialize (IH w1).
  destruct (Admin.claimAll _ _ _ payer rest w1) as [attempts w2].
  cbn [fst length] in *. by rewrite IH.
Qed.

(** The loop against the attempts of its records. *)
Lemma claim_loop_attempts payer (poolsWithFees : list FeeMetrics)
    successCount failCount (s : Sys State World (event Transaction)) :
  claim_loop payer poolsWithFees successCount failCount s
  = (Ok (successCount + Z.of_nat (successes (claimAll payer poolsWithFees (world s)).1),
         failCount + Z.of_nat (failures (claimAll payer poolsWithFees (world s)).1)),
     mkSys (st s) (claimAll payer poolsWithFees (world s)).2
       (trace s ++ loop_events payer poolsWithFees
                     (claimAll payer poolsWithFees (world s)).1)).
Proof.
  revert successCount failCount s.
  induction poolsWithFees as [| f rest IH]; intros successCount failCount s.
  - cbn. rewrite app_nil_r, !Z.add_0_r. by destruct s.
  - unfold claim_loop, claimAll in *. cbn [Admin.claim_loop Admin.claimAll]. unfold bind.
    pose proof (claim_iteration_attempt payer f successCount failCount s) as Hturn.
    unfold claim_iteration, claimOne in Hturn. rewrite Hturn. clear Hturn.
    destruct (Admin.claimOne _ _ _ _ (world s)) as [a w1]. cbn [fst snd].
    rewrite IH. cbn [st world trace].
    destruct (Admin.claimAll _ _ _ payer rest w1) as [attempts w2].
    cbn [fst snd loop_events]. rewrite <- app_assoc.
    unfold successes, failures. cbn [List.filter].
    destruct (failed a); cbn [negb length fst snd]; do 3 f_equal; lia.
Qed.

(** C1.  Over a selection that is not empty [claimAllFees] runs to its end
    whatever the turns do.  Every selected record is attempted, in order: its
    claim request is posted, and its turn ends as its attempt does.  An
    attempt fails when the claim request is rejected, answered not ok or
    answered without a transaction, when the wallet refuses to sign, or when
    the submission is rejected or answered not ok; it succeeds exactly when
    the three steps are answered well.  A failed attempt adds one to
    [failCount], logs its error and leaves [successCount] alone, and the loop
    goes on with the rest of the selection.  So [failCount] is the number of
    failed attempts and [successCount] the number of the others; with three
    selected records of which exactly one fails the counters end at 2 and
    1. *)
Theorem claimAllFees_continues_after_failure
    (s : Sys State World (event Transaction))
    payer MIN_SOL_THRESHOLD (poolsWithFees : list FeeMetrics) :
  publicKey (st s) = Some payer ->
  signTransaction (st s) = true ->
  BN.of_number (minLamports (st s)) = Some MIN_SOL_THRESHOLD ->
  filter_pools MIN_SOL_THRESHOLD (fees (st s)) = Some poolsWithFees ->
  poolsWithFees <> [] ->
  exists successCount failCount new s' attempts w',
    claimAllFees s = (Ok (BatchDone successCount failCount), s')
    /\ trace s' = trace s ++ new
    /\ claim_requests new = map (claim_request payer) poolsWithFees
    /\ claimAll payer poolsWithFees (world s) = (attempts, w')
    /\ length attempts = length poolsWithFees
    /\ failCount = Z.of_nat (failures attempts)
    /\ successCount = Z.of_nat (successes attempts)
    /\ failCount = Z.of_nat (count is_failure new)
    /\ successCount = Z.of_nat (count is_success new)
    /\ (forall request w,
          failed (claimOne request w).1 = false <->
          exists transaction signedTx json w1 w2 w3,
            post_claim_fees request w = (Response true (Some transaction), w1)
            /\ wallet_sign transaction w1 = (Ok signedTx, w2)
            /\ post_send_transaction signedTx w2 = (Response true json, w3))
    /\ (forall f sc fc s0,
          claim_iteration payer f sc fc s0
          = (Ok (if failed (claimOne (claim_request payer f) (world s0)).1
                 then (sc, fc + 1) else (sc + 1, fc)),
             mkSys (st s0) (claimOne (claim_request payer f) (world s0)).2
               (trace s0
                ++ turn_events payer f (claimOne (claim_request payer f) (world s0)).1)))
    /\ (forall f rest sc fc s0 s1,
          claim_iteration payer f sc fc s0 = (Ok (sc, fc + 1), s1) ->
          claim_loop payer (f :: rest) sc fc s0 = claim_loop payer rest sc (fc + 1) s1)
    /\ (length poolsWithFees = 3%nat -> failures attempts = 1%nat ->
        successCount = 2 /\ failCount = 1).
Proof.
  intros Hkey Hsign Hmin Hkept Hsome.
  destruct (claimAllFees_batch s payer MIN_SOL_THRESHOLD poolsWithFees
              Hkey Hsign Hmin Hkept Hsome)
    as (new & s' & Hrun & Htrace & Hreq & Hlen & _).
  destruct (claimAll payer poolsWithFees (world s)) as [attempts w'] eqn:Hattempts.
  assert (Hlength : length attempts = length poolsWithFees).
  { pose proof (claimAll_length payer poolsWithFees (world s)) as H.
    by rewrite Hattempts in H. }
  assert (Hcounts : Z.of_nat (count is_success new) = Z.of_nat (successes attempts)
                    /\ Z.of_nat (count is_failure new) = Z.of_nat (failures attempts)).
  { revert Hrun. unfold claimAllFees, Admin.claimAllFees. run.
    rewrite Hkey, Hsign, Hmin. run. rewrite Hkept. run.
    rewrite bool_decide_eq_false_2 by (destruct poolsWithFees; [done | discriminate]).
    pose proof (claim_loop_attempts payer poolsWithFees 0 0
                  (mkSys (setClaimingAll true (st s)) (world s)
                     (trace s ++ [ToastClaiming (length poolsWithFees)]))) as Hloop.
    unfold claim_loop in Hloop. cbn [st world trace] in Hloop.
    rewrite Hloop, Hattempts. run. cbn [fst snd]. rewrite !Z.add_0_l.
    destruct (bool_decide (Z.of_nat (successes attempts) > 0)),
      (bool_decide (Z.of_nat (failures attempts) > 0)); run;
      match goal with
      | |- context [Admin.fetchFees get_admin_fees ?s2] =>
          destruct (fetchFees_quiet s2) as (? & ? & Hfetch & _)
      end;
      unfold fetchFees in Hfetch; rewrite Hfetch; by intros [= -> ->]. }
  destruct Hcounts as [Hsuccesses Hfailures].
  exists (Z.of_nat (successes attempts)), (Z.of_nat (failures attempts)),
    new, s', attempts, w'.
  split; [by rewrite <- Hsuccesses, <- Hfailures |].
  do 6 (split; [done |]).
  split; [done |]. split; [done |].
  split; [exact claimOne_claimed |].
  split; [exact (claim_iteration_attempt payer) |].
  split.
  - intros f rest sc fc s0 s1 Hfailed.
    unfold claim_loop. cbn [Admin.claim_loop]. unfold bind.
    unfold claim_iteration in Hfailed. by rewrite Hfailed.
  - intros Hthree Hone.
    assert (Hsum : (successes attempts + failures attempts = length attempts)%nat).
    { clear. unfold successes, failures.
      induction attempts as [| a rest IH]; [reflexivity |].
      cbn [List.filter]. destruct (failed a); cbn [negb length]; lia. }
    lia.
Qed.

(** C10.  After a batch over a selection that is not empty the two counters
    add up to the number of selected records and neither is negative; each
    selected record has been requested exactly once and counted exactly once,
    as a success or as a failure. *)
Theorem claimAllFees_counts_every_selected_record
    (s : Sys State World (event Transaction))
    payer MIN_SOL_THRESHOLD (poolsWithFees : list FeeMetrics) :
  publicKey (st s) = Some payer ->
  signTransaction (st s) = true ->
  BN.of_number (minLamports (st s)) = Some MIN_SOL_THRESHOLD ->
  filter_pools MIN_SOL_THRESHOLD (fees (st s)) = Some poolsWithFees ->
  poolsWithFees <> [] ->
  exists successCount failCount new s',
    claimAllFees s = (Ok (BatchDone successCount failCount), s')
    /\ trace s' = trace s ++ new
    /\ successCount + failCount = Z.of_nat (length poolsWithFees)
    /\ 0 <= successCount
    /\ 0 <= failCount
    /\ length (claim_requests new) = length poolsWithFees
    /\ (count is_success new + count is_failure new = length poolsWithFees)%nat.
Proof.
  intros Hkey Hsign Hmin Hkept Hsome.
  edestruct claimAllFees_batch as (new & s' & Hrun & Htrace & Hreq & Hlen & _);
    [exact Hkey | exact Hsign | exact Hmin | exact Hkept | exact Hsome |].
  eexists _, _, new, s'.
  split; [exact Hrun |].
  split; [exact Htrace |].
  split; [rewrite <- Hlen; apply eq_sym, Nat2Z.inj_add |].
  split; [apply Nat2Z.is_nonneg |].
  split; [apply Nat2Z.is_nonneg |].
  split; [| exact Hlen].
  rewrite Hreq. apply length_map.
Qed.

(** C6.  When no record reaches the threshold [claimAllFees] returns at once:
    it shows the toast that there are no fees to claim and does nothing else.
    The state and the world are what they were, no claim request, wallet
    prompt or submission has happened, no turn has been counted, and the
    toast is none of the two that sum a batch up; the run ends as
    [NothingToClaim], which a batch never does. *)
Theorem claimAllFees_nothing_to_claim
    (s : Sys State World (event Transaction)) payer MIN_SOL_THRESHOLD :
  publicKey (st s) = Some payer ->
  signTransaction (st s) = true ->
  BN.of_number (minLamports (st s)) = Some MIN_SOL_THRESHOLD ->
  filter_pools MIN_SOL_THRESHOLD (fees (st s)) = Some [] ->
  claimAllFees s
  = (Ok NothingToClaim, mkSys (st s) (world s) (trace s ++ [ToastNoFees]))
  /\ claim_requests [@ToastNoFees Transaction] = []
  /\ count is_sign_or_submit [@ToastNoFees Transaction] = 0%nat
  /\ count is_success [@ToastNoFees Transaction] = 0%nat
  /\ count is_failure [@ToastNoFees Transaction] = 0%nat
  /\ is_summary (@ToastNoFees Transaction) = false
  /\ (forall successCount failCount, NothingToClaim <> BatchDone successCount failCount)
  /\ (forall poolsWithFees,
        poolsWithFees <> [] ->
        forall s0, publicKey (st s0) = Some payer -> signTransaction (st s0) = true ->
        BN.of_number (minLamports (st s0)) = Some MIN_SOL_THRESHOLD ->
        filter_pools MIN_SOL_THRESHOLD (fees (st s0)) = Some poolsWithFees ->
        exists successCount failCount new s',
          claimAllFees s0 = (Ok (BatchDone successCount failCount), s')
          /\ trace s' = trace s0 ++ new
          /\ count is_nothing_to_claim new = 0%nat).
Proof.
  intros Hkey Hsign Hmin Hnone.
  split.
  { unfold claimAllFees, Admin.claimAllFees. run.
    rewrite Hkey, Hsign, Hmin. run.
    rewrite Hnone. run.
    reflexivity. }
  do 5 (split; [reflexivity |]).
  split; [discriminate |].
  intros poolsWithFees Hsome s0 Hkey0 Hsign0 Hmin0 Hkept0.
  destruct (claimAllFees_batch s0 payer MIN_SOL_THRESHOLD poolsWithFees
              Hkey0 Hsign0 Hmin0 Hkept0 Hsome)
    as (new & s' & Hrun & Htrace & _ & _ & Hquiet).
  eauto 10.
Qed.

End ClaimAllProperties.

Lemma claimAllFees_continues_after_failure_witness :
  exists new s',
    Admin.claimAllFees Scenario.post_claim_fees Scenario.wallet_sign
      Scenario.post_send_transaction Scenario.get_admin_fees
      (mkSys (Scenario.admin_page Scenario.three_pools 100000000) tt [])
    = (Ok (Admin.BatchDone 2 1), s')
    /\ trace s' = new
    /\ map Admin.body_poolAddress (Admin.claim_requests new) = ["PoolA"; "PoolB"; "PoolC"]
    /\ Admin.claimAll Scenario.post_claim_fees Scenario.wallet_sign
         Scenario.post_send_transaction "AdminWallet" Scenario.three_pools tt
       = ([Admin.Claimed "PoolA" "signed PoolA";
           Admin.SubmitError "PoolB" "signed PoolB" "Failed to send transaction";
           Admin.Claimed "PoolC" "signed PoolC"], tt).
Proof.
  destruct (claimAllFees_continues_after_failure Scenario.post_claim_fees
              Scenario.wallet_sign Scenario.post_send_transaction
              Scenario.get_admin_fees
              (mkSys (Scenario.admin_page Scenario.three_pools 100000000) tt [])
              "AdminWallet" 100000000 Scenario.three_pools
              eq_refl eq_refl eq_refl eq_refl ltac:(discriminate))
    as (sc & fc & new & s' & attempts & w' & Hrun & Htrace & Hreq & Hattempts & _
        & Hfail & Hsucc & _).
  vm_compute in Hattempts. injection Hattempts as <- <-.
  vm_compute in Hfail, Hsucc. subst sc fc.
  exists new, s'.
  split; [exact Hrun |]. split; [exact Htrace |]. split; [by rewrite Hreq |].
  reflexivity.
Defined.

Lemma claimAllFees_counts_every_selected_record_witness :
  exists successCount failCount s',
    Admin.claimAllFees Scenario.post_claim_fees Scenario.wallet_sign
      Scenario.post_send_transaction Scenario.get_admin_fees
      (mkSys (Scenario.admin_page
                (Scenario.fee "PoolD" "50000000" :: Scenario.three_pools) 100000000)
         tt [])
    = (Ok (Admin.BatchDone successCount failCount), s')
    /\ successCount + failCount = 3.
Proof.
  destruct (claimAllFees_counts_every_selected_record Scenario.post_claim_fees
              Scenario.wallet_sign Scenario.post_send_transaction
              Scenario.get_admin_fees
              (mkSys (Scenario.admin_page
                        (Scenario.fee "PoolD" "50000000" :: Scenario.three_pools)
                        100000000) tt [])
              "AdminWallet" 100000000 Scenario.three_pools
              eq_refl eq_refl eq_refl eq_refl ltac:(discriminate))
    as (sc & fc & new & s' & Hrun & _ & Hsum & _).
  exists sc, fc, s'. split; [exact Hrun | exact Hsum].
Defined.

Lemma claimAllFees_nothing_to_claim_witness :
  Admin.claimAllFees Scenario.post_claim_fees Scenario.wallet_sign
    Scenario.post_send_transaction Scenario.get_admin_fees
    (mkSys (Scenario.admin_page [Scenario.fee "PoolD" "50000000"] 100000000) tt [])
  = (Ok Admin.NothingToClaim,
     mkSys (Scenario.admin_page [Scenario.fee "PoolD" "50000000"] 100000000) tt
       [Admin.ToastNoFees]).
Proof.
  apply (claimAllFees_nothing_to_claim Scenario.post_claim_fees
           Scenario.wallet_sign Scenario.post_send_transaction
           Scenario.get_admin_fees
           (mkSys (Scenario.admin_page [Scenario.fee "PoolD" "50000000"] 100000000) tt [])
           "AdminWallet" 100000000 eq_refl eq_refl eq_refl eq_refl).
Defined.

(** The run of the scenario, step by step: PoolB is signed and refused by the
    send endpoint, PoolC is still claimed. *)
Example claim_three_pools_one_refused :
  Admin.claimAllFees Scenario.post_claim_fees Scenario.wallet_sign
    Scenario.post_send_transaction Scenario.get_admin_fees
    (mkSys (Scenario.admin_page Scenario.three_pools 100000000) tt [])
  = (Ok (Admin.BatchDone 2 1),
     mkSys (Admin.mkState (Some "AdminWallet") true [] "Config" 100000000 false false) tt
       [Admin.ToastClaiming 3;
        Admin.PostClaimFees (Admin.mkClaimFeesBody "PoolA" "AdminWallet" "0" "200000000");
        Admin.SignTransaction "PoolA";
        Admin.PostSendTransaction "signed PoolA";
        Admin.ToastClaimed "PoolA";
        Admin.PostClaimFees (Admin.mkClaimFeesBody "PoolB" "AdminWallet" "0" "300000000");
        Admin.SignTransaction "PoolB";
        Admin.PostSendTransaction "signed PoolB";
        Admin.ConsoleError "PoolB" "Failed to send transaction";
        Admin.PostClaimFees (Admin.mkClaimFeesBody "PoolC" "AdminWallet" "0" "100000000");
        Admin.SignTransaction "PoolC";
        Admin.PostSendTransaction "signed PoolC";
        Admin.ToastClaimed "PoolC";
        Admin.ToastSummarySuccess 2;
        Admin.ToastSummaryFailed 1;
        Admin.GetAdminFees;
        Admin.ToastLoaded 0]).
Proof. vm_compute. reflexivity. Qed.

(** The scenario of the specification: with a threshold of 0.1 SOL, that is
    100 000 000 lamports, a pool with 50 000 000 is left out and a pool with
    200 000 000 is selected. *)
Example only_pool_b_is_selected :
  Admin.filter_pools 100000000
    [Scenario.fee "PoolA" "50000000"; Scenario.fee "PoolB" "200000000"]
  = Some [Scenario.fee "PoolB" "200000000"].
Proof. reflexivity. Qed.

(** ** The model at work *)

(** The integer a string reads as. *)
Example bn_of_string_samples :
  BN.of_string "9007199254740993" = Some 9007199254740993
  /\ BN.of_string "" = Some 0
  /\ BN.of_string "-45" = Some (-45)
  /\ BN.of_string " 12 3" = Some 123
  /\ BN.of_string "1e9" = None
  /\ BN.of_string "-" = None.
Proof. repeat split; reflexivity. Qed.

(** What the constructor builds: a number, an object with no words, or
    nothing because it throws; and how an object with no words adds,
    compares and tests for zero. *)
Example bn_construct_samples :
  BN.construct " 12 3" = Some (BN.Num 123)
  /\ BN.construct "" = Some (BN.Num 0)
  /\ BN.construct " " = Some (BN.Blank false)
  /\ BN.construct "-" = Some (BN.Blank true)
  /\ BN.construct "1e9" = None
  /\ BN.construct "--5" = None
  /\ BN.add 7 (BN.Blank true) = 7
  /\ BN.gte (BN.Blank false) 0 = false
  /\ BN.gte (BN.Blank true) (-1) = true
  /\ BN.isZero (BN.Blank false) = false.
Proof. repeat split; reflexivity. Qed.

(** A fee that is blank adds nothing to the totals, and it is not selected
    under a threshold of 0, which it compares below. *)
Example blank_fee_in_totals_and_selection :
  Admin.totals [Scenario.fee "PoolA" "5"; Scenario.fee "PoolB" " "]
  = Some (Admin.mkTotals 5 0 0 0)
  /\ Admin.filter_pools 0 [Scenario.fee "PoolA" "5"; Scenario.fee "PoolB" " "]
     = Some [Scenario.fee "PoolA" "5"].
Proof. split; reflexivity. Qed.

(** A stale entry: the server asks the node, looks the metadata up, answers
    with [cached: false] and stores the new entry with the time of the
    second clock reading. *)
Example server_refresh_replaces_stale_entry :
  PoolsApi.handler Scenario.Date_now Scenario.new_key Scenario.new_key
    Scenario.getPoolsByConfig_up Scenario.getAsset_up "GET"
    (mkSys Scenario.server_with_cache 61000 [])
  = let pool := mkPool "PoolA" "Config" "MintA" "Creator" "1000" "2000"
                  (Some (mkMetadata "Token A" "" "" "https://img/a.png")) in
    (Ok (mkReply 200 PoolsApi.cache_headers
           (Success (PoolsApi.mkPoolsBody [pool] 1 false None))),
     mkSys (PoolsApi.mkState "https://rpc.example" "Config"
              (Some (PoolsApi.mkCachedData [pool] 61001)))
       61002 [PoolsApi.GetPoolsByConfig "Config"; PoolsApi.GetAsset "MintA"]).
Proof. reflexivity. Qed.

(** A forced refresh in the browser: the request is sent although the entry
    is fresh, and the answer is stored in the state and in [localStorage]. *)
Example client_forced_refresh :
  PoolsCacheProvider.fetchPools Scenario.Date_now Scenario.fetch_pools
    Scenario.JSON_stringify Scenario.setItem_accepts true
    (mkSys Scenario.client_with_cache 2000 [])
  = (Ok tt,
     mkSys (PoolsCacheProvider.mkState [Scenario.pool_a] false None (Some 2001)
              (<[PoolsCacheProvider.CACHE_KEY := "2001"]> ∅))
       2002 [PoolsCacheProvider.FetchPools; PoolsCacheProvider.ConsoleLog "Fetched pools"]).
Proof. reflexivity. Qed.

(** The administrator's own claim request goes through to the SDK. *)
Example admin_claim_is_built :
  ClaimFeesApi.handler Scenario.new_Connection Scenario.new_PublicKey
    Scenario.claimPartnerTradingFee Scenario.getLatestBlockhash Scenario.serialize
    "POST" (<["payerAddress" := JStr "AdminWallet"]> Scenario.foreign_claim)
    (mkSys Scenario.admin_env tt [])
  = (Ok (mkReply 200 [] (Success (ClaimFeesApi.mkClaimBody "claim PoolA"))),
     mkSys Scenario.admin_env tt
       [ClaimFeesApi.ClaimPartnerTradingFee "PoolA" "AdminWallet" "AdminWallet"
          (BN.Num 10) (BN.Num 20);
        ClaimFeesApi.GetLatestBlockhash]).
Proof. vm_compute. reflexivity. Qed.

(** A balance lookup with an address. *)
Example balance_of_an_address :
  GetBalance.handler Scenario.new_Connection Scenario.new_PublicKey
    Scenario.getBalance "POST" (Some (<["address" := JStr "Wallet"]> ∅))
    (mkSys "https://rpc.example" tt [])
  = (Ok (mkReply 200 [] (Success (GetBalance.mkBalanceBody 5000))),
     mkSys "https://rpc.example" tt [GetBalance.RpcGetBalance "Wallet"]).
Proof. vm_compute. reflexivity. Qed.

(** * More properties of the code *)

(** ** Decimal strings: what [toString] writes, [new BN] reads *)
Section DecimalRoundTrip.

(** Reading the digits of a decimal number after digits worth [acc]. *)
Lemma parseBase_of_uint_acc (d : Decimal.uint) (acc : positive) :
  BN.parseBase (NilEmpty.string_of_uint d) (Z.pos acc)
  = Some (Z.pos (Pos.of_uint_acc d acc)).
Proof.
  revert acc.
  induction d; intros acc; cbn [NilEmpty.string_of_uint BN.parseBase Pos.of_uint_acc];
    [reflexivity | ..];
    (change (BN.digit _) with (Some 0) || change (BN.digit _) with (Some 1)
     || change (BN.digit _) with (Some 2) || change (BN.digit _) with (Some 3)
     || change (BN.digit _) with (Some 4) || change (BN.digit _) with (Some 5)
     || change (BN.digit _) with (Some 6) || change (BN.digit _) with (Some 7)
     || change (BN.digit _) with (Some 8) || change (BN.digit _) with (Some 9));
    cbv iota; rewrite <- IHd; f_equal; lia.
Qed.

Lemma parseBase_of_uint (d : Decimal.uint) :
  BN.parseBase (NilEmpty.string_of_uint d) 0 = Some (Z.of_N (Pos.of_uint d)).
Proof.
  induction d; cbn [NilEmpty.string_of_uint BN.parseBase Pos.of_uint];
    [reflexivity | exact IHd | ..];
    (change (BN.digit _) with (Some 1)
     || change (BN.digit _) with (Some 2) || change (BN.digit _) with (Some 3)
     || change (BN.digit _) with (Some 4) || change (BN.digit _) with (Some 5)
     || change (BN.digit _) with (Some 6) || change (BN.digit _) with (Some 7)
     || change (BN.digit _) with (Some 8) || change (BN.digit _) with (Some 9));
    cbv iota; apply parseBase_of_uint_acc.
Qed.

(** Digits hold no white space. *)
Lemma strip_spaces_digits (d : Decimal.uint) :
  BN.strip_spaces (NilEmpty.string_of_uint d) = NilEmpty.string_of_uint d.
Proof.
  induction d; cbn [NilEmpty.string_of_uint BN.strip_spaces];
    [reflexivity | ..];
    (change (BN.is_space _) with false); cbv iota; by rewrite IHd.
Qed.

Lemma of_string_digits (d : Decimal.uint) :
  d <> Decimal.Nil ->
  BN.of_string (NilEmpty.string_of_uint d) = Some (Z.of_N (Pos.of_uint d))
  /\ BN.of_string (String "-" (NilEmpty.string_of_uint d))
     = Some (- Z.of_N (Pos.of_uint d)).
Proof.
  intros Hd.
  pose proof (parseBase_of_uint d) as Hparse.
  pose proof (strip_spaces_digits d) as Hstrip.
  unfold BN.of_string.
  cbn [BN.strip_spaces]. change (BN.is_space "-") with false. cbv iota.
  rewrite Hstrip.
  destruct d; [done | ..]; cbn [NilEmpty.string_of_uint] in *;
    rewrite Hparse; split; reflexivity.
Qed.

(** [new BN(z.toString())] is [z], for every integer. *)
Lemma of_string_to_string (z : Z) : BN.of_string (BN.to_string z) = Some z.
Proof.
  destruct z as [| p | p]; [reflexivity | ..];
    unfold BN.to_string; cbn [Z.to_int NilZero.string_of_int];
    pose proof (Unsigned.to_uint_nonnil p) as Hnil;
    pose proof (DecimalPos.Unsigned.of_to p) as Hof;
    destruct (of_string_digits (Pos.to_uint p) Hnil) as [Hpos Hneg];
    unfold NilZero.string_of_uint;
    destruct (Pos.to_uint p) eqn:Hd; try done;
    rewrite <- Hd in *; rewrite ?Hpos, ?Hneg, Hof; reflexivity.
Qed.

(** [new BN(z.toString())] holds [z]. *)
Lemma construct_to_string (z : Z) : BN.construct (BN.to_string z) = Some (BN.Num z).
Proof. apply construct_of_string, of_string_to_string. Qed.

End DecimalRoundTrip.

(** ** From the fee endpoint to the dashboard *)
Section FeeEndpointProperties.

Context {World Connection PublicKey : Type}.
Context (new_Connection : string -> option Connection).
Context (new_PublicKey : string -> option PublicKey).
Context (getPoolsFeesByConfig :
  Connection -> PublicKey -> World -> result (list FeesApi.PoolFees) * World).

Lemma sum_right_fee_json (field : Admin.FeeMetrics -> string)
    (amount : FeesApi.PoolFees -> BN.t) (onchain : list FeesApi.PoolFees) :
  (forall fee, field (FeesApi.fee_json fee) = BN.to_string (amount fee)) ->
  Admin.reduce_add field (map FeesApi.fee_json onchain)
  = Some (foldr Z.add 0 (map amount onchain)).
Proof.
  intros Hfield.
  rewrite reduce_add_sum_right.
  apply sum_right_exact.
  induction onchain as [| fee rest IH]; cbn [map]; constructor; [| exact IH].
  rewrite Hfield. apply of_string_to_string.
Qed.

Lemma filter_pools_fee_json (MIN : BN.t) (onchain : list FeesApi.PoolFees) :
  Admin.filter_pools MIN (map FeesApi.fee_json onchain)
  = Some (map FeesApi.fee_json
            (filter (fun fee => MIN <= FeesApi.fee_partnerQuoteFee fee) onchain)).
Proof.
  induction onchain as [| fee rest IH]; [reflexivity |].
  cbn [map Admin.filter_pools].
  unfold Admin.is_claimable at 1.
  cbn [FeesApi.fee_json Admin.partnerQuoteFee].
  rewrite construct_to_string, IH. cbn [mbind option_bind].
  rewrite filter_cons. unfold BN.gte.
  destruct (decide (MIN <= FeesApi.fee_partnerQuoteFee fee)) as [Hle | Hlt].
  - rewrite bool_decide_eq_true_2 by lia. reflexivity.
  - rewrite bool_decide_eq_false_2 by lia. reflexivity.
Qed.

(** X1.  Whatever the fee endpoint answers with a 200, the dashboard reads
    back exactly.  The fee list of the answer is the image, in order, of the
    amounts the SDK gave for the configured key on the Helius connection;
    the configuration address is the configured key; the four totals of the
    dashboard are the integer sums of those amounts; and for every threshold
    the selection of [claimAllFees] goes through and keeps the records whose
    on-chain partner quote fee reaches the threshold. *)
Theorem fee_endpoint_answer_is_read_back_exactly
    (method : string) (s s' : Sys FeesApi.Env World FeesApi.event)
    (answer : reply FeesApi.FeesBody) (b : FeesApi.FeesBody) :
  FeesApi.handler new_Connection new_PublicKey getPoolsFeesByConfig method s
  = (Ok answer, s') ->
  body answer = Success b ->
  exists connection configAddress (onchain : list FeesApi.PoolFees),
    new_Connection (FeesApi.heliusUrl (FeesApi.RPC_URL (st s))) = Some connection
    /\ new_PublicKey (FeesApi.POOL_CONFIG_KEY (st s)) = Some configAddress
    /\ getPoolsFeesByConfig connection configAddress (world s) = (Ok onchain, world s')
    /\ trace s' = trace s ++ [FeesApi.GetPoolsFeesByConfig (FeesApi.POOL_CONFIG_KEY (st s))]
    /\ FeesApi.body_fees b = map FeesApi.fee_json onchain
    /\ FeesApi.body_configAddress b = FeesApi.POOL_CONFIG_KEY (st s)
    /\ Admin.totals (FeesApi.body_fees b)
       = Some (Admin.mkTotals
                 (foldr Z.add 0 (map FeesApi.fee_partnerQuoteFee onchain))
                 (foldr Z.add 0 (map FeesApi.fee_partnerBaseFee onchain))
                 (foldr Z.add 0 (map FeesApi.fee_creatorQuoteFee onchain))
                 (foldr Z.add 0 (map FeesApi.fee_creatorBaseFee onchain)))
    /\ (forall MIN_SOL_THRESHOLD,
          Admin.filter_pools MIN_SOL_THRESHOLD (FeesApi.body_fees b)
          = Some (map FeesApi.fee_json
                    (filter (fun fee => MIN_SOL_THRESHOLD <= FeesApi.fee_partnerQuoteFee fee)
                       onchain))).
Proof.
  unfold FeesApi.handler.
  destruct (negb (method =? "GET")%string).
  { run. intros [= <- _] Hbody. discriminate. }
  run.
  destruct (negb (env_set _) || negb (env_set _)).
  { intros [= <- _] Hbody. discriminate. }
  destruct (new_Connection _) as [connection |] eqn:Hconn; run;
    [| intros [= <- _] Hbody; discriminate].
  destruct (new_PublicKey _) as [configAddress |] eqn:Hkey; run;
    [| intros [= <- _] Hbody; discriminate].
  destruct (getPoolsFeesByConfig _ _ _) as [[onchain | msg] w] eqn:Hnode; run;
    [| intros [= <- _] Hbody; discriminate].
  intros [= <- <-]. cbn [body]. intros [= <-].
  cbn [FeesApi.body_fees FeesApi.body_configAddress world trace].
  exists connection, configAddress, onchain.
  do 6 (split; [done |]). split.
  - unfold Admin.totals.
    rewrite (sum_right_fee_json Admin.partnerQuoteFee FeesApi.fee_partnerQuoteFee) by done.
    rewrite (sum_right_fee_json Admin.partnerBaseFee FeesApi.fee_partnerBaseFee) by done.
    rewrite (sum_right_fee_json Admin.creatorQuoteFee FeesApi.fee_creatorQuoteFee) by done.
    rewrite (sum_right_fee_json Admin.creatorBaseFee FeesApi.fee_creatorBaseFee) by done.
    reflexivity.
  - intros MIN. apply filter_pools_fee_json.
Qed.

End FeeEndpointProperties.

Lemma fee_endpoint_answer_is_read_back_exactly_witness :
  Admin.totals (map FeesApi.fee_json Scenario2.onchain_fees)
  = Some (Admin.mkTotals 9007199304740993 5 7 0)
  /\ Admin.filter_pools 100000000 (map FeesApi.fee_json Scenario2.onchain_fees)
     = Some [FeesApi.fee_json (FeesApi.mkPoolFees "PoolA" 5 9007199254740993 0 7 100 200)].
Proof.
  destruct (fee_endpoint_answer_is_read_back_exactly Scenario.new_key Scenario.new_key
              Scenario2.getPoolsFeesByConfig "GET"
              (mkSys Scenario2.fees_env tt [])
              (mkSys Scenario2.fees_env tt [FeesApi.GetPoolsFeesByConfig "Config"])
              (mkReply 200 []
                 (Success (FeesApi.mkFeesBody
                             (map FeesApi.fee_json Scenario2.onchain_fees) "Config")))
              (FeesApi.mkFeesBody (map FeesApi.fee_json Scenario2.onchain_fees) "Config")
              eq_refl eq_refl)
    as (connection & configAddress & onchain & _ & _ & Hnode & _ & _ & _ & Htotals & Hkept).
  injection Hnode as <-.
  split; [exact Htotals | exact (Hkept 100000000)].
Defined.

(** ** More on the pool cache of the server *)
Section ServerCacheMore.

Context {World Connection PublicKey : Type}.
Context (Date_now : World -> Z * World).
Context (new_Connection : string -> option Connection).
Context (new_PublicKey : string -> option PublicKey).
Context (getPoolsByConfig :
  Connection -> PublicKey -> World -> result (list PoolsApi.PoolAccount) * World).
Context (getAsset : string -> string -> World -> PoolsApi.asset_reply * World).

Let handler :=
  PoolsApi.handler Date_now new_Connection new_PublicKey getPoolsByConfig getAsset.
Let refresh :=
  PoolsApi.refresh Date_now new_Connection new_PublicKey getPoolsByConfig getAsset.
Let handler_miss :=
  PoolsApi.handler_miss Date_now new_Connection new_PublicKey getPoolsByConfig getAsset.

Lemma metadata_of_named (asset : PoolsApi.Asset) :
  name (PoolsApi.metadata_of asset) <> "".
Proof.
  unfold PoolsApi.metadata_of, PoolsApi.or_else. cbn [name].
  destruct (PoolsApi.content_metadata_name asset) as [n |]; [| discriminate].
  destruct (String.eqb_spec n ""); [discriminate | done].
Qed.

(** One pool: the lookup is recorded, nothing is thrown, and the pool is
    listed with the fields of its account whatever the lookup answers. *)
Lemma with_metadata_lists rpc (account : PoolsApi.PoolAccount)
    (s : Sys PoolsApi.State World PoolsApi.event) :
  exists md w,
    PoolsApi.with_metadata getAsset rpc account s
    = (Ok (PoolsApi.pool_json account md),
       mkSys (st s) w (trace s ++ [PoolsApi.GetAsset (PoolsApi.account_baseMint account)]))
    /\ PoolsObserve.named (PoolsApi.pool_json account md).
Proof.
  unfold PoolsApi.with_metadata. run.
  destruct (getAsset rpc (PoolsApi.account_baseMint account) (world s))
    as [[msg | [asset |] [|]] w]; run.
  all: eexists _, w; (split; [reflexivity |]); intros m [= <-].
  apply metadata_of_named.
Qed.

Lemma map_with_metadata_lists rpc (accounts : list PoolsApi.PoolAccount)
    (s : Sys PoolsApi.State World PoolsApi.event) :
  exists listed w,
    PoolsApi.map_with_metadata getAsset rpc accounts s
    = (Ok listed,
       mkSys (st s) w
         (trace s ++ map (fun a => PoolsApi.GetAsset (PoolsApi.account_baseMint a)) accounts))
    /\ Forall2 (fun p a => exists md, p = PoolsApi.pool_json a md) listed accounts
    /\ Forall PoolsObserve.named listed.
Proof.
  revert s.
  induction accounts as [| account rest IH]; intros s.
  - exists [], (world s). cbn. rewrite app_nil_r. destruct s. by repeat split.
  - cbn [PoolsApi.map_with_metadata map]. unfold bind at 1.
    destruct (with_metadata_lists rpc account s) as (md & w1 & -> & Hnamed).
    unfold bind at 1.
    match goal with
    | |- context [PoolsApi.map_with_metadata getAsset rpc rest ?s1] =>
        destruct (IH s1) as (listed & w2 & -> & Hfields & Hall)
    end.
    run. exists (PoolsApi.pool_json account md :: listed), w2.
    rewrite <- app_assoc. split; [reflexivity |].
    split; constructor; eauto.
Qed.

(** What a [try] block that does not throw has done. *)
Lemma refresh_ok_inv rpc key (s s' : Sys PoolsApi.State World PoolsApi.event)
    (answer : reply PoolsApi.PoolsBody) :
  refresh rpc key s = (Ok answer, s') ->
  exists connection configKey accounts listed ts w1 w2,
    new_Connection rpc = Some connection
    /\ new_PublicKey key = Some configKey
    /\ getPoolsByConfig connection configKey (world s) = (Ok accounts, w1)
    /\ Date_now w2 = (ts, world s')
    /\ answer = mkReply 200 PoolsApi.cache_headers
                  (Success (PoolsApi.mkPoolsBody listed (length accounts) false None))
    /\ st s' = PoolsApi.setCachedData (PoolsApi.mkCachedData listed ts) (st s)
    /\ trace s' = trace s ++ PoolsApi.GetPoolsByConfig key
                     :: map (fun a => PoolsApi.GetAsset (PoolsApi.account_baseMint a)) accounts
    /\ Forall2 (fun p a => exists md, p = PoolsApi.pool_json a md) listed accounts
    /\ Forall PoolsObserve.named listed.
Proof.
  unfold refresh, PoolsApi.refresh. run.
  destruct (new_Connection rpc) as [connection |]; run; [| discriminate].
  destruct (new_PublicKey key) as [configKey |]; run; [| discriminate].
  destruct (getPoolsByConfig connection configKey (world s))
    as [[accounts | msg] w1] eqn:Hpools; run; [| discriminate].
  match goal with
  | |- context [PoolsApi.map_with_metadata getAsset rpc accounts ?s1] =>
      destruct (map_with_metadata_lists rpc accounts s1)
        as (listed & w2 & -> & Hfields & Hall)
  end.
  run. destruct (Date_now w2) as [ts w3] eqn:Hclock. run.
  intros [= <- <-]. cbn [st world trace].
  exists connection, configKey, accounts, listed, ts, w1, w2.
  rewrite (Forall2_length _ _ _ Hfields), <- app_assoc.
  by repeat split.
Qed.

(** What a [try] block that throws has done: at most the pool query. *)
Lemma refresh_thrown_inv rpc key (s s' : Sys PoolsApi.State World PoolsApi.event) e :
  refresh rpc key s = (Thrown e, s') ->
  st s' = st s
  /\ (trace s' = trace s \/ trace s' = trace s ++ [PoolsApi.GetPoolsByConfig key]).
Proof.
  unfold refresh, PoolsApi.refresh. run.
  destruct (new_Connection rpc) as [connection |]; run;
    [| intros [= <- <-]; auto].
  destruct (new_PublicKey key) as [configKey |]; run;
    [| intros [= <- <-]; auto].
  destruct (getPoolsByConfig connection configKey (world s)) as [[accounts | msg] w1]; run;
    [| intros [= <- <-]; auto].
  match goal with
  | |- context [PoolsApi.map_with_metadata getAsset rpc accounts ?s1] =>
      destruct (map_with_metadata_lists rpc accounts s1) as (listed & w2 & -> & _)
  end.
  run. destruct (Date_now w2) as [ts w3]. run. discriminate.
Qed.

(** The three ways a request is answered. *)
Lemma handler_cases method (s : Sys PoolsApi.State World PoolsApi.event) :
  (handler method s = (Ok (mkReply 405 [] (Failure "Method not allowed" None)), s)
   /\ method <> "GET")
  \/ (exists now w c,
        Date_now (world s) = (now, w)
        /\ PoolsApi.cachedData (st s) = Some c
        /\ now - PoolsApi.timestamp c < 60000
        /\ handler method s
           = (Ok (mkReply 200 PoolsApi.cache_headers
                    (Success (PoolsApi.mkPoolsBody (PoolsApi.pools c)
                                (length (PoolsApi.pools c)) true
                                (Some ((now - PoolsApi.timestamp c) / 1000))))),
              mkSys (st s) w (trace s)))
  \/ (exists now w,
        Date_now (world s) = (now, w)
        /\ handler method s = handler_miss (st s) (mkSys (st s) w (trace s))).
Proof.
  unfold handler, PoolsApi.handler.
  destruct (String.eqb_spec method "GET") as [-> | Hother]; cbn [negb].
  2: { left. by split. }
  right. run.
  destruct (Date_now (world s)) as [now w] eqn:Hclock. run.
  destruct (PoolsApi.cachedData (st s)) as [c |] eqn:Hentry.
  - destruct (bool_decide (now - PoolsApi.timestamp c < PoolsApi.CACHE_DURATION_MS))
      eqn:Hfresh.
    + left. exists now, w, c. apply bool_decide_eq_true in Hfresh.
      unfold PoolsApi.CACHE_DURATION_MS in Hfresh. repeat split; first [lia | done].
    + right. by exists now, w.
  - right. by exists now, w.
Qed.

(** X2.  On a miss with the server configured and the pool query answered,
    the request is answered 200 with [cached: false] and one pool per account
    of the answer, in the same order and with the fields of the account,
    whatever the metadata lookups did; [count] is the number of accounts; one
    lookup per pool has been sent after the query; and the cache holds the
    listed pools with the time read after the lookups. *)
Theorem refresh_lists_every_pool
    (s : Sys PoolsApi.State World PoolsApi.event)
    (now : Z) (w1 w2 : World) connection configKey
    (accounts : list PoolsApi.PoolAccount) :
  Date_now (world s) = (now, w1) ->
  (forall c, PoolsApi.cachedData (st s) = Some c -> 60000 <= now - PoolsApi.timestamp c) ->
  env_set (PoolsApi.RPC_URL (st s)) = true ->
  env_set (PoolsApi.POOL_CONFIG_KEY (st s)) = true ->
  new_Connection (PoolsApi.RPC_URL (st s)) = Some connection ->
  new_PublicKey (PoolsApi.POOL_CONFIG_KEY (st s)) = Some configKey ->
  getPoolsByConfig connection configKey w1 = (Ok accounts, w2) ->
  exists listed ts s',
    handler "GET" s
    = (Ok (mkReply 200 PoolsApi.cache_headers
             (Success (PoolsApi.mkPoolsBody listed (length accounts) false None))), s')
    /\ Forall2 (fun p a => exists md, p = PoolsApi.pool_json a md) listed accounts
    /\ PoolsApi.cachedData (st s') = Some (PoolsApi.mkCachedData listed ts)
    /\ (exists w3, Date_now w3 = (ts, world s'))
    /\ trace s'
       = trace s ++ PoolsApi.GetPoolsByConfig (PoolsApi.POOL_CONFIG_KEY (st s))
           :: map (fun a => PoolsApi.GetAsset (PoolsApi.account_baseMint a)) accounts.
Proof.
  intros Hclock Hmiss Hrpc Hkey Hconn Hpk Hpools.
  destruct (handler_cases "GET" s)
    as [[_ Hget] | [(now' & w' & c & Hclock' & Hentry & Hfresh & _) | (now' & w' & Hclock' & ->)]];
    [done | | ].
  { rewrite Hclock in Hclock'. injection Hclock' as <- <-.
    specialize (Hmiss c Hentry). lia. }
  rewrite Hclock in Hclock'. injection Hclock' as <- <-.
  unfold handler_miss, PoolsApi.handler_miss. rewrite Hrpc, Hkey. cbn [negb orb].
  unfold try_catch.
  destruct (PoolsApi.refresh Date_now new_Connection new_PublicKey getPoolsByConfig getAsset
              (PoolsApi.RPC_URL (st s)) (PoolsApi.POOL_CONFIG_KEY (st s))
              (mkSys (st s) w1 (trace s))) as [[answer | e] s1] eqn:Hrefresh.
  - apply refresh_ok_inv in Hrefresh
      as (connection' & configKey' & accounts' & listed & ts & wa & wb
          & Hconn' & Hpk' & Hpools' & Hts & -> & Hst & Htrace & Hfields & _).
    cbn [st world trace] in *.
    rewrite Hconn in Hconn'. injection Hconn' as <-.
    rewrite Hpk in Hpk'. injection Hpk' as <-.
    rewrite Hpools in Hpools'. injection Hpools' as <- <-.
    exists listed, ts, s1. rewrite Hst.
    split; [reflexivity |]. split; [exact Hfields |].
    split; [reflexivity |]. split; [by exists wb | exact Htrace].
  - exfalso. revert Hrefresh. unfold PoolsApi.refresh. run.
    rewrite Hconn, Hpk. run. rewrite Hpools. run.
    match goal with
    | |- context [PoolsApi.map_with_metadata getAsset ?rpc accounts ?s0] =>
        destruct (map_with_metadata_lists rpc accounts s0) as (listed & w3 & -> & _)
    end.
    run. destruct (Date_now w3) as [ts w4]. run. discriminate.
Qed.

(** X3.  What a refresh answers is what the next read within the time to
    live answers: after a 200 with [cached: false], a GET whose clock reading
    is less than 60 000 ms after the stored time stamp is answered with the
    same pools and the same count, [cached: true], and without any call to
    the Remote Data Source. *)
Theorem refreshed_entry_is_served_next
    (s s1 : Sys PoolsApi.State World PoolsApi.event)
    (answer : reply PoolsApi.PoolsBody) (b : PoolsApi.PoolsBody) :
  handler "GET" s = (Ok answer, s1) ->
  body answer = Success b ->
  PoolsApi.body_cached b = false ->
  exists ts,
    PoolsApi.cachedData (st s1) = Some (PoolsApi.mkCachedData (PoolsApi.body_pools b) ts)
    /\ forall now2 w,
         Date_now (world s1) = (now2, w) ->
         now2 - ts < 60000 ->
         handler "GET" s1
         = (Ok (mkReply 200 PoolsApi.cache_headers
                  (Success (PoolsApi.mkPoolsBody (PoolsApi.body_pools b)
                              (PoolsApi.body_count b) true
                              (Some ((now2 - ts) / 1000))))),
            mkSys (st s1) w (trace s1)).
Proof.
  intros Hrun Hbody Hfresh.
  assert (Hstored : exists ts,
             PoolsApi.cachedData (st s1)
             = Some (PoolsApi.mkCachedData (PoolsApi.body_pools b) ts)
             /\ PoolsApi.body_count b = length (PoolsApi.body_pools b)).
  { destruct (handler_cases "GET" s)
      as [[Hbad _] | [(now & w & c & _ & _ & _ & Hhit) | (now & w & _ & Hmiss)]].
    - rewrite Hbad in Hrun. injection Hrun as <- <-. discriminate.
    - rewrite Hhit in Hrun. injection Hrun as <- <-.
      injection Hbody as <-. discriminate.
    - rewrite Hmiss in Hrun. revert Hrun.
      unfold handler_miss, PoolsApi.handler_miss.
      destruct (negb (env_set _) || negb (env_set _)).
      { intros [= <- <-]. discriminate. }
      unfold try_catch.
      destruct (PoolsApi.refresh Date_now new_Connection new_PublicKey getPoolsByConfig
                  getAsset (PoolsApi.RPC_URL (st s)) (PoolsApi.POOL_CONFIG_KEY (st s))
                  (mkSys (st s) w (trace s))) as [[answer' | e] s2] eqn:Hrefresh.
      + intros [= <- <-].
        apply refresh_ok_inv in Hrefresh
          as (_ & _ & accounts & listed & ts & _ & _
              & _ & _ & _ & _ & -> & Hst & _ & Hfields & _).
        injection Hbody as <-. exists ts. rewrite Hst.
        cbn [PoolsApi.body_pools PoolsApi.body_count].
        split; [reflexivity |]. symmetry. exact (Forall2_length _ _ _ Hfields).
      + intros [= <- <-]. discriminate. }
  destruct Hstored as (ts & Hentry & Hcount).
  exists ts. split; [exact Hentry |].
  intros now2 w Hclock Hage.
  unfold handler, PoolsApi.handler. cbn [String.eqb Ascii.eqb Bool.eqb negb]. run.
  rewrite Hclock. run. rewrite Hentry. cbn [PoolsApi.timestamp PoolsApi.pools].
  rewrite bool_decide_eq_true_2 by (unfold PoolsApi.CACHE_DURATION_MS; lia).
  by rewrite Hcount.
Qed.

(** X4.  The cache only ever holds named pools: if every pool of the entry
    has a name that is not empty wherever it has metadata, so has every pool
    of the entry after any request, and so has every pool of any answer. *)
Theorem cache_keeps_pools_named method
    (s s' : Sys PoolsApi.State World PoolsApi.event) r :
  Forall PoolsObserve.named (PoolsObserve.cached_pools (st s)) ->
  handler method s = (r, s') ->
  Forall PoolsObserve.named (PoolsObserve.cached_pools (st s'))
  /\ (forall answer b, r = Ok answer -> body answer = Success b ->
      Forall PoolsObserve.named (PoolsApi.body_pools b)).
Proof.
  intros Hinv Hrun.
  destruct (handler_cases method s)
    as [[Hbad _] | [(now & w & c & _ & Hentry & _ & Hhit) | (now & w & _ & Hmiss)]].
  - rewrite Hbad in Hrun. injection Hrun as <- <-.
    split; [exact Hinv | intros answer b [= <-]; discriminate].
  - rewrite Hhit in Hrun. injection Hrun as <- <-. cbn [st].
    split; [exact Hinv |].
    intros answer b [= <-] [= <-]. cbn [PoolsApi.body_pools].
    unfold PoolsObserve.cached_pools in Hinv. by rewrite Hentry in Hinv.
  - rewrite Hmiss in Hrun. revert Hrun.
    unfold handler_miss, PoolsApi.handler_miss.
    destruct (negb (env_set _) || negb (env_set _)).
    { intros [= <- <-]. split; [exact Hinv | intros answer b [= <-]; discriminate]. }
    unfold try_catch.
    destruct (PoolsApi.refresh Date_now new_Connection new_PublicKey getPoolsByConfig
                getAsset (PoolsApi.RPC_URL (st s)) (PoolsApi.POOL_CONFIG_KEY (st s))
                (mkSys (st s) w (trace s))) as [[answer' | e] s2] eqn:Hrefresh.
    + intros [= <- <-].
      apply refresh_ok_inv in Hrefresh
        as (_ & _ & accounts & listed & ts & _ & _
            & _ & _ & _ & _ & -> & Hst & _ & _ & Hnamed).
      rewrite Hst. split; [exact Hnamed |].
      by intros answer b [= <-] [= <-].
    + intros [= <- <-].
      apply refresh_thrown_inv in Hrefresh as [Hst _]. rewrite Hst.
      split; [exact Hinv | intros answer b [= <-]; discriminate].
Qed.

(** X5.  The handler never throws: every request is answered, with status
    200, 405 or 500, and it has cost at most one pool query. *)
Theorem pools_handler_always_answers method
    (s : Sys PoolsApi.State World PoolsApi.event) :
  exists answer s' new,
    handler method s = (Ok answer, s')
    /\ (status answer = 200 \/ status answer = 405 \/ status answer = 500)
    /\ trace s' = trace s ++ new
    /\ (PoolsObserve.pools_queries new <= 1)%nat.
Proof.
  destruct (handler_cases method s)
    as [[Hbad _] | [(now & w & c & _ & _ & _ & Hhit) | (now & w & _ & Hmiss)]].
  - eexists _, _, []. rewrite Hbad, app_nil_r. cbn. repeat split; auto.
  - eexists _, _, []. rewrite Hhit. cbn [trace status]. rewrite app_nil_r.
    cbn. repeat split; auto.
  - rewrite Hmiss. unfold handler_miss, PoolsApi.handler_miss.
    destruct (negb (env_set _) || negb (env_set _)).
    { eexists _, _, []. cbn [ret trace status]. unfold ret. rewrite app_nil_r.
      cbn. repeat split; auto. }
    unfold try_catch.
    destruct (PoolsApi.refresh Date_now new_Connection new_PublicKey getPoolsByConfig
                getAsset (PoolsApi.RPC_URL (st s)) (PoolsApi.POOL_CONFIG_KEY (st s))
                (mkSys (st s) w (trace s))) as [[answer' | e] s2] eqn:Hrefresh.
    + apply refresh_ok_inv in Hrefresh
        as (_ & _ & accounts & listed & ts & _ & _
            & _ & _ & _ & _ & -> & _ & Htrace & _ & _).
      cbn [trace] in Htrace.
      eexists _, s2, _. split; [reflexivity |]. split; [by left |].
      split; [exact Htrace |].
      unfold PoolsObserve.pools_queries. cbn [List.filter length].
      clear. induction accounts as [| a rest IH]; cbn; [lia | exact IH].
    + apply refresh_thrown_inv in Hrefresh as [_ [Htrace | Htrace]];
        cbn [trace] in Htrace; unfold ret.
      * eexists _, s2, []. rewrite app_nil_r.
        split; [reflexivity |]. cbn. repeat split; auto.
      * eexists _, s2, _. split; [reflexivity |]. cbn [status].
        split; [by right; right |]. split; [exact Htrace |]. cbn. lia.
Qed.

End ServerCacheMore.

Lemma refresh_lists_every_pool_witness :
  exists listed ts s',
    PoolsApi.handler Scenario.Date_now Scenario.new_key Scenario.new_key
      Scenario.getPoolsByConfig_up Scenario.getAsset_up "GET"
      (mkSys Scenario.server_with_cache 61000 [])
    = (Ok (mkReply 200 PoolsApi.cache_headers
             (Success (PoolsApi.mkPoolsBody listed 1 false None))), s')
    /\ PoolsApi.cachedData (st s') = Some (PoolsApi.mkCachedData listed ts)
    /\ trace s' = [PoolsApi.GetPoolsByConfig "Config"; PoolsApi.GetAsset "MintA"].
Proof.
  destruct (refresh_lists_every_pool Scenario.Date_now Scenario.new_key Scenario.new_key
              Scenario.getPoolsByConfig_up Scenario.getAsset_up
              (mkSys Scenario.server_with_cache 61000 [])
              61000 61001 61001 "https://rpc.example" "Config" [Scenario.account_a])
    as (listed & ts & s' & Hrun & _ & Hcache & _ & Htrace);
    try reflexivity.
  - intros c [= <-]. simpl. lia.
  - exists listed, ts, s'. split; [exact Hrun |]. split; [exact Hcache | exact Htrace].
Defined.

Lemma refreshed_entry_is_served_next_witness :
  exists pools s2,
    PoolsApi.handler Scenario.Date_now Scenario.new_key Scenario.new_key
      Scenario.getPoolsByConfig_up Scenario.getAsset_up "GET"
      (mkSys (PoolsApi.mkState "https://rpc.example" "Config"
                (Some (PoolsApi.mkCachedData pools 61001)))
         61002 [PoolsApi.GetPoolsByConfig "Config"; PoolsApi.GetAsset "MintA"])
    = (Ok (mkReply 200 PoolsApi.cache_headers
             (Success (PoolsApi.mkPoolsBody pools 1 true (Some 0)))), s2)
    /\ trace s2 = [PoolsApi.GetPoolsByConfig "Config"; PoolsApi.GetAsset "MintA"].
Proof.
  pose (pool := mkPool "PoolA" "Config" "MintA" "Creator" "1000" "2000"
                  (Some (mkMetadata "Token A" "" "" "https://img/a.png"))).
  pose (s1 := mkSys (PoolsApi.mkState "https://rpc.example" "Config"
                       (Some (PoolsApi.mkCachedData [pool] 61001)))
                61002 [PoolsApi.GetPoolsByConfig "Config"; PoolsApi.GetAsset "MintA"]).
  destruct (refreshed_entry_is_served_next Scenario.Date_now Scenario.new_key
              Scenario.new_key Scenario.getPoolsByConfig_up Scenario.getAsset_up
              (mkSys Scenario.server_with_cache 61000 []) s1
              (mkReply 200 PoolsApi.cache_headers
                 (Success (PoolsApi.mkPoolsBody [pool] 1 false None)))
              (PoolsApi.mkPoolsBody [pool] 1 false None)
              eq_refl eq_refl eq_refl)
    as (ts & Hentry & Hnext).
  injection Hentry as <-.
  exists [pool], (mkSys (st s1) 61003 (trace s1)).
  split; [| reflexivity].
  apply (Hnext 61002 61003); [reflexivity | lia].
Defined.

Lemma cache_keeps_pools_named_witness :
  Forall PoolsObserve.named
    (PoolsObserve.cached_pools
       (st (PoolsApi.handler Scenario.Date_now Scenario.new_key Scenario.new_key
              Scenario.getPoolsByConfig_up Scenario.getAsset_up "GET"
              (mkSys Scenario.server_with_cache 61000 [])).2)).
Proof.
  eapply (cache_keeps_pools_named Scenario.Date_now Scenario.new_key Scenario.new_key
            Scenario.getPoolsByConfig_up Scenario.getAsset_up "GET"
            (mkSys Scenario.server_with_cache 61000 [])).
  - repeat constructor. intros m. discriminate.
  - reflexivity.
Defined.

(** ** More on the pool cache of the browser *)
Section ClientCacheMore.

Context {World : Type}.
Context (Date_now : World -> Z * World).
Context (fetch_pools : World -> fetched PoolsCacheProvider.PoolsJson * World).
Context (JSON_parse : string -> option (list Pool * option Z)).
Context (JSON_stringify : list Pool -> Z -> string).
Context (setItem_accepts : gmap string string -> string -> string -> bool).

Let fetchPools :=
  PoolsCacheProvider.fetchPools Date_now fetch_pools JSON_stringify setItem_accepts.
Let loadFromLocalStorage :=
  PoolsCacheProvider.loadFromLocalStorage Date_now JSON_parse.

(** Whether [fetchPools] returns early. *)
Let skipped (forceRefresh : bool)
    (s : Sys PoolsCacheProvider.State World PoolsCacheProvider.event) : bool :=
  negb forceRefresh
  && PoolsCacheProvider.is_fresh (Date_now (world s)).1
       (PoolsCacheProvider.lastFetch (st s)).

(** X6.  [fetchPools] never throws, and it sends exactly one request unless
    it returns early, which it does only without [forceRefresh] and with a
    fresh time stamp; a forced refresh always asks the endpoint.  Whenever it
    has asked, [loading] is false again at the end. *)
Theorem fetchPools_asks_once_unless_fresh (forceRefresh : bool)
    (s : Sys PoolsCacheProvider.State World PoolsCacheProvider.event) :
  exists s' new,
    fetchPools forceRefresh s = (Ok tt, s')
    /\ trace s' = trace s ++ new
    /\ PoolsObserve.fetch_requests new = (if skipped forceRefresh s then 0 else 1)%nat
    /\ (skipped forceRefresh s = false -> PoolsCacheProvider.loading (st s') = false)
    /\ (forceRefresh = true -> PoolsObserve.fetch_requests new = 1%nat).
Proof.
  unfold fetchPools, PoolsCacheProvider.fetchPools, skipped. run.
  destruct (Date_now (world s)) as [now w1]. run. cbn [fst].
  destruct (negb forceRefresh
            && PoolsCacheProvider.is_fresh now (PoolsCacheProvider.lastFetch (st s)))
    eqn:Hskip; run.
  { eexists _, _. split; [reflexivity |]. cbn [trace].
    split; [reflexivity |]. split; [reflexivity |]. split; [done |].
    intros ->. discriminate. }
  destruct (fetch_pools w1) as [[msg | [|] [data |]] w2]; run.
  2: destruct (Date_now w2) as [fetchTime w3]; run;
     destruct (setItem_accepts _ _ _); run.
  all: eexists _, _; (split; [reflexivity |]); cbn [trace st PoolsCacheProvider.loading
         PoolsCacheProvider.setLoading];
       rewrite <- ?app_assoc; by repeat split.
Qed.

(** X7.  A fetch that fails (rejected promise, response that is not ok, body
    that cannot be read) keeps the pools, the time stamp and [localStorage]
    as they were; it sets [error] to a message and [loading] back to false.
    The pools shown before stay on the page. *)
Theorem failed_fetch_keeps_pools (forceRefresh : bool)
    (s : Sys PoolsCacheProvider.State World PoolsCacheProvider.event)
    (now : Z) (w1 w2 : World) (answer : fetched PoolsCacheProvider.PoolsJson) :
  Date_now (world s) = (now, w1) ->
  negb forceRefresh
  && PoolsCacheProvider.is_fresh now (PoolsCacheProvider.lastFetch (st s)) = false ->
  fetch_pools w1 = (answer, w2) ->
  PoolsObserve.failed answer = true ->
  exists msg s',
    fetchPools forceRefresh s = (Ok tt, s')
    /\ st s'
       = PoolsCacheProvider.mkState (PoolsCacheProvider.pools (st s)) false (Some msg)
           (PoolsCacheProvider.lastFetch (st s)) (PoolsCacheProvider.localStorage (st s))
    /\ world s' = w2.
Proof.
  intros Hclock Hask Hanswer Hfailed.
  unfold fetchPools, PoolsCacheProvider.fetchPools. run.
  rewrite Hclock. run. rewrite Hask. run. rewrite Hanswer. run.
  destruct answer as [msg | [|] [data |]]; try discriminate; run;
    eexists _, _; (split; [reflexivity |]); by split.
Qed.

(** X8.  When [localStorage] refuses the write, the fetch still succeeds:
    the pools and the time stamp of the answer are in the state, [error]
    stays unset, [loading] is false, and the stored entries are what they
    were. *)
Theorem full_storage_does_not_fail_the_fetch (forceRefresh : bool)
    (s : Sys PoolsCacheProvider.State World PoolsCacheProvider.event)
    (now fetchTime : Z) (w1 w2 w3 : World) (data : PoolsCacheProvider.PoolsJson) :
  Date_now (world s) = (now, w1) ->
  negb forceRefresh
  && PoolsCacheProvider.is_fresh now (PoolsCacheProvider.lastFetch (st s)) = false ->
  fetch_pools w1 = (Response true (Some data), w2) ->
  Date_now w2 = (fetchTime, w3) ->
  setItem_accepts (PoolsCacheProvider.localStorage (st s)) PoolsCacheProvider.CACHE_KEY
    (JSON_stringify (PoolsCacheProvider.data_pools data) fetchTime) = false ->
  exists s',
    fetchPools forceRefresh s = (Ok tt, s')
    /\ st s'
       = PoolsCacheProvider.mkState (PoolsCacheProvider.data_pools data) false None
           (Some fetchTime) (PoolsCacheProvider.localStorage (st s)).
Proof.
  intros Hclock Hask Hanswer Htime Hfull.
  unfold fetchPools, PoolsCacheProvider.fetchPools. run.
  rewrite Hclock. run. rewrite Hask. run. rewrite Hanswer. run.
  rewrite Htime. run.
  cbn [PoolsCacheProvider.localStorage PoolsCacheProvider.setLastFetch
         PoolsCacheProvider.setPools PoolsCacheProvider.setError
         PoolsCacheProvider.setLoading].
  rewrite Hfull. run.
  eexists. split; reflexivity.
Qed.

(** X9.  What a successful fetch stores, the next page load restores: with a
    [JSON.parse] that reads back the entry [JSON.stringify] wrote and a
    storage that accepts the write, a provider mounted on the same [localStorage]
    less than 60 000 ms after the fetch starts with the fetched pools and the
    time stamp of the fetch. *)
Theorem stored_entry_is_restored_on_mount (forceRefresh : bool)
    (s : Sys PoolsCacheProvider.State World PoolsCacheProvider.event)
    (now fetchTime : Z) (w1 w2 w3 : World) (data : PoolsCacheProvider.PoolsJson)
    (mounted : Sys PoolsCacheProvider.State World PoolsCacheProvider.event)
    (now' : Z) (w' : World) :
  JSON_parse (JSON_stringify (PoolsCacheProvider.data_pools data) fetchTime)
  = Some (PoolsCacheProvider.data_pools data, Some fetchTime) ->
  JSON_stringify (PoolsCacheProvider.data_pools data) fetchTime <> "" ->
  Date_now (world s) = (now, w1) ->
  negb forceRefresh
  && PoolsCacheProvider.is_fresh now (PoolsCacheProvider.lastFetch (st s)) = false ->
  fetch_pools w1 = (Response true (Some data), w2) ->
  Date_now w2 = (fetchTime, w3) ->
  setItem_accepts (PoolsCacheProvider.localStorage (st s)) PoolsCacheProvider.CACHE_KEY
    (JSON_stringify (PoolsCacheProvider.data_pools data) fetchTime) = true ->
  st mounted
  = PoolsCacheProvider.mkState [] false None None
      (PoolsCacheProvider.localStorage (st (fetchPools forceRefresh s).2)) ->
  Date_now (world mounted) = (now', w') ->
  now' - fetchTime < 60000 ->
  exists s',
    loadFromLocalStorage mounted = (Ok tt, s')
    /\ PoolsCacheProvider.pools (st s') = PoolsCacheProvider.data_pools data
    /\ PoolsCacheProvider.lastFetch (st s') = Some fetchTime.
Proof.
  intros Hcodec Hnonempty Hclock Hask Hanswer Htime Haccepts Hmounted Hclock' Hage.
  assert (Hstored :
            PoolsCacheProvider.localStorage (st (fetchPools forceRefresh s).2)
            = <[PoolsCacheProvider.CACHE_KEY :=
                  JSON_stringify (PoolsCacheProvider.data_pools data) fetchTime]>
                (PoolsCacheProvider.localStorage (st s))).
  { unfold fetchPools, PoolsCacheProvider.fetchPools. run.
    rewrite Hclock. run. rewrite Hask. run. rewrite Hanswer. run.
    rewrite Htime. run.
    cbn [PoolsCacheProvider.localStorage PoolsCacheProvider.setLastFetch
           PoolsCacheProvider.setPools PoolsCacheProvider.setError
           PoolsCacheProvider.setLoading].
    rewrite Haccepts. run. reflexivity. }
  rewrite Hstored in Hmounted.
  unfold loadFromLocalStorage, PoolsCacheProvider.loadFromLocalStorage. run.
  rewrite Hmounted. cbn [PoolsCacheProvider.localStorage].
  rewrite lookup_insert_eq.
  destruct (String.eqb_spec
              (JSON_stringify (PoolsCacheProvider.data_pools data) fetchTime) "")
    as [Hempty | _]; [by destruct (Hnonempty Hempty) |].
  rewrite Hcodec. run. rewrite Hclock'. run.
  rewrite bool_decide_eq_true_2 by (unfold PoolsCacheProvider.CACHE_DURATION_MS; lia).
  run. eexists. split; [reflexivity |]. by split.
Qed.

(** X10.  The effect run on mount never throws and never writes
    [localStorage]; it either leaves the state alone or, when the stored
    entry parses and is younger than 60 000 ms, sets the pools and the time
    stamp to those of the entry. *)
Theorem mount_restores_fresh_entries_only
    (s : Sys PoolsCacheProvider.State World PoolsCacheProvider.event) :
  exists s',
    loadFromLocalStorage s = (Ok tt, s')
    /\ PoolsCacheProvider.localStorage (st s') = PoolsCacheProvider.localStorage (st s)
    /\ (st s' = st s
        \/ exists cached cachedPools timestamp,
             PoolsCacheProvider.localStorage (st s) !! PoolsCacheProvider.CACHE_KEY
             = Some cached
             /\ JSON_parse cached = Some (cachedPools, Some timestamp)
             /\ (Date_now (world s)).1 - timestamp < 60000
             /\ st s' = PoolsCacheProvider.mkState cachedPools
                          (PoolsCacheProvider.loading (st s))
                          (PoolsCacheProvider.error (st s))
                          (Some timestamp)
                          (PoolsCacheProvider.localStorage (st s))).
Proof.
  unfold loadFromLocalStorage, PoolsCacheProvider.loadFromLocalStorage. run.
  destruct (PoolsCacheProvider.localStorage (st s) !! PoolsCacheProvider.CACHE_KEY)
    as [cached |] eqn:Hstored; run.
  2: { exists s. destruct s. auto. }
  destruct (cached =? "")%string; run.
  { exists s. destruct s. auto. }
  destruct (JSON_parse cached) as [[cachedPools [timestamp |]] |] eqn:Hparse; run.
  - destruct (Date_now (world s)) as [now w] eqn:Hclock. run. cbn [fst].
    destruct (bool_decide (now - timestamp < PoolsCacheProvider.CACHE_DURATION_MS))
      eqn:Hfresh; run.
    + apply bool_decide_eq_true in Hfresh.
      unfold PoolsCacheProvider.CACHE_DURATION_MS in Hfresh.
      eexists. split; [reflexivity |]. split; [reflexivity |].
      right. exists cached, cachedPools, timestamp.
      repeat split; first [done | lia].
    + eexists. split; [reflexivity |]. split; [reflexivity |]. by left.
  - destruct (Date_now (world s)) as [now w]. run.
    eexists. split; [reflexivity |]. split; [reflexivity |]. by left.
  - eexists. split; [reflexivity |]. split; [reflexivity |]. by left.
Qed.

End ClientCacheMore.

Lemma fetchPools_asks_once_unless_fresh_witness :
  exists s' new,
    PoolsCacheProvider.fetchPools Scenario.Date_now Scenario.fetch_pools
      Scenario.JSON_stringify Scenario.setItem_accepts true
      (mkSys Scenario.client_with_cache 2000 []) = (Ok tt, s')
    /\ trace s' = new
    /\ PoolsObserve.fetch_requests new = 1%nat
    /\ PoolsCacheProvider.loading (st s') = false.
Proof.
  destruct (fetchPools_asks_once_unless_fresh Scenario.Date_now Scenario.fetch_pools
              Scenario.JSON_stringify Scenario.setItem_accepts true
              (mkSys Scenario.client_with_cache 2000 []))
    as (s' & new & Hrun & Htrace & _ & Hloading & Hforced).
  exists s', new.
  split; [exact Hrun |]. split; [exact Htrace |].
  split; [exact (Hforced eq_refl) | exact (Hloading eq_refl)].
Defined.

Lemma failed_fetch_keeps_pools_witness :
  exists msg s',
    PoolsCacheProvider.fetchPools Scenario.Date_now Scenario2.fetch_pools_down
      Scenario.JSON_stringify Scenario.setItem_accepts true
      (mkSys Scenario.client_with_cache 2000 []) = (Ok tt, s')
    /\ st s' = PoolsCacheProvider.mkState [Scenario.pool_a] false (Some msg) (Some 1000) ∅.
Proof.
  destruct (failed_fetch_keeps_pools Scenario.Date_now Scenario2.fetch_pools_down
              Scenario.JSON_stringify Scenario.setItem_accepts true
              (mkSys Scenario.client_with_cache 2000 []) 2000 2001 2001
              (Response false
                 (Some (PoolsCacheProvider.mkPoolsJson [] (Some "Failed to fetch pools"))))
              eq_refl eq_refl eq_refl eq_refl)
    as (msg & s' & Hrun & Hst & _).
  exists msg, s'. split; [exact Hrun | exact Hst].
Defined.

Lemma full_storage_does_not_fail_the_fetch_witness :
  exists s',
    PoolsCacheProvider.fetchPools Scenario.Date_now Scenario.fetch_pools
      Scenario.JSON_stringify Scenario2.setItem_refuses false
      (mkSys Scenario.client_with_cache 61000 []) = (Ok tt, s')
    /\ st s' = PoolsCacheProvider.mkState [Scenario.pool_a] false None (Some 61001) ∅.
Proof.
  apply (full_storage_does_not_fail_the_fetch Scenario.Date_now Scenario.fetch_pools
           Scenario.JSON_stringify Scenario2.setItem_refuses false
           (mkSys Scenario.client_with_cache 61000 []) 61000 61001 61001 61001 61002
           (PoolsCacheProvider.mkPoolsJson [Scenario.pool_a] None)
           eq_refl eq_refl eq_refl eq_refl eq_refl).
Defined.

Lemma stored_entry_is_restored_on_mount_witness :
  exists s',
    PoolsCacheProvider.loadFromLocalStorage Scenario.Date_now Scenario2.parse_stamp
      (mkSys (PoolsCacheProvider.mkState [] false None None
                (<[PoolsCacheProvider.CACHE_KEY := "2001"]> ∅)) 30000 [])
    = (Ok tt, s')
    /\ PoolsCacheProvider.pools (st s') = [Scenario.pool_a]
    /\ PoolsCacheProvider.lastFetch (st s') = Some 2001.
Proof.
  apply (stored_entry_is_restored_on_mount Scenario.Date_now Scenario.fetch_pools
           Scenario2.parse_stamp Scenario.JSON_stringify Scenario.setItem_accepts true
           (mkSys Scenario.client_with_cache 2000 []) 2000 2001 2001 2001 2002
           (PoolsCacheProvider.mkPoolsJson [Scenario.pool_a] None)
           (mkSys (PoolsCacheProvider.mkState [] false None None
                     (<[PoolsCacheProvider.CACHE_KEY := "2001"]> ∅)) 30000 [])
           30000 30001);
    try reflexivity; discriminate.
Defined.

(** ** More on the admin dashboard *)
Section AdminMore.

Import Admin.

Context {World Transaction : Type}.
Context (post_claim_fees : ClaimFeesBody -> World -> fetched Transaction * World).
Context (wallet_sign : Transaction -> World -> result string * World).
Context (post_send_transaction : string -> World -> fetched string * World).
Context (get_admin_fees : World -> fetched (list FeeMetrics * string) * World).

Let claim_iteration := claim_iteration post_claim_fees wallet_sign post_send_transaction.
Let claim_loop := claim_loop post_claim_fees wallet_sign post_send_transaction.
Let fetchFees := @fetchFees World Transaction get_admin_fees.
Let claimAllFees :=
  claimAllFees post_claim_fees wallet_sign post_send_transaction get_admin_fees.
Let claimAll := claimAll post_claim_fees wallet_sign post_send_transaction.

(** One run of [fetchFees], whatever the endpoint answers. *)
Lemma fetchFees_run (s : Sys State World (event Transaction)) :
  exists s' shown,
    fetchFees s = (Ok tt, s')
    /\ trace s' = trace s ++ [GetAdminFees; shown]
    /\ loading (st s') = false
    /\ publicKey (st s') = publicKey (st s)
    /\ signTransaction (st s') = signTransaction (st s)
    /\ minLamports (st s') = minLamports (st s)
    /\ claimingAll (st s') = claimingAll (st s)
    /\ ((fees (st s') = fees (st s) /\ configAddress (st s') = configAddress (st s)
         /\ exists msg, shown = ToastFetchFailed msg)
        \/ (exists w, get_admin_fees (world s)
                      = (Response true (Some (fees (st s'), configAddress (st s'))), w)
                      /\ shown = ToastLoaded (length (fees (st s'))))).
Proof.
  unfold fetchFees, Admin.fetchFees. run.
  destruct (get_admin_fees (world s))
    as [[msg | [|] [[data_fees data_configAddress] |]] w1]; run.
  all: eexists _, _; (split; [reflexivity |]); cbn [trace st]; rewrite <- ?app_assoc;
    (split; [reflexivity |]); cbn; repeat split; eauto.
Qed.

(** X17.  [fetchFees] never throws and always ends with [loading] false.  It
    leaves the wallet, the threshold and the batch flag alone, and it either
    keeps the fees and the configuration address (the request failed) or
    replaces both by what the endpoint answered. *)
Theorem fetchFees_replaces_or_keeps (s : Sys State World (event Transaction)) :
  exists s' shown,
    fetchFees s = (Ok tt, s')
    /\ trace s' = trace s ++ [GetAdminFees; shown]
    /\ loading (st s') = false
    /\ publicKey (st s') = publicKey (st s)
    /\ signTransaction (st s') = signTransaction (st s)
    /\ minLamports (st s') = minLamports (st s)
    /\ claimingAll (st s') = claimingAll (st s)
    /\ ((fees (st s') = fees (st s) /\ configAddress (st s') = configAddress (st s)
         /\ exists msg, shown = ToastFetchFailed msg)
        \/ (exists w, get_admin_fees (world s)
                      = (Response true (Some (fees (st s'), configAddress (st s'))), w)
                      /\ shown = ToastLoaded (length (fees (st s'))))).
Proof. exact (fetchFees_run s). Qed.

(** X11.  The effects of a batch, in order: the toast that announces it;
    then, for every selected record in the order of the fee list, the effects
    of its attempt; then the summary toasts that apply; then the refresh of
    the fees.  Nothing else happens.  The attempts are those the
    collaborators decide, each in the world its predecessor left: a claim
    request is always posted; the wallet is prompted exactly when the claim
    endpoint answered ok with a transaction; the submission is posted exactly
    when the wallet signed; and the turn is closed by the toast of the
    claimed pool when the send endpoint answered ok, by the logged error of
    the failing step otherwise. *)
Theorem batch_effects_in_order (s : Sys State World (event Transaction))
    payer MIN_SOL_THRESHOLD (poolsWithFees : list FeeMetrics) :
  publicKey (st s) = Some payer ->
  signTransaction (st s) = true ->
  BN.of_number (minLamports (st s)) = Some MIN_SOL_THRESHOLD ->
  filter_pools MIN_SOL_THRESHOLD (fees (st s)) = Some poolsWithFees ->
  poolsWithFees <> [] ->
  exists successCount failCount attempts w' tail s',
    claimAllFees s = (Ok (BatchDone successCount failCount), s')
    /\ claimAll payer poolsWithFees (world s) = (attempts, w')
    /\ length attempts = length poolsWithFees
    /\ trace s'
       = trace s ++ ToastClaiming (length poolsWithFees)
           :: loop_events payer poolsWithFees attempts ++ tail
    /\ AdminObserve.batch_tail successCount failCount tail
    /\ successCount = Z.of_nat (successes attempts)
    /\ failCount = Z.of_nat (failures attempts).
Proof.
  intros Hkey Hsign Hmin Hkept Hsome.
  pose proof (claim_loop_attempts post_claim_fees wallet_sign post_send_transaction
                payer poolsWithFees 0 0
                (mkSys (setClaimingAll true (st s)) (world s)
                   (trace s ++ [ToastClaiming (length poolsWithFees)]))) as Hloop.
  pose proof (claimAll_length post_claim_fees wallet_sign post_send_transaction
                payer poolsWithFees (world s)) as Hlength.
  cbn [st world trace] in Hloop. rewrite !Z.add_0_l in Hloop.
  fold claimAll in Hloop, Hlength.
  destruct (claimAll payer poolsWithFees (world s)) as [attempts w1].
  cbn [fst snd] in Hloop, Hlength.
  set (sc := Z.of_nat (successes attempts)) in *.
  set (fc := Z.of_nat (failures attempts)) in *.
  pose (summary :=
          (if bool_decide (sc > 0) then [ToastSummarySuccess sc] else [])
          ++ (if bool_decide (fc > 0) then [ToastSummaryFailed fc] else [])
          : list (event Transaction)).
  destruct (fetchFees_run
              (mkSys (setClaimingAll false (setClaimingAll true (st s))) w1
                 ((trace s ++ [ToastClaiming (length poolsWithFees)])
                  ++ loop_events payer poolsWithFees attempts ++ summary)))
    as (s3 & shown & Hfetch & Htrace & _ & _ & _ & _ & _ & Hshown).
  cbn [trace] in Htrace.
  exists sc, fc, attempts, w1, (summary ++ [GetAdminFees; shown]), s3.
  split; [| split; [done | split; [done | split; [| split; [| done]]]]].
  - unfold claimAllFees, Admin.claimAllFees. run.
    rewrite Hkey, Hsign, Hmin. run.
    rewrite Hkept. run.
    rewrite bool_decide_eq_false_2 by (destruct poolsWithFees; [done | discriminate]).
    rewrite Hloop. run.
    unfold fetchFees, summary in Hfetch.
    destruct (bool_decide (sc > 0)), (bool_decide (fc > 0));
      run; cbn [app] in Hfetch; rewrite ?app_nil_r in Hfetch;
      rewrite <- ?app_assoc in *; cbn [app] in *; by rewrite Hfetch.
  - rewrite Htrace. rewrite <- !app_assoc. reflexivity.
  - exists shown. unfold summary. rewrite <- app_assoc. split; [reflexivity |].
    destruct Hshown as [(_ & _ & msg & ->) | (w & _ & ->)]; eauto.
Qed.

(** X12.  When a batch is over the page is idle again: [claimingAll] and
    [loading] are false, and the wallet and the threshold are what they
    were. *)
Theorem batch_leaves_page_idle (s : Sys State World (event Transaction))
    payer MIN_SOL_THRESHOLD (poolsWithFees : list FeeMetrics) :
  publicKey (st s) = Some payer ->
  signTransaction (st s) = true ->
  BN.of_number (minLamports (st s)) = Some MIN_SOL_THRESHOLD ->
  filter_pools MIN_SOL_THRESHOLD (fees (st s)) = Some poolsWithFees ->
  poolsWithFees <> [] ->
  exists successCount failCount s',
    claimAllFees s = (Ok (BatchDone successCount failCount), s')
    /\ claimingAll (st s') = false
    /\ loading (st s') = false
    /\ publicKey (st s') = publicKey (st s)
    /\ signTransaction (st s') = signTransaction (st s)
    /\ minLamports (st s') = minLamports (st s).
Proof.
  intros Hkey Hsign Hmin Hkept Hsome.
  pose proof (claim_loop_attempts post_claim_fees wallet_sign post_send_transaction
                payer poolsWithFees 0 0
                (mkSys (setClaimingAll true (st s)) (world s)
                   (trace s ++ [ToastClaiming (length poolsWithFees)]))) as Hloop.
  cbn [st world trace] in Hloop.
  match type of Hloop with
  | _ = (Ok (?a, ?b), _) => set (sc := a) in Hloop; set (fc := b) in Hloop
  end.
  unfold claimAllFees, Admin.claimAllFees. run.
  rewrite Hkey, Hsign, Hmin. run.
  rewrite Hkept. run.
  rewrite bool_decide_eq_false_2 by (destruct poolsWithFees; [done | discriminate]).
  rewrite Hloop. run.
  destruct (bool_decide (sc > 0)), (bool_decide (fc > 0)); run;
    match goal with
    | |- context [Admin.fetchFees get_admin_fees ?s2] =>
        destruct (fetchFees_run s2)
          as (s3 & shown & Hfetch & _ & Hloading & Hk & Hs & Hm & Hc & _)
    end;
    unfold fetchFees in Hfetch; rewrite Hfetch; cbn [st] in *;
    exists sc, fc, s3; rewrite Hloading, Hk, Hs, Hm, Hc; by repeat split.
Qed.



(** X14.  The table and the batch agree: with a threshold [new BN] accepts
    and a fee table whose rows all compute their flags, the records [claimAllFees] selects
    are exactly the rows shown as reaching the threshold, in the order of the
    table.  The claim button of a row is enabled when its partner quote fee
    or its partner base fee is not zero, so a row with no fee at all is
    selected by the batch if and only if the threshold is zero or negative. *)
Theorem table_highlights_what_the_batch_selects
    (threshold : Z) (MIN_SOL_THRESHOLD : BN.t) (fs : list FeeMetrics) :
  BN.of_number threshold = Some MIN_SOL_THRESHOLD ->
  Forall (fun f => is_Some (AdminTable.row_flags threshold f)) fs ->
  filter_pools MIN_SOL_THRESHOLD fs
  = Some (List.filter (AdminTable.highlighted threshold) fs)
  /\ (forall f flags,
        f ∈ fs ->
        AdminTable.row_flags threshold f = Some flags ->
        AdminTable.hasClaimableFees flags = false ->
        BN.of_string (partnerQuoteFee f) = Some 0
        /\ BN.of_string (partnerBaseFee f) = Some 0
        /\ (AdminTable.meetsThreshold flags = true <-> threshold <= 0)).
Proof.
  intros Hmin Hrows.
  assert (MIN_SOL_THRESHOLD = threshold) as ->.
  { revert Hmin. unfold BN.of_number. case_bool_decide; congruence. }
  split.
  - induction Hrows as [| f rest [flags Hflags] _ IH]; [reflexivity |].
    cbn [filter_pools List.filter].
    unfold AdminTable.highlighted at 1. rewrite Hflags, IH.
    revert Hflags. unfold AdminTable.row_flags, is_claimable. rewrite Hmin.
    destruct (BN.construct (partnerQuoteFee f)) as [q |]; [| discriminate].
    destruct (BN.construct (partnerBaseFee f)) as [b |]; [| discriminate].
    cbn [mbind option_bind]. intros [= <-]. cbn [AdminTable.meetsThreshold].
    by destruct (BN.gte q threshold).
  - intros f flags _. unfold AdminTable.row_flags. rewrite Hmin.
    destruct (BN.construct (partnerQuoteFee f)) as [q |] eqn:Hq; [| discriminate].
    destruct (BN.construct (partnerBaseFee f)) as [b |] eqn:Hb; [| discriminate].
    cbn [mbind option_bind]. intros [= <-].
    cbn [AdminTable.hasClaimableFees AdminTable.meetsThreshold].
    destruct q as [q | negative]; [| discriminate].
    destruct b as [b | negative]; [| by rewrite orb_true_r].
    unfold BN.isZero, BN.gte.
    destruct (Z.eqb_spec q 0) as [-> |]; [| discriminate].
    destruct (Z.eqb_spec b 0) as [-> |]; [| discriminate].
    intros _.
    split; [by apply construct_Num |]. split; [by apply construct_Num |].
    rewrite bool_decide_eq_true. lia.
Qed.

End AdminMore.

(** ** The claim of one pool *)
Section AdminClaimProperties.

Context {World Transaction : Type}.
Context (post_claim_fees :
  Admin.ClaimFeesBody -> World -> AdminClaim.answered Transaction * World).
Context (wallet_sign : Transaction -> World -> result string * World).
Context (post_send_transaction :
  string -> World -> AdminClaim.answered (option string) * World).
Context (get_admin_fees : World -> fetched (list Admin.FeeMetrics * string) * World).

Let claimFees :=
  AdminClaim.claimFees post_claim_fees wallet_sign post_send_transaction get_admin_fees.

Lemma on_page_fetchFees (s : Sys AdminClaim.State World (AdminClaim.event Transaction)) :
  exists p w shown,
    AdminClaim.on_page (Admin.fetchFees get_admin_fees) s
    = (Ok tt,
       mkSys (AdminClaim.mkState p (AdminClaim.claiming (st s))) w
         (trace s ++ [AdminClaim.Page Admin.GetAdminFees; AdminClaim.Page shown]))
    /\ shown <> Admin.GetAdminFees
    /\ (forall b, shown <> Admin.PostClaimFees b).
Proof.
  unfold AdminClaim.on_page.
  destruct (fetchFees_run (Transaction := Transaction) get_admin_fees
              (mkSys (AdminClaim.page (st s)) (world s) []))
    as (p & shown & Hrun & Htrace & _ & _ & _ & _ & _ & Hshown).
  rewrite Hrun. rewrite Htrace. cbn [trace app map].
  exists (st p), (world p), shown. split; [reflexivity |].
  destruct Hshown as [(_ & _ & msg & ->) | (w & _ & ->)]; by split.
Qed.

(** X15.  [claimFees] never throws.  With a wallet connected it ends with
    [claiming] unset, whatever happened.  It sends at most one claim request,
    always for the pool asked for and with the partner fees of the first
    record of the fee list that has this address; for a pool that is not in
    the fee list it sends none.  The fee list is refreshed exactly when the
    success toast has been shown. *)
Theorem claimFees_claims_the_listed_pool (poolAddress : string)
    (s : Sys AdminClaim.State World (AdminClaim.event Transaction)) :
  exists s' new,
    claimFees poolAddress s = (Ok tt, s')
    /\ trace s' = trace s ++ new
    /\ (forall payer,
          Admin.publicKey (AdminClaim.page (st s)) = Some payer ->
          Admin.signTransaction (AdminClaim.page (st s)) = true ->
          AdminClaim.claiming (st s') = None)
    /\ (length (AdminClaim.claim_requests new) <= 1)%nat
    /\ (forall b,
          b ∈ AdminClaim.claim_requests new ->
          exists payer f,
            Admin.publicKey (AdminClaim.page (st s)) = Some payer
            /\ List.find (fun f => String.eqb (Admin.poolAddress f) poolAddress)
                 (Admin.fees (AdminClaim.page (st s))) = Some f
            /\ b = Admin.mkClaimFeesBody poolAddress payer
                     (Admin.partnerBaseFee f) (Admin.partnerQuoteFee f))
    /\ AdminClaim.refreshes new = AdminClaim.claimed_toasts new.
Proof.
  unfold claimFees, AdminClaim.claimFees. run.
  destruct (Admin.publicKey (AdminClaim.page (st s))) as [payer |] eqn:Hkey.
  2: { run. eexists _, _. split; [reflexivity |]. cbn [trace].
       split; [reflexivity |]. split; [discriminate |]. split; [cbn; lia |].
       split; [| reflexivity]. intros b Hb. by apply elem_of_nil in Hb. }
  destruct (Admin.signTransaction (AdminClaim.page (st s))) eqn:Hsign.
  2: { run. eexists _, _. split; [reflexivity |]. cbn [trace].
       split; [reflexivity |]. split; [discriminate |]. split; [cbn; lia |].
       split; [| reflexivity]. intros b Hb. by apply elem_of_nil in Hb. }
  run.
  destruct (List.find _ (Admin.fees (AdminClaim.page (st s)))) as [f |] eqn:Hfind; run.
  2: { eexists _, _. split; [reflexivity |]. cbn [trace st AdminClaim.claiming
         AdminClaim.setClaiming].
       split; [reflexivity |]. split; [done |]. split; [cbn; lia |].
       split; [| reflexivity]. intros b Hb. by apply elem_of_nil in Hb. }
  assert (Hrequest : forall b : Admin.ClaimFeesBody,
             b ∈ [Admin.mkClaimFeesBody poolAddress payer
                    (Admin.partnerBaseFee f) (Admin.partnerQuoteFee f)] ->
             exists payer0 f0,
               Some payer = Some payer0 /\ Some f = Some f0
               /\ b = Admin.mkClaimFeesBody poolAddress payer0
                        (Admin.partnerBaseFee f0) (Admin.partnerQuoteFee f0)).
  { intros b Hb. apply list_elem_of_singleton in Hb as ->. by exists payer, f. }
  destruct (post_claim_fees _ (world s)) as [[msg | [[e |] |] | [transaction |]] w1]; run.
  5: destruct (wallet_sign transaction w1) as [[signedTx | msg] w2]; run.
  5: destruct (post_send_transaction signedTx w2)
       as [[msg | [[e |] |] | [[signature |] |]] w3]; run.
  all: try (match goal with
            | |- context [AdminClaim.on_page (Admin.fetchFees get_admin_fees) ?s1] =>
                destruct (on_page_fetchFees s1) as (p & w4 & shown & -> & Hshown & Hnot)
            end; run).
  all: eexists _, _; (split; [reflexivity |]);
    cbn [trace st AdminClaim.claiming AdminClaim.setClaiming];
    rewrite <- ?app_assoc; (split; [reflexivity |]); (split; [done |]).
  all: first
         [ solve [cbn; (split; [lia |]); (split; [exact Hrequest | reflexivity])]
         | unfold AdminClaim.claim_requests, AdminClaim.refreshes,
             AdminClaim.claimed_toasts;
           cbn [app];
           destruct shown;
           try (by destruct Hshown); try (by destruct (Hnot _ eq_refl)); cbn;
           (split; [lia |]); (split; [exact Hrequest | reflexivity]) ].
Qed.

End AdminClaimProperties.

Lemma batch_effects_in_order_witness :
  exists tail s',
    Admin.claimAllFees Scenario.post_claim_fees Scenario.wallet_sign
      Scenario.post_send_transaction Scenario.get_admin_fees
      (mkSys (Scenario.admin_page Scenario.three_pools 100000000) tt [])
    = (Ok (Admin.BatchDone 2 1), s')
    /\ trace s'
       = [Admin.ToastClaiming 3;
          Admin.PostClaimFees (Admin.mkClaimFeesBody "PoolA" "AdminWallet" "0" "200000000");
          Admin.SignTransaction "PoolA";
          Admin.PostSendTransaction "signed PoolA";
          Admin.ToastClaimed "PoolA";
          Admin.PostClaimFees (Admin.mkClaimFeesBody "PoolB" "AdminWallet" "0" "300000000");
          Admin.SignTransaction "PoolB";
          Admin.PostSendTransaction "signed PoolB";
          Admin.ConsoleError "PoolB" "Failed to send transaction";
          Admin.PostClaimFees (Admin.mkClaimFeesBody "PoolC" "AdminWallet" "0" "100000000");
          Admin.SignTransaction "PoolC";
          Admin.PostSendTransaction "signed PoolC";
          Admin.ToastClaimed "PoolC"] ++ tail
    /\ AdminObserve.batch_tail 2 1 tail.
Proof.
  destruct (batch_effects_in_order Scenario.post_claim_fees Scenario.wallet_sign
              Scenario.post_send_transaction Scenario.get_admin_fees
              (mkSys (Scenario.admin_page Scenario.three_pools 100000000) tt [])
              "AdminWallet" 100000000 Scenario.three_pools
              eq_refl eq_refl eq_refl eq_refl ltac:(discriminate))
    as (sc & fc & attempts & w' & tail & s' & Hrun & Hattempts & _ & Htrace & Htail
        & Hsc & Hfc).
  vm_compute in Hattempts. injection Hattempts as <- <-.
  vm_compute in Hsc, Hfc. subst sc fc.
  exists tail, s'. split; [exact Hrun |]. split; [| exact Htail].
  rewrite Htrace. reflexivity.
Defined.

Lemma batch_leaves_page_idle_witness :
  exists successCount failCount s',
    Admin.claimAllFees Scenario.post_claim_fees Scenario.wallet_sign
      Scenario.post_send_transaction Scenario.get_admin_fees
      (mkSys (Scenario.admin_page Scenario.three_pools 100000000) tt [])
    = (Ok (Admin.BatchDone successCount failCount), s')
    /\ Admin.claimingAll (st s') = false
    /\ Admin.loading (st s') = false.
Proof.
  destruct (batch_leaves_page_idle Scenario.post_claim_fees Scenario.wallet_sign
              Scenario.post_send_transaction Scenario.get_admin_fees
              (mkSys (Scenario.admin_page Scenario.three_pools 100000000) tt [])
              "AdminWallet" 100000000 Scenario.three_pools
              eq_refl eq_refl eq_refl eq_refl ltac:(discriminate))
    as (sc & fc & s' & Hrun & Hall & Hloading & _).
  exists sc, fc, s'. split; [exact Hrun |]. split; [exact Hall | exact Hloading].
Defined.


Lemma table_highlights_what_the_batch_selects_witness :
  Admin.filter_pools 0 [Scenario.fee "PoolA" "0"; Scenario.fee "PoolB" "7"]
  = Some (List.filter (AdminTable.highlighted 0)
            [Scenario.fee "PoolA" "0"; Scenario.fee "PoolB" "7"]).
Proof.
  apply (table_highlights_what_the_batch_selects 0 0
           [Scenario.fee "PoolA" "0"; Scenario.fee "PoolB" "7"] eq_refl).
  repeat constructor; by eexists.
Defined.

(** ** The endpoints of the wallet, of the creator and of the administrator *)
Lemma strict_eq_string_true (s : string) (v : option jsval) :
  strict_eq_string s v = true -> v = Some (JStr s).
Proof.
  destruct v as [[| b | n | p |] |]; simpl; try discriminate.
  intros H. apply String.eqb_eq in H. by rewrite H.
Qed.

Ltac quiet s :=
  eexists _, s, []; rewrite app_nil_r;
  split; [reflexivity |]; split; [reflexivity |]; split; [reflexivity |];
  split; [by intros [? | ?] | intros * Hin; by apply elem_of_nil in Hin].

Section ClaimFeesApiMore.

Context {World Connection PublicKey Transaction : Type}.
Context (new_Connection : string -> option Connection).
Context (new_PublicKey : jsval -> option PublicKey).
Context (claimPartnerTradingFee :
  Connection -> PublicKey -> PublicKey -> PublicKey -> BN.obj -> BN.obj ->
  World -> result Transaction * World).
Context (getLatestBlockhash : Connection -> World -> result string * World).
Context (serialize : Transaction -> string -> PublicKey -> option string).

(** X16.  The admin claim endpoint never throws and leaves the
    configuration as it is.  It asks the SDK or the node for something, or
    answers 200, only for a POST request whose [payerAddress] is the string
    [ADMIN_ADDRESS] itself.  Every claim transaction it asks for has the key
    of [ADMIN_ADDRESS] both as fee claimer and as payer, the key of the
    [poolAddress] of the request as pool, and the two amounts of the
    request. *)
Theorem claim_endpoint_builds_for_the_admin_only
    (method : string) (req_body : gmap string jsval)
    (s : Sys ClaimFeesApi.Env World (ClaimFeesApi.event PublicKey)) :
  exists answer s' new,
    ClaimFeesApi.handler new_Connection new_PublicKey claimPartnerTradingFee
      getLatestBlockhash serialize method req_body s = (Ok answer, s')
    /\ st s' = st s
    /\ trace s' = trace s ++ new
    /\ (new <> [] \/ status answer = 200 ->
          method = "POST"
          /\ req_body !! "payerAddress"
             = Some (JStr (ClaimFeesApi.ADMIN_ADDRESS (st s))))
    /\ (forall pool feeClaimer payer maxBase maxQuote,
          ClaimFeesApi.ClaimPartnerTradingFee pool feeClaimer payer maxBase maxQuote ∈ new ->
          feeClaimer = payer
          /\ new_PublicKey (JStr (ClaimFeesApi.ADMIN_ADDRESS (st s))) = Some payer
          /\ req_body !! "poolAddress" ≫= new_PublicKey = Some pool
          /\ req_body !! "maxBaseAmount" ≫= ClaimFeesApi.BN_of_jsval = Some maxBase
          /\ req_body !! "maxQuoteAmount" ≫= ClaimFeesApi.BN_of_jsval = Some maxQuote).
Proof.
  unfold ClaimFeesApi.handler. run.
  destruct (String.eqb method "POST") eqn:Hmethod; cbn [negb]; [| quiet s].
  apply String.eqb_eq in Hmethod. subst method.
  destruct (env_set (ClaimFeesApi.RPC_URL (st s))); cbn [negb]; [| quiet s].
  destruct (env_set (ClaimFeesApi.ADMIN_ADDRESS (st s))); cbn [negb]; [| quiet s].
  destruct (negb (truthy (req_body !! "poolAddress")) || negb (truthy (req_body !! "payerAddress"))
            || is_undefined (req_body !! "maxBaseAmount") || is_undefined (req_body !! "maxQuoteAmount"));
    [quiet s |].
  destruct (new_Connection _) as [connection |]; run; [| quiet s].
  destruct (req_body !! "poolAddress" ≫= new_PublicKey) as [pool |] eqn:Hpool; run; [| quiet s].
  destruct (new_PublicKey (JStr _)) as [feeClaimer |] eqn:Hclaimer; run; [| quiet s].
  destruct (req_body !! "payerAddress" ≫= new_PublicKey) as [payer |] eqn:Hpayer; run; [| quiet s].
  destruct (strict_eq_string _ _) eqn:Hadmin; cbn [negb]; [| quiet s].
  apply strict_eq_string_true in Hadmin.
  assert (feeClaimer = payer) as ->.
  { rewrite Hadmin in Hpayer. simpl in Hpayer. congruence. }
  destruct (req_body !! "maxBaseAmount" ≫= _) as [maxBase |] eqn:Hbase; run; [| quiet s].
  destruct (req_body !! "maxQuoteAmount" ≫= _) as [maxQuote |] eqn:Hquote; run; [| quiet s].
  destruct (claimPartnerTradingFee _ _ _ _ _ _ _) as [built w1]. run.
  pose proof (conj eq_refl Hadmin : "POST" = "POST" /\ _) as Hwho.
  destruct built as [transaction | msg]; run.
  2: { eexists _, _, [_]. split; [reflexivity |]. cbn [st trace].
       repeat (split; [done |]). intros * Hin.
       apply list_elem_of_singleton in Hin. by injection Hin as <- <- <- <- <-. }
  destruct (getLatestBlockhash connection w1) as [latest w2]. run.
  assert (Hbuilt : forall pool' feeClaimer payer' maxBase' maxQuote',
            ClaimFeesApi.ClaimPartnerTradingFee pool' feeClaimer payer' maxBase' maxQuote'
            ∈ [ClaimFeesApi.ClaimPartnerTradingFee pool payer payer maxBase maxQuote;
               ClaimFeesApi.GetLatestBlockhash] ->
            feeClaimer = payer' /\ payer = payer' /\ pool = pool'
            /\ maxBase = maxBase' /\ maxQuote = maxQuote').
  { intros * Hin. apply elem_of_cons in Hin as [Hin | Hin].
    - by injection Hin as -> -> -> -> ->.
    - apply list_elem_of_singleton in Hin. discriminate Hin. }
  destruct latest as [blockhash | msg]; run.
  2: { eexists _, _, [_; _]. split; [reflexivity |]. cbn [st trace].
       rewrite <- app_assoc. repeat (split; [done |]); intros * Hin;
    destruct (Hbuilt _ _ _ _ _ Hin) as (-> & -> & -> & -> & ->); done. }
  destruct (serialize transaction blockhash payer) as [serializedTransaction |]; run.
  all: eexists _, _, [_; _]; (split; [reflexivity |]); cbn [st trace];
    rewrite <- app_assoc; repeat (split; [done |]); intros * Hin;
    destruct (Hbuilt _ _ _ _ _ Hin) as (-> & -> & -> & -> & ->); done.
Qed.
End ClaimFeesApiMore.

Section GetTokensProperties.

Context {World Connection PublicKey : Type}.
Context (new_Connection : string -> option Connection).
Context (new_PublicKey : jsval -> option PublicKey).
Context (getParsedTokenAccountsByOwner :
  Connection -> PublicKey -> World -> result (list GetTokens.TokenInfo) * World).
Context (getAsset : string -> string -> World -> PoolsApi.asset_reply * World).

Lemma tokens_with_metadata_lists (rpc : string) (infos : list GetTokens.TokenInfo)
    (s : Sys string World (GetTokens.event PublicKey)) :
  exists tokens w,
    GetTokens.map_with_metadata getAsset rpc infos s
    = (Ok tokens, mkSys (st s) w (trace s ++ TokensObserve.lookups infos))
    /\ Forall2 TokensObserve.reports infos tokens.
Proof.
  revert s. induction infos as [| info rest IH]; intros s.
  - exists [], (world s). cbn. rewrite app_nil_r. by destruct s.
  - cbn [GetTokens.map_with_metadata]. unfold GetTokens.with_metadata. run.
    destruct (getAsset rpc (GetTokens.info_mint info) (world s)) as [data w1]. run.
    assert (Hrest : exists tokens w,
                  GetTokens.map_with_metadata getAsset rpc rest
                    (mkSys (st s) w1 (trace s ++ [GetTokens.GetAsset (GetTokens.info_mint info)]))
                  = (Ok tokens,
                     mkSys (st s) w
                       (trace s ++ TokensObserve.lookups (info :: rest)))
                  /\ Forall2 TokensObserve.reports rest tokens).
    { destruct (IH (mkSys (st s) w1
                      (trace s ++ [GetTokens.GetAsset (GetTokens.info_mint info)])))
        as (tokens & w & Hrun & Hall).
      exists tokens, w. split; [| exact Hall].
      rewrite Hrun. cbn [st trace]. by rewrite <- app_assoc. }
    destruct Hrest as (tokens & w & Hrun & Hall).
    destruct data as [msg | [asset |] [|]]; run; rewrite Hrun;
      eexists (_ :: tokens), w; (split; [reflexivity |]);
      by constructor.
Qed.

(** X19.  When the node answers the token accounts of the wallet, the handler
    answers 200 with one element for every account whose [uiAmount] is
    positive, in the order of the node, each with the mint, the amount, the
    decimals and the [uiAmount] of its account; an account with no balance
    or with a [null] amount is not listed.  The metadata service has been
    asked once for each listed mint and for no other, and whatever it
    answered, no listed token is lost. *)
Theorem tokens_lists_the_holdings_with_a_balance
    (req_body : gmap string jsval) (s : Sys string World (GetTokens.event PublicKey))
    (connection : Connection) (publicKey : PublicKey)
    (accounts : list GetTokens.TokenInfo) (w : World) :
  truthy (req_body !! "address") = true ->
  env_set (st s) = true ->
  new_Connection (st s) = Some connection ->
  req_body !! "address" ≫= new_PublicKey = Some publicKey ->
  getParsedTokenAccountsByOwner connection publicKey (world s) = (Ok accounts, w) ->
  exists tokens s',
    GetTokens.handler new_Connection new_PublicKey getParsedTokenAccountsByOwner
      getAsset "POST" (Some req_body) s
    = (Ok (mkReply 200 [] (Success tokens)), s')
    /\ Forall2 TokensObserve.reports (List.filter GetTokens.has_balance accounts) tokens
    /\ st s' = st s
    /\ trace s'
       = trace s ++ GetTokens.GetParsedTokenAccountsByOwner publicKey
           :: TokensObserve.lookups (List.filter GetTokens.has_balance accounts).
Proof.
  intros Haddress Hrpc Hconn Hkey Hnode.
  unfold GetTokens.handler, destructure.
  cbv beta iota zeta delta [String.eqb Ascii.eqb Bool.eqb negb].
  run. rewrite Haddress. run. rewrite Hrpc. cbn [negb]. rewrite Hconn, Hkey. run.
  rewrite Hnode. run.
  destruct (tokens_with_metadata_lists (st s)
              (List.filter GetTokens.has_balance accounts)
              (mkSys (st s) w
                 (trace s ++ [GetTokens.GetParsedTokenAccountsByOwner publicKey])))
    as (tokens & w' & Hrun & Hall).
  rewrite Hrun. cbn [st trace].
  eexists tokens, _. split; [reflexivity |]. cbn [st trace].
  split; [exact Hall |]. split; [reflexivity |]. by rewrite <- app_assoc.
Qed.

End GetTokensProperties.

Lemma tokens_lists_the_holdings_with_a_balance_witness :
  exists tokens s',
    GetTokens.handler Scenario.new_Connection Scenario.new_PublicKey
      Scenario2.getParsedTokenAccountsByOwner Scenario2.getAsset
      "POST" (Some (<["address" := JStr "Wallet"]> ∅)) (mkSys "https://rpc.example" tt [])
    = (Ok (mkReply 200 [] (Success tokens)), s')
    /\ map GetTokens.mint tokens = ["MintA"; "MintD"]
    /\ trace s'
       = [GetTokens.GetParsedTokenAccountsByOwner "Wallet";
          GetTokens.GetAsset "MintA"; GetTokens.GetAsset "MintD"].
Proof.
  destruct (tokens_lists_the_holdings_with_a_balance Scenario.new_Connection
              Scenario.new_PublicKey Scenario2.getParsedTokenAccountsByOwner
              Scenario2.getAsset (<["address" := JStr "Wallet"]> ∅)
              (mkSys "https://rpc.example" tt []) "https://rpc.example" "Wallet"
              Scenario2.holdings tt)
    as (tokens & s' & Hrun & Hall & _ & Htrace); try reflexivity.
  exists tokens, s'. split; [exact Hrun |]. split; [| exact Htrace].
  vm_compute List.filter in Hall.
  inversion Hall as [| ? t1 ? l1 (H1 & _) Hall1]; subst.
  inversion Hall1 as [| ? t2 ? l2 (H2 & _) Hall2]; subst.
  inversion Hall2; subst. cbn [map]. by rewrite H1, H2.
Defined.

Section CreatorFeesProperties.

Context {World Connection PublicKey : Type}.
Context (new_Connection : string -> option Connection).
Context (new_PublicKey : jsval -> option PublicKey).
Context (getPoolByBaseMint :
  Connection -> PublicKey -> World -> result (option PublicKey) * World).
Context (getPoolFeeMetrics :
  Connection -> PublicKey -> World -> result CreatorFeesApi.Metrics * World).

(** X20.  A request for the creator fees of a token that has no pool is
    answered with status 500, not 404: the body is
    [{error: "Failed to fetch creator fees", details: "Pool not found for
    this token"}].  The node has been asked for the pool of the mint and for
    nothing else: no fee metrics are requested. *)
Theorem creator_fees_of_a_token_without_pool
    (req_body : gmap string jsval)
    (s : Sys string World (CreatorFeesApi.event PublicKey))
    (connection : Connection) (mint : PublicKey) (w : World) :
  env_set (st s) = true ->
  truthy (req_body !! "poolAddress") = true ->
  new_Connection (st s) = Some connection ->
  req_body !! "poolAddress" ≫= new_PublicKey = Some mint ->
  getPoolByBaseMint connection mint (world s) = (Ok None, w) ->
  CreatorFeesApi.handler new_Connection new_PublicKey getPoolByBaseMint
    getPoolFeeMetrics "POST" req_body s
  = (Ok (mkReply 500 []
           (Failure "Failed to fetch creator fees"
              (Some "Pool not found for this token"))),
     mkSys (st s) w (trace s ++ [CreatorFeesApi.GetPoolByBaseMint mint])).
Proof.
  intros Hrpc Hfield Hconn Hkey Hnode.
  unfold CreatorFeesApi.handler.
  cbv beta iota zeta delta [String.eqb Ascii.eqb Bool.eqb negb].
  run. rewrite Hrpc, Hfield. cbn [negb]. rewrite Hconn, Hkey. run.
  rewrite Hnode. run. reflexivity.
Qed.

(** X21.  The creator fee endpoint never throws and leaves the
    configuration as it is.  When it answers with fees, the status is 200,
    the node has been asked for the pool of the mint of the request and then
    for the fee metrics of that pool, and the four strings are the decimal
    writings of the amounts of the node.  From such an answer the value
    [hasClaimableFees] of the creator tab (line 146) is computed without an
    exception, and it is true exactly when the creator fee of the pool, in
    the quote or in the base asset, is not zero.  What the tab renders with
    the answer is not part of the statement. *)
Theorem creator_claimable_flag_follows_the_fees
    (method : string) (req_body : gmap string jsval)
    (s : Sys string World (CreatorFeesApi.event PublicKey)) :
  exists answer s',
    CreatorFeesApi.handler new_Connection new_PublicKey getPoolByBaseMint
      getPoolFeeMetrics method req_body s = (Ok answer, s')
    /\ st s' = st s
    /\ (forall fees,
          body answer = Success fees ->
          status answer = 200
          /\ exists connection mint pool metrics w1 w2,
               new_Connection (st s) = Some connection
               /\ req_body !! "poolAddress" ≫= new_PublicKey = Some mint
               /\ getPoolByBaseMint connection mint (world s) = (Ok (Some pool), w1)
               /\ getPoolFeeMetrics connection pool w1 = (Ok metrics, w2)
               /\ trace s' = trace s ++ [CreatorFeesApi.GetPoolByBaseMint mint;
                                          CreatorFeesApi.GetPoolFeeMetrics pool]
               /\ fees = CreatorFeesApi.fees_json metrics
               /\ CreatorFeesTab.hasClaimableFees fees
                  = Some (negb (Z.eqb (CreatorFeesApi.current_creatorQuoteFee metrics) 0)
                          || negb (Z.eqb (CreatorFeesApi.current_creatorBaseFee metrics) 0))).
Proof.
  unfold CreatorFeesApi.handler. run.
  destruct (String.eqb method "POST"); cbn [negb];
    [| by eexists _, s; repeat split].
  destruct (env_set (st s)); cbn [negb]; [| by eexists _, s; repeat split].
  destruct (truthy (req_body !! "poolAddress")); cbn [negb];
    [| by eexists _, s; repeat split].
  destruct (new_Connection (st s)) as [connection |]; run;
    [| by eexists _, s; repeat split].
  destruct (req_body !! "poolAddress" ≫= new_PublicKey) as [mint |]; run;
    [| by eexists _, s; repeat split].
  destruct (getPoolByBaseMint connection mint (world s)) as [found w1] eqn:Hfound. run.
  destruct found as [[pool |] | msg]; run;
    [| by eexists _, _; repeat split ..].
  destruct (getPoolFeeMetrics connection pool w1) as [fetched_metrics w2] eqn:Hmetrics. run.
  destruct fetched_metrics as [metrics | msg]; run;
    [| by eexists _, _; repeat split].
  eexists _, _. split; [reflexivity |]. split; [reflexivity |].
  intros fees [= <-]. split; [reflexivity |].
  exists connection, mint, pool, metrics, w1, w2. cbn [trace].
  rewrite <- app_assoc. repeat (split; [done |]).
  unfold CreatorFeesTab.hasClaimableFees, CreatorFeesApi.fees_json.
  cbn [CreatorFeesApi.creatorQuoteFee CreatorFeesApi.creatorBaseFee].
  rewrite !construct_to_string. cbn [mbind option_bind BN.isZero].
  by destruct (Z.eqb (CreatorFeesApi.current_creatorQuoteFee metrics) 0).
Qed.

End CreatorFeesProperties.

Lemma creator_fees_of_a_token_without_pool_witness :
  CreatorFeesApi.handler Scenario.new_Connection Scenario.new_PublicKey
    Scenario2.getPoolByBaseMint Scenario2.getPoolFeeMetrics
    "POST" (<["poolAddress" := JStr "OtherMint"]> ∅) (mkSys "https://rpc.example" tt [])
  = (Ok (mkReply 500 []
           (Failure "Failed to fetch creator fees"
              (Some "Pool not found for this token"))),
     mkSys "https://rpc.example" tt [CreatorFeesApi.GetPoolByBaseMint "OtherMint"]).
Proof.
  apply (creator_fees_of_a_token_without_pool Scenario.new_Connection
           Scenario.new_PublicKey Scenario2.getPoolByBaseMint
           Scenario2.getPoolFeeMetrics (<["poolAddress" := JStr "OtherMint"]> ∅)
           (mkSys "https://rpc.example" tt []) "https://rpc.example" "OtherMint" tt);
    reflexivity.
Defined.

Lemma creator_claimable_flag_follows_the_fees_witness :
  exists s',
    CreatorFeesApi.handler Scenario.new_Connection Scenario.new_PublicKey
      Scenario2.getPoolByBaseMint Scenario2.getPoolFeeMetrics
      "POST" (<["poolAddress" := JStr "TokenMint"]> ∅) (mkSys "https://rpc.example" tt [])
    = (Ok (mkReply 200 []
             (Success (CreatorFeesApi.mkCreatorFees "0" "2500000" "10" "20"))),
       s')
    /\ CreatorFeesTab.hasClaimableFees
         (CreatorFeesApi.mkCreatorFees "0" "2500000" "10" "20") = Some true.
Proof.
  destruct (creator_claimable_flag_follows_the_fees Scenario.new_Connection
              Scenario.new_PublicKey Scenario2.getPoolByBaseMint
              Scenario2.getPoolFeeMetrics "POST"
              (<["poolAddress" := JStr "TokenMint"]> ∅)
              (mkSys "https://rpc.example" tt []))
    as (answer & s' & Hrun & _ & Hfees).
  exists s'. vm_compute in Hrun. injection Hrun as <- <-.
  split; [reflexivity |].
  destruct (Hfees _ eq_refl)
    as (_ & connection & mint & pool & metrics & w1 & w2 & Hconn & Hkey & Hpool
        & Hmetrics & _ & _ & Hbutton).
  injection Hconn as <-. injection Hkey as <-.
  vm_compute in Hpool. injection Hpool as <- <-.
  vm_compute in Hmetrics. injection Hmetrics as <- <-.
  exact Hbutton.
Defined.

Section CreatorClaimProperties.

Context {World Connection PublicKey Transaction : Type}.
Context (new_Connection : string -> option Connection).
Context (new_PublicKey : jsval -> option PublicKey).
Context (getPoolByBaseMint :
  Connection -> PublicKey -> World -> result (option PublicKey) * World).
Context (claimCreatorTradingFee :
  Connection -> PublicKey -> PublicKey -> PublicKey -> BN.obj -> BN.obj ->
  World -> result Transaction * World).
Context (getLatestBlockhash : Connection -> World -> result (string * Z) * World).
Context (serialize : Transaction -> string -> PublicKey -> option string).

(** X22.  The creator claim endpoint never throws and leaves the
    configuration as it is.  Whenever it asks the SDK for a claim
    transaction, the node has answered a pool for the mint of the request
    and the transaction is asked for that pool, with the key of
    [creatorAddress] both as creator and as payer, and with the two amounts
    of the request; for a token without pool no transaction is asked for.
    An answer with a transaction has status 200 and carries the block hash
    and the last valid block height of the node. *)
Theorem creator_claim_is_built_for_the_pool_of_the_mint
    (method : string) (req_body : gmap string jsval)
    (s : Sys string World (CreatorClaimApi.event PublicKey)) :
  exists answer s' new,
    CreatorClaimApi.handler new_Connection new_PublicKey getPoolByBaseMint
      claimCreatorTradingFee getLatestBlockhash serialize method req_body s
    = (Ok answer, s')
    /\ st s' = st s
    /\ trace s' = trace s ++ new
    /\ (forall pool creator payer maxBase maxQuote,
          CreatorClaimApi.ClaimCreatorTradingFee pool creator payer maxBase maxQuote ∈ new ->
          payer = creator
          /\ req_body !! "creatorAddress" ≫= new_PublicKey = Some creator
          /\ req_body !! "maxBaseAmount" ≫= ClaimFeesApi.BN_of_jsval = Some maxBase
          /\ req_body !! "maxQuoteAmount" ≫= ClaimFeesApi.BN_of_jsval = Some maxQuote
          /\ exists connection mint w,
               new_Connection (st s) = Some connection
               /\ req_body !! "poolAddress" ≫= new_PublicKey = Some mint
               /\ getPoolByBaseMint connection mint (world s) = (Ok (Some pool), w))
    /\ (forall claim,
          body answer = Success claim ->
          status answer = 200
          /\ exists connection w1 w2 mint pool creator maxBase maxQuote,
               new = [CreatorClaimApi.GetPoolByBaseMint mint;
                      CreatorClaimApi.ClaimCreatorTradingFee pool creator creator
                        maxBase maxQuote;
                      CreatorClaimApi.GetLatestBlockhash]
               /\ new_Connection (st s) = Some connection
               /\ getLatestBlockhash connection w1
                  = (Ok (CreatorClaimApi.blockhash claim,
                         CreatorClaimApi.lastValidBlockHeight claim), w2)).
Proof.
  unfold CreatorClaimApi.handler. run.
  assert (Hnone : forall e : CreatorClaimApi.event PublicKey, e ∈ [] -> False).
  { intros e Hin. by apply elem_of_nil in Hin. }
  destruct (String.eqb method "POST"); cbn [negb].
  2: { eexists _, s, []. rewrite app_nil_r. repeat (split; [done |]). split.
       - intros * Hin. destruct (Hnone _ Hin).
       - intros claim [=]. }
  destruct (env_set (st s)); cbn [negb].
  2: { eexists _, s, []. rewrite app_nil_r. repeat (split; [done |]). split.
       - intros * Hin. destruct (Hnone _ Hin).
       - intros claim [=]. }
  destruct (negb (truthy (req_body !! "poolAddress"))
            || negb (truthy (req_body !! "creatorAddress"))
            || is_undefined (req_body !! "maxBaseAmount")
            || is_undefined (req_body !! "maxQuoteAmount")).
  { eexists _, s, []. rewrite app_nil_r. repeat (split; [done |]). split.
    - intros * Hin. destruct (Hnone _ Hin).
    - intros claim [=]. }
  destruct (new_Connection (st s)) as [connection |] eqn:Hconn; run.
  2: { eexists _, s, []. rewrite app_nil_r. repeat (split; [done |]). split.
       - intros * Hin. destruct (Hnone _ Hin).
       - intros claim [=]. }
  destruct (req_body !! "poolAddress" ≫= new_PublicKey) as [mint |] eqn:Hmint; run.
  2: { eexists _, s, []. rewrite app_nil_r. repeat (split; [done |]). split.
       - intros * Hin. destruct (Hnone _ Hin).
       - intros claim [=]. }
  destruct (req_body !! "creatorAddress" ≫= new_PublicKey) as [creator |] eqn:Hcreator; run.
  2: { eexists _, s, []. rewrite app_nil_r. repeat (split; [done |]). split.
       - intros * Hin. destruct (Hnone _ Hin).
       - intros claim [=]. }
  destruct (getPoolByBaseMint connection mint (world s)) as [found w0] eqn:Hfound. run.
  assert (Hquiet : forall pool creator' payer maxBase maxQuote,
            CreatorClaimApi.ClaimCreatorTradingFee pool creator' payer maxBase maxQuote
            ∈ [CreatorClaimApi.GetPoolByBaseMint mint] -> False).
  { intros * Hin. apply list_elem_of_singleton in Hin. discriminate Hin. }
  destruct found as [[pool |] | msg]; run.
  2, 3: eexists _, _, [_]; (split; [reflexivity |]); cbn [st trace];
    repeat (split; [done |]); (split; [| by intros claim [=]]);
    intros * Hin; destruct (Hquiet _ _ _ _ _ Hin).
  destruct (req_body !! "maxBaseAmount" ≫= _) as [maxBase |] eqn:Hbase; run.
  2: { eexists _, _, [_]. split; [reflexivity |]. cbn [st trace].
       repeat (split; [done |]). split; [| by intros claim [=]].
       intros * Hin. destruct (Hquiet _ _ _ _ _ Hin). }
  destruct (req_body !! "maxQuoteAmount" ≫= _) as [maxQuote |] eqn:Hquote; run.
  2: { eexists _, _, [_]. split; [reflexivity |]. cbn [st trace].
       repeat (split; [done |]). split; [| by intros claim [=]].
       intros * Hin. destruct (Hquiet _ _ _ _ _ Hin). }
  destruct (claimCreatorTradingFee _ _ _ _ _ _ _) as [built w1]. run.
  assert (Hbuilt : forall rest pool' creator' payer maxBase' maxQuote',
            CreatorClaimApi.ClaimCreatorTradingFee pool' creator' payer maxBase' maxQuote'
            ∈ CreatorClaimApi.GetPoolByBaseMint mint
              :: CreatorClaimApi.ClaimCreatorTradingFee pool creator creator maxBase maxQuote
              :: rest ->
            (forall e, e ∈ rest -> e = CreatorClaimApi.GetLatestBlockhash) ->
            payer = creator'
            /\ Some creator = Some creator'
            /\ Some maxBase = Some maxBase'
            /\ Some maxQuote = Some maxQuote'
            /\ exists connection' mint' w,
                 Some connection = Some connection'
                 /\ Some mint = Some mint'
                 /\ getPoolByBaseMint connection' mint' (world s) = (Ok (Some pool'), w)).
  { intros * Hin Hrest. apply elem_of_cons in Hin as [Hin | Hin]; [discriminate Hin |].
    apply elem_of_cons in Hin as [Hin | Hin].
    - injection Hin as -> -> -> -> ->. repeat (split; [done |]).
      by exists connection, mint, w0.
    - apply Hrest in Hin. discriminate Hin. }
  destruct built as [transaction | msg]; run.
  2: { eexists _, _, [_; _]. split; [reflexivity |]. cbn [st trace].
       rewrite <- app_assoc. repeat (split; [done |]). split; [| by intros claim [=]].
       intros * Hin. apply (Hbuilt [] _ _ _ _ _ Hin). intros e He. destruct (Hnone _ He). }
  destruct (getLatestBlockhash connection w1) as [latest w2] eqn:Hlatest. run.
  assert (Hlast : forall e : CreatorClaimApi.event PublicKey,
            e ∈ [CreatorClaimApi.GetLatestBlockhash] -> e = CreatorClaimApi.GetLatestBlockhash).
  { intros e He. by apply list_elem_of_singleton in He. }
  destruct latest as [[blockhash lastValidBlockHeight] | msg]; run.
  2: { eexists _, _, [_; _; _]. split; [reflexivity |]. cbn [st trace].
       rewrite <- !app_assoc. repeat (split; [done |]). split; [| by intros claim [=]].
       intros * Hin. apply (Hbuilt _ _ _ _ _ _ Hin Hlast). }
  destruct (serialize transaction blockhash creator) as [serializedTransaction |]; run.
  2: { eexists _, _, [_; _; _]. split; [reflexivity |]. cbn [st trace].
       rewrite <- !app_assoc. repeat (split; [done |]). split; [| by intros claim [=]].
       intros * Hin. apply (Hbuilt _ _ _ _ _ _ Hin Hlast). }
  eexists _, _, [_; _; _]. split; [reflexivity |]. cbn [st trace].
  rewrite <- !app_assoc. repeat (split; [done |]). split.
  - intros * Hin. apply (Hbuilt _ _ _ _ _ _ Hin Hlast).
  - intros claim [= <-]. split; [reflexivity |].
    by exists connection, w1, w2, mint, pool, creator, maxBase, maxQuote.
Qed.

End CreatorClaimProperties.

Lemma creator_claim_is_built_for_the_pool_of_the_mint_witness :
  exists s',
    CreatorClaimApi.handler Scenario.new_Connection Scenario.new_PublicKey
      Scenario2.getPoolByBaseMint Scenario2.claimCreatorTradingFee
      Scenario2.getLatestBlockhash Scenario.serialize
      "POST" Scenario2.creator_claim (mkSys "https://rpc.example" tt [])
    = (Ok (mkReply 200 []
             (Success (CreatorClaimApi.mkClaimBody "claim PoolOfToken for Creator"
                         "blockhash" 250))), s')
    /\ trace s'
       = [CreatorClaimApi.GetPoolByBaseMint "TokenMint";
          CreatorClaimApi.ClaimCreatorTradingFee "PoolOfToken" "Creator" "Creator"
            (BN.Num 0) (BN.Num 2500000);
          CreatorClaimApi.GetLatestBlockhash].
Proof.
  destruct (creator_claim_is_built_for_the_pool_of_the_mint Scenario.new_Connection
              Scenario.new_PublicKey Scenario2.getPoolByBaseMint
              Scenario2.claimCreatorTradingFee Scenario2.getLatestBlockhash
              Scenario.serialize "POST" Scenario2.creator_claim
              (mkSys "https://rpc.example" tt []))
    as (answer & s' & new & Hrun & _ & Htrace & Hclaim & Hanswer).
  exists s'. vm_compute in Hrun. injection Hrun as <- <-.
  split; [reflexivity |].
  destruct (Hanswer _ eq_refl)
    as (_ & connection & w1 & w2 & mint & pool & creator & maxBase & maxQuote
        & Hnew & _ & _).
  cbn [trace app] in Htrace. rewrite Hnew in Htrace, Hclaim.
  destruct (Hclaim pool creator creator maxBase maxQuote)
    as (_ & Hcreator & Hbase & Hquote & c & m & w & Hc & Hm & Hpool).
  { apply elem_of_cons. right. apply elem_of_cons. by left. }
  vm_compute in Hcreator. injection Hcreator as <-.
  vm_compute in Hbase. injection Hbase as <-.
  vm_compute in Hquote. injection Hquote as <-.
  injection Hc as <-. vm_compute in Hm. injection Hm as <-.
  vm_compute in Hpool. injection Hpool as <- <-.
  reflexivity.
Defined.

Section UserProfileProperties.

Context {Number World : Type}.
Context (post_get_balance : string -> World -> fetched (option Number) * World).
Context (post_get_tokens :
  string -> World -> fetched (option (list GetTokens.TokenAccount)) * World).

(** X23.  [fetchUserData] never throws and always ends with [loading] unset.
    It asks for the balance first, once, and then at most once for the
    tokens, both for the wallet it was given.  A balance response that is
    not ok changes nothing and the tokens are still asked for; only a
    rejected request or an unreadable body ends the run early.  The balance
    and the token list of the page are what they were unless an ok response
    replaced them by what it held. *)
Theorem fetchUserData_keeps_what_it_cannot_refresh
    (walletAddress : string) (s : Sys (UserProfile.State Number) World UserProfile.event) :
  exists s' new,
    UserProfile.fetchUserData post_get_balance post_get_tokens walletAddress s
    = (Ok tt, s')
    /\ UserProfile.loading (st s') = false
    /\ trace s' = trace s ++ UserProfile.PostGetBalance walletAddress :: new
    /\ (new = [] \/ new = [UserProfile.PostGetTokens walletAddress])
    /\ (forall ok json,
          fst (post_get_balance walletAddress (world s)) = Response ok json ->
          (ok = false \/ is_Some json) ->
          new = [UserProfile.PostGetTokens walletAddress])
    /\ (UserProfile.solBalance (st s') = UserProfile.solBalance (st s)
        \/ fst (post_get_balance walletAddress (world s))
           = Response true (Some (UserProfile.solBalance (st s'))))
    /\ (UserProfile.tokens (st s') = UserProfile.tokens (st s)
        \/ exists w,
             fst (post_get_tokens walletAddress w)
             = Response true (Some (UserProfile.tokens (st s')))).
Proof.
  unfold UserProfile.fetchUserData. run.
  destruct (post_get_balance walletAddress (world s)) as [balanceRes w1]. run.
  destruct balanceRes as [msg | [|] [balance |]]; run.
  1, 3: eexists _, []; (split; [reflexivity |]); cbn [st trace UserProfile.loading
          UserProfile.setLoading UserProfile.solBalance UserProfile.tokens];
        (split; [reflexivity |]); (split; [reflexivity |]); (split; [by left |]);
        (split; [| by split; left]);
        intros ok json [=] Hread; subst; by destruct Hread as [? | [? ?]].
  all: destruct (post_get_tokens walletAddress w1) as [tokensRes w2] eqn:Htokens; run;
    destruct tokensRes as [msg | [|] [tokens |]]; run;
    eexists _, [_]; (split; [reflexivity |]);
    cbn [st trace UserProfile.loading UserProfile.setLoading UserProfile.setSolBalance
         UserProfile.setTokens UserProfile.solBalance UserProfile.tokens];
    (split; [reflexivity |]); (split; [by rewrite <- app_assoc |]);
    (split; [by right |]); (split; [done |]);
    (split; [first [by left | by right] |]);
    first [by left | right; exists w1; by rewrite Htokens].
Qed.

End UserProfileProperties.

Section GetBalanceMore.

Context {World Connection PublicKey : Type}.
Context (new_Connection : string -> option Connection).
Context (new_PublicKey : jsval -> option PublicKey).
Context (getBalance : Connection -> PublicKey -> World -> result Z * World).

(** X18.  The balance lookup throws for one kind of request only, a POST
    whose JSON body is [null], and then before anything is asked: the state,
    the world and the trace are what they were.  Every other request is
    answered, with the configuration left as it is.  The node is asked at
    most once, and then for the key built from the [address] field of the
    request; any other answer than 200 or the 500 of a failed lookup is
    given without asking the node, with the world as it was.  An answer with
    a balance has status 200 and holds the lamports the node reported for
    that key. *)
Theorem balance_answer_comes_from_the_node
    (method : string) (req : option (gmap string jsval))
    (s : Sys string World (GetBalance.event PublicKey)) :
  (method = "POST" /\ req = None
   /\ exists msg,
        GetBalance.handler new_Connection new_PublicKey getBalance method req s
        = (Thrown msg, s))
  \/ exists answer s',
       GetBalance.handler new_Connection new_PublicKey getBalance method req s
       = (Ok answer, s')
       /\ (method = "POST" -> req <> None)
       /\ st s' = st s
       /\ (trace s' = trace s /\ world s' = world s
           /\ (forall b, body answer <> Success b)
           \/ exists connection publicKey req_body,
                req = Some req_body
                /\ new_Connection (st s) = Some connection
                /\ req_body !! "address" ≫= new_PublicKey = Some publicKey
                /\ method = "POST"
                /\ trace s' = trace s ++ [GetBalance.RpcGetBalance publicKey]
                /\ world s' = snd (getBalance connection publicKey (world s))
                /\ match fst (getBalance connection publicKey (world s)) with
                   | Ok lamports =>
                       answer = mkReply 200 [] (Success (GetBalance.mkBalanceBody lamports))
                   | Thrown msg =>
                       answer = mkReply 500 [] (Failure "Failed to fetch balance" (Some msg))
                   end).
Proof.
  unfold GetBalance.handler, destructure. run.
  destruct (String.eqb method "POST") eqn:Hmethod; cbn [negb].
  2: { right. eexists _, s. split; [reflexivity |]. split.
       - intros ->. by rewrite String.eqb_refl in Hmethod.
       - split; [reflexivity |]. by left. }
  apply String.eqb_eq in Hmethod. subst method.
  destruct req as [req_body |]; run.
  2: { left. destruct s. by eauto. }
  right.
  destruct (truthy (req_body !! "address")); cbn [negb];
    [| eexists _, s; (split; [reflexivity |]); (split; [done |]);
       (split; [reflexivity |]); by left].
  run.
  destruct (env_set (st s)); cbn [negb]; [| eexists _, s; (split; [reflexivity |]); (split; [done |]);
       (split; [reflexivity |]); by left].
  destruct (new_Connection (st s)) as [connection |] eqn:Hconn; run;
    [| eexists _, s; (split; [reflexivity |]); (split; [done |]);
       (split; [reflexivity |]); by left].
  destruct (req_body !! "address" ≫= new_PublicKey) as [publicKey |] eqn:Hkey; run;
    [| eexists _, s; (split; [reflexivity |]); (split; [done |]);
       (split; [reflexivity |]); by left].
  destruct (getBalance connection publicKey (world s)) as [fetched_balance w] eqn:Hnode.
  run.
  destruct fetched_balance as [lamports | msg]; run;
    eexists _, _; (split; [reflexivity |]); (split; [done |]);
    (split; [reflexivity |]);
    right; exists connection, publicKey, req_body; rewrite Hnode; by repeat split.
Qed.

End GetBalanceMore.

Lemma claimFees_claims_the_listed_pool_witness :
  exists s',
    AdminClaim.claimFees Scenario2.claim_endpoint Scenario.wallet_sign
      Scenario2.send_endpoint Scenario.get_admin_fees "PoolZ"
      (mkSys (AdminClaim.mkState (Scenario.admin_page Scenario.three_pools 0) None) tt [])
    = (Ok tt, s')
    /\ AdminClaim.claiming (st s') = None
    /\ AdminClaim.claim_requests (trace s') = [].
Proof.
  destruct (claimFees_claims_the_listed_pool Scenario2.claim_endpoint
              Scenario.wallet_sign Scenario2.send_endpoint Scenario.get_admin_fees
              "PoolZ"
              (mkSys (AdminClaim.mkState (Scenario.admin_page Scenario.three_pools 0) None)
                 tt []))
    as (s' & new & Hrun & Htrace & Hclaiming & _ & Hrequests & _).
  exists s'. split; [exact Hrun |].
  split; [by apply (Hclaiming "AdminWallet") |].
  rewrite Htrace. cbn [trace app].
  destruct (AdminClaim.claim_requests new) as [| b rest] eqn:Hnew; [reflexivity |].
  destruct (Hrequests b) as (payer & f & _ & Hfind & _); [by left |].
  discriminate Hfind.
Defined.

Lemma claim_endpoint_builds_for_the_admin_only_witness :
  exists s',
    ClaimFeesApi.handler Scenario.new_Connection Scenario.new_PublicKey
      Scenario.claimPartnerTradingFee Scenario.getLatestBlockhash Scenario.serialize
      "POST" (<["payerAddress" := JStr "AdminWallet"]> Scenario.foreign_claim)
      (mkSys Scenario.admin_env tt [])
    = (Ok (mkReply 200 [] (Success (ClaimFeesApi.mkClaimBody "claim PoolA"))), s')
    /\ <["payerAddress" := JStr "AdminWallet"]> Scenario.foreign_claim !! "payerAddress"
       = Some (JStr "AdminWallet").
Proof.
  destruct (claim_endpoint_builds_for_the_admin_only Scenario.new_Connection
              Scenario.new_PublicKey Scenario.claimPartnerTradingFee
              Scenario.getLatestBlockhash Scenario.serialize "POST"
              (<["payerAddress" := JStr "AdminWallet"]> Scenario.foreign_claim)
              (mkSys Scenario.admin_env tt []))
    as (answer & s' & new & Hrun & _ & _ & Hadmin & _).
  exists s'. vm_compute in Hrun. injection Hrun as <- <-.
  split; [reflexivity |].
  apply Hadmin. by right.
Defined.
